(** * AI-Chef: the accounting core of the recipe bot

    A shallow embedding of the balance store and payment ledger of
    [database.py] and of the rate limiter and request orchestrator of
    [bot.py], with the properties of the accounting core proved over it.

    The SQLite tables are finite maps keyed by their primary key, the
    module-level dictionary [last_request_time] is a finite map as well, and
    every coroutine is a computation in a state monad over the whole process
    state.  A coroutine is run to completion: an SQL statement followed by
    its commit is one step, and the awaits of one handler are not interleaved
    with those of another.  Clock readings ([datetime.now()],
    [CURRENT_TIMESTAMP]) and the answers of the external collaborators (the
    generation backend, the payment provider) are inputs of the model. *)

From stdpp Require Import base gmap strings list.
From Stdlib Require Import ZArith Lia.

Open Scope Z_scope.

(** ** Configuration ([config.py], read through its imports) *)

Record Config := mkConfig {
  FREE_RECIPES_ON_START : Z;
  RATE_LIMIT_SECONDS : Z;
  MAX_PROMPT_LENGTH : Z
}.

(** ** Tables of [init_db]

    [tokens_balance] and [total_recipes] are INTEGER columns.  [total_spent]
    and [amount] are REAL columns that hold package prices in whole rubles
    ([payment.py] renders a price as [str(amount) + ".00"]); sums of such
    values are exact, so the model keeps them in [Z].  Timestamps are clock
    readings. *)

Record User := mkUser {
  username : string;
  full_name : string;
  tokens_balance : Z;
  total_spent : Z;
  total_recipes : Z;
  created_at : Z;
  last_seen : Z
}.

Record Recipe := mkRecipe {
  recipe_user_id : Z;
  prompt : string;
  response : string;
  recipe_created_at : Z
}.

Record Payment := mkPayment {
  user_id : Z;
  package_key : string;
  amount : Z;
  recipes_count : Z;
  status : string;
  payment_created_at : Z
}.

(** ** What the process emits: log records, chat messages, backend calls *)

Inductive Level := INFO | WARNING | ERROR.

Inductive LogMsg :=
| NewUser (uid : Z)
| TokensAdded (uid count : Z)
| PaymentNotFound (payment_id : string)
| Credited (count uid : Z)
| RecipeDone (uid balance : Z)
| GenerationFailed (uid : Z) (reason : string).

Inductive Message :=
| TooLong (limit : Z)
| MustWait (wait_seconds : Z)
| NoRecipesLeft
| Thinking
| TokensRanOut
| RecipeReady (recipe : string) (new_balance : Z)
| LastRecipeWarning
| GenerationError (reason : string)
| CheckingPayment
| PaymentSucceeded (balance : Z)
| PaymentCanceled
| PaymentPending.

Inductive Event :=
| Logged (lvl : Level) (msg : LogMsg)
| Sent (msg : Message)
| BackendCalled (user_input : string).

(** ** Process state *)

Record World := mkWorld {
  users : gmap Z User;
  recipes : list Recipe;
  payments : gmap string Payment;
  last_request_time : gmap Z Z;
  trace : list Event
}.

Definition set_users (f : gmap Z User → gmap Z User) (w : World) : World :=
  mkWorld (f (users w)) (recipes w) (payments w) (last_request_time w) (trace w).

Definition set_recipes (f : list Recipe → list Recipe) (w : World) : World :=
  mkWorld (users w) (f (recipes w)) (payments w) (last_request_time w) (trace w).

Definition set_payments (f : gmap string Payment → gmap string Payment)
    (w : World) : World :=
  mkWorld (users w) (recipes w) (f (payments w)) (last_request_time w) (trace w).

Definition set_last_request_time (f : gmap Z Z → gmap Z Z) (w : World) : World :=
  mkWorld (users w) (recipes w) (payments w) (f (last_request_time w)) (trace w).

Definition set_trace (f : list Event → list Event) (w : World) : World :=
  mkWorld (users w) (recipes w) (payments w) (last_request_time w) (f (trace w)).

(** ** The state monad of the coroutines *)

Definition M (A : Type) : Type := World → A * World.

#[global] Instance M_ret : MRet M := λ A (a : A) w, (a, w).

#[global] Instance M_bind : MBind M := λ A B (f : A → M B) (m : M A) w,
  let '(a, w') := m w in f a w'.

Definition gets {A} (f : World → A) : M A := λ w, (f w, w).

Definition modify (f : World → World) : M unit := λ w, (tt, f w).

Definition emit (e : Event) : M unit := modify (set_trace (λ t, t ++ [e])).

Definition logger (lvl : Level) (msg : LogMsg) : M unit := emit (Logged lvl msg).

Definition send (msg : Message) : M unit := emit (Sent msg).

(** State and value after running a computation. *)
Definition exec {A} (m : M A) (w : World) : World := (m w).2.
Definition eval {A} (m : M A) (w : World) : A := (m w).1.

(** ** SQL statements used by [database.py] *)

(** [UPDATE t SET ... WHERE key = ? AND cond]: the row under the key is
    rewritten when it exists and satisfies the condition; the result also
    carries [cursor.rowcount]. *)
Definition sql_update `{Countable K} {V} (key : K) (cond : V → bool)
    (set : V → V) (t : gmap K V) : gmap K V * Z :=
  match t !! key with
  | Some row => if cond row then (<[key := set row]> t, 1) else (t, 0)
  | None => (t, 0)
  end.

Definition always {V} (_ : V) : bool := true.

Arguments sql_update : simpl never.

Section database.

Context (cfg : Config).

(** [get_or_create_user]: an existing row gets [last_seen], [username] and
    [full_name] rewritten and the row read before the update is returned; a
    new row is inserted with the free recipes and the column defaults. *)
Definition get_or_create_user (now : Z) (uid : Z) (uname fname : string)
    : M User :=
  user ← gets (λ w, users w !! uid);
  match user with
  | Some u =>
      modify (set_users (λ t,
        (sql_update uid always
           (λ r, mkUser uname fname (tokens_balance r) (total_spent r)
                        (total_recipes r) (created_at r) now) t).1));;
      mret u
  | None =>
      let row := mkUser uname fname (FREE_RECIPES_ON_START cfg) 0 0 now now in
      modify (set_users (insert uid row));;
      logger INFO (NewUser uid);;
      created ← gets (λ w, users w !! uid);
      mret (default row created)
  end.

Definition get_user (uid : Z) : M (option User) :=
  gets (λ w, users w !! uid).

Definition get_balance (uid : Z) : M Z :=
  user ← get_user uid;
  mret (match user with Some u => tokens_balance u | None => 0 end).

Definition deduct_token (uid : Z) : M bool :=
  rowcount ← (λ w,
    let '(t, n) :=
      sql_update uid (λ r, bool_decide (0 < tokens_balance r))
        (λ r, mkUser (username r) (full_name r) (tokens_balance r - 1)
                     (total_spent r) (total_recipes r + 1) (created_at r)
                     (last_seen r)) (users w) in
    (n, set_users (λ _, t) w));
  mret (bool_decide (0 < rowcount)).

Definition add_tokens (uid count : Z) : M unit :=
  modify (set_users (λ t,
    (sql_update uid always
       (λ r, mkUser (username r) (full_name r) (tokens_balance r + count)
                    (total_spent r) (total_recipes r) (created_at r)
                    (last_seen r)) t).1));;
  logger INFO (TokensAdded uid count).

Definition save_recipe (now : Z) (uid : Z) (user_input recipe : string)
    : M unit :=
  modify (set_recipes (λ l, l ++ [mkRecipe uid user_input recipe now])).

(** [INSERT OR REPLACE]: whatever row the key had is replaced. *)
Definition save_payment (now : Z) (pid : string) (uid : Z) (pkg : string)
    (amt count : Z) : M unit :=
  modify (set_payments (insert pid (mkPayment uid pkg amt count "pending" now))).

Definition set_status (new_status : string) (p : Payment) : Payment :=
  mkPayment (user_id p) (package_key p) (amount p) (recipes_count p)
            new_status (payment_created_at p).

Definition credit (count amt : Z) (r : User) : User :=
  mkUser (username r) (full_name r) (tokens_balance r + count)
         (total_spent r + amt) (total_recipes r) (created_at r) (last_seen r).

Definition update_payment_status (pid : string) (new_status : string)
    : M unit :=
  row ← gets (λ w, payments w !! pid);
  match row with
  | None => logger WARNING (PaymentNotFound pid)
  | Some p =>
      (if bool_decide (new_status = "succeeded" ∧ status p = "pending") then
         modify (set_users (λ t,
           (sql_update (user_id p) always
              (credit (recipes_count p) (amount p)) t).1));;
         logger INFO (Credited (recipes_count p) (user_id p))
       else mret tt);;
      modify (set_payments (λ t,
        (sql_update pid always (set_status new_status) t).1))
  end.

End database.

(** ** Rate limiter and request orchestrator ([bot.py]) *)

(** A [datetime] is a number of microseconds; [total_seconds()] of a
    difference is that number over [10^6]. *)
Definition microseconds_per_second : Z := 1000000.

Definition seconds (s : Z) : Z := s * microseconds_per_second.

(** What the generation backend answers to one call. *)
Inductive GenResult :=
| Generated (recipe : string)
| Raised (reason : string).

(** Inputs of one request: the clock readings taken by [check_rate_limit],
    by [update_rate_limit] and by [save_recipe], and the backend. *)
Record Env := mkEnv {
  now_check : Z;
  now_stamp : Z;
  now_save : Z;
  generate_recipe : string → GenResult
}.

Section bot.

Context (cfg : Config).

(** [int(wait)] truncates towards zero, hence [Z.quot]. *)
Definition check_rate_limit (now : Z) (uid : Z) : M Z :=
  last ← gets (λ w, last_request_time w !! uid);
  mret (match last with
        | Some t =>
            let elapsed := now - t in
            let wait := seconds (RATE_LIMIT_SECONDS cfg) - elapsed in
            if bool_decide (0 < wait)
            then Z.quot wait microseconds_per_second + 1
            else 0
        | None => 0
        end).

Definition update_rate_limit (now : Z) (uid : Z) : M unit :=
  modify (set_last_request_time (insert uid now)).

(** The call [ai.generate_recipe(user_input)], recorded in the trace. *)
Definition call_backend (env : Env) (user_input : string) : M GenResult :=
  emit (BackendCalled user_input);;
  mret (generate_recipe env user_input).

Definition len (s : string) : Z := Z.of_nat (String.length s).

(** [_generate_recipe_for_user].  The chat transport is a notifier that does
    not fail; keyboards, parse modes and the optional photo are left out of
    the messages. *)
Definition _generate_recipe_for_user (env : Env) (uid : Z)
    (user_input : string) : M unit :=
  if bool_decide (MAX_PROMPT_LENGTH cfg < len user_input) then
    send (TooLong (MAX_PROMPT_LENGTH cfg))
  else
    wait_seconds ← check_rate_limit (now_check env) uid;
    if bool_decide (0 < wait_seconds) then
      send (MustWait wait_seconds)
    else
      balance ← get_balance uid;
      if bool_decide (balance ≤ 0) then
        send NoRecipesLeft
      else
        send Thinking;;
        update_rate_limit (now_stamp env) uid;;
        outcome ← call_backend env user_input;
        match outcome with
        | Raised e =>
            logger ERROR (GenerationFailed uid e);;
            send (GenerationError (String.substring 0 100 e))
        | Generated recipe =>
            success ← deduct_token uid;
            if negb success then
              send TokensRanOut
            else
              save_recipe (now_save env) uid user_input recipe;;
              new_balance ← get_balance uid;
              send (RecipeReady recipe new_balance);;
              (if bool_decide (0 < new_balance ∧ new_balance ≤ 1)
               then send LastRecipeWarning else mret tt);;
              logger INFO (RecipeDone uid new_balance)
        end.

(** [check_payment]: [provider_status] is the answer of
    [pay.check_payment_status]. *)
Definition check_payment (provider_status : string) (uid : Z) (pid : string)
    : M unit :=
  send CheckingPayment;;
  if bool_decide (provider_status = "succeeded") then
    update_payment_status pid "succeeded";;
    balance ← get_balance uid;
    send (PaymentSucceeded balance)
  else if bool_decide (provider_status = "canceled") then
    send PaymentCanceled
  else
    send PaymentPending.

End bot.

(** ** Repeated calls *)

(** [k] calls of [deduct_token] for one account, with their results in
    call order. *)
Fixpoint deduct_tokens (k : nat) (uid : Z) : M (list bool) :=
  match k with
  | O => mret []
  | S k' =>
      r ← deduct_token uid;
      rs ← deduct_tokens k' uid;
      mret (r :: rs)
  end.

(** Requests served one after another, each with its own inputs. *)
Fixpoint serve (cfg : Config) (uid : Z) (reqs : list (Env * string)) : M unit :=
  match reqs with
  | [] => mret tt
  | (env, user_input) :: reqs' =>
      _generate_recipe_for_user cfg env uid user_input;;
      serve cfg uid reqs'
  end.

Definition backend_calls (w : World) : list string :=
  omap (λ e, match e with BackendCalled s => Some s | _ => None end) (trace w).

Definition sent (w : World) : list Message :=
  omap (λ e, match e with Sent m => Some m | _ => None end) (trace w).

Definition balance_of (w : World) (uid : Z) : Z := eval (get_balance uid) w.

Definition empty_world : World := mkWorld ∅ [] ∅ ∅ [].

(** ** Vocabulary of the statements *)

Definition settled_users (new_status : string) (p : Payment)
    (t : gmap Z User) : gmap Z User :=
  if bool_decide (new_status = "succeeded" ∧ status p = "pending")
  then (sql_update (user_id p) always (credit (recipes_count p) (amount p)) t).1
  else t.

Definition settled_trace (new_status : string) (p : Payment) : list Event :=
  if bool_decide (new_status = "succeeded" ∧ status p = "pending")
  then [Logged INFO (Credited (recipes_count p) (user_id p))]
  else [].

Definition config3 : Config := mkConfig 3 30 500.

Definition guest : User := mkUser "guest" "Guest" 0 0 0 0 0.

Definition pack10 : Payment := mkPayment 7 "pack10" 199 10 "pending" 0.

(** Account 7 with an empty balance and one pending payment for it. *)
Definition world_pending : World :=
  mkWorld {[ 7 := guest ]} [] {[ "pay-1" := pack10 ]} ∅ [].

(** A settlement surfaces the missing record to its caller when the value it
    hands back differs from the one handed back for a record that is
    found. *)
Definition surfaces_not_found (w : World) (pid st : string) : Prop :=
  ∃ (w' : World) (pid' : string),
    is_Some (payments w' !! pid') ∧
    eval (update_payment_status pid st) w
      ≠ eval (update_payment_status pid' st) w'.

(** An account without a row reads as the configured starting balance, and
    the read changes nothing. *)
Definition unseen_reads_default (cfg : Config) (w : World) (uid : Z) : Prop :=
  users w !! uid = None →
  get_balance uid w = (FREE_RECIPES_ON_START cfg, w).

(** The row left by [n] successful debits. *)
Definition debited (n : Z) (r : User) : User :=
  mkUser (username r) (full_name r) (tokens_balance r - n) (total_spent r)
         (total_recipes r + n) (created_at r) (last_seen r).

(** The number of calls that succeed out of [k] on a balance of [b]. *)
Definition successes (k : nat) (b : Z) : nat :=
  Z.to_nat (Z.min (Z.of_nat k) b).

(** How many of the calls returned [True]. *)
Definition succeeded (rs : list bool) : nat :=
  length (filter (λ r : bool, r = true) rs).

(** Account 7 holding three recipes. *)
Definition world_three : World :=
  mkWorld {[ 7 := mkUser "guest" "Guest" 3 0 0 0 0 ]} [] ∅ ∅ [].

Definition last_recipe_warning (new_balance : Z) : list Event :=
  if bool_decide (0 < new_balance ∧ new_balance ≤ 1)
  then [Sent LastRecipeWarning] else [].

Definition env_timeout (now : Z) : Env :=
  mkEnv now now now (λ _, Raised "timeout").

(** The request is rejected for its balance: the one message sent says that
    the recipes ran out, and the backend is not called. *)
Definition rejected_for_balance (cfg : Config) (env : Env) (uid : Z)
    (user_input : string) (w : World) : Prop :=
  let w' := exec (_generate_recipe_for_user cfg env uid user_input) w in
  sent w' = sent w ++ [NoRecipesLeft] ∧
  backend_calls w' = backend_calls w.

Definition env_ok (now : Z) : Env :=
  mkEnv now now now (λ user_input, Generated ("Recipe: " +:+ user_input)).

(** A new account that used its three free recipes at 0, 30 and 60
    seconds. *)
Definition world_spent : World :=
  exec (serve config3 7 [(env_ok (seconds 0), "soup");
                         (env_ok (seconds 30), "salad");
                         (env_ok (seconds 60), "pie")])
       (exec (get_or_create_user config3 0 7 "guest" "Guest") empty_world).

(** * The rest of the bot: purchases, notifications, greetings

    The handlers below keep the process state of the accounting core; what
    they show, post or log themselves is handed back as their value, in the
    order it was produced. *)

From Stdlib Require Import Ascii.

(** ** Payment provider ([payment.py]) *)

Record Package := mkPackage {
  pkg_name : string;
  pkg_price : Z;
  pkg_recipes : Z
}.

(** The part of [config.py] read by [payment.py], [bot.py] and
    [api/main.py]; [YOOKASSA_AVAILABLE] is the module flag set when the SDK
    is imported. *)
Record PayConfig := mkPayConfig {
  PACKAGES : gmap string Package;
  YOOKASSA_USE_MOCK : bool;
  YOOKASSA_AVAILABLE : bool;
  YOOKASSA_SHOP_ID : string;
  TELEGRAM_BOT_TOKEN : string
}.

Inductive Exn :=
| ValueError (what : string)
| RuntimeError (cause : string).

Inductive Result (A : Type) :=
| Return (a : A)
| Raise (e : Exn).

Arguments Return {A} a.
Arguments Raise {A} e.

(** The dictionary built by [create_payment]. *)
Record PaymentData := mkPaymentData {
  payment_id : string;
  payment_url : string;
  pd_amount : Z;
  pd_recipes_count : Z
}.

(** What the SDK answers: to [Payment.create] the id and confirmation url of
    the new payment, to [Payment.find_one] the status; either call may raise,
    with the text of the exception. *)
Inductive SdkAnswer (A : Type) :=
| Answered (a : A)
| Failed (reason : string).

Arguments Answered {A} a.
Arguments Failed {A} reason.

Record PayEnv := mkPayEnv {
  uuid_hex : string;
  sdk_create : Z → Z → string → Z → string → SdkAnswer (string * string);
  sdk_find_one : string → SdkAnswer string
}.

Inductive Note :=
| MockPaymentCreated (pid : string) (uid amt : Z)
| PaymentCreated (pid : string) (uid : Z)
| PaymentCreateFailed (reason : string)
| WrongKeysHint
| PaymentCheckFailed (pid reason : string)
| PurchaseError (uid : Z) (e : Exn)
| StartReceived (uid : Z)
| WebhookInvalidJson
| WebhookEvent (event : string) (pid : option string)
| NotifyFailed.

Inductive Screen :=
| InvalidPackage
| CreatingLink
| PaymentOffer (pkg : Package) (data : PaymentData)
| PurchaseFailed (e : Exn)
| Welcome (first_name : string) (gift : Z)
| WelcomeBack (first_name : string) (balance : Z).

Inductive Output :=
| Shown (s : Screen)
| Noted (lvl : Level) (n : Note)
| Posted (chat_id balance : Z).

Definition mock_checkout : string := "https://yookassa.ru/checkout/payments/".

Definition contains (needle hay : string) : bool :=
  bool_decide (is_Some (String.index 0 needle hay)).

Section payment.

Context (pc : PayConfig) (penv : PayEnv).

Definition _create_mock_payment (uid : Z) (package_key : string)
    (amt count : Z) : Result PaymentData * list Output :=
  let pid := "mock_" +:+ String.substring 0 16 (uuid_hex penv) in
  let url := mock_checkout +:+ pid in
  (Return (mkPaymentData pid url amt count),
   [Noted INFO (MockPaymentCreated pid uid amt)]).

Definition _create_real_payment (uid : Z) (package_key : string)
    (amt count : Z) (name : string) : Result PaymentData * list Output :=
  match sdk_create penv amt uid package_key count name with
  | Answered (pid, url) =>
      (Return (mkPaymentData pid url amt count),
       [Noted INFO (PaymentCreated pid uid)])
  | Failed reason =>
      (Raise (RuntimeError reason),
       Noted ERROR (PaymentCreateFailed reason)
       :: (if contains "401" reason then [Noted ERROR WrongKeysHint] else []))
  end.

Definition create_payment (uid : Z) (package_key : string)
    : Result PaymentData * list Output :=
  match PACKAGES pc !! package_key with
  | None => (Raise (ValueError package_key), [])
  | Some package =>
      let amt := pkg_price package in
      let count := pkg_recipes package in
      if YOOKASSA_USE_MOCK pc || negb (YOOKASSA_AVAILABLE pc)
         || bool_decide (YOOKASSA_SHOP_ID pc = "test_shop"
                         ∨ YOOKASSA_SHOP_ID pc = EmptyString)
      then _create_mock_payment uid package_key amt count
      else _create_real_payment uid package_key amt count (pkg_name package)
  end.

Definition check_payment_status (pid : string) : string * list Output :=
  if String.prefix "mock_" pid then ("succeeded", [])
  else if negb (YOOKASSA_AVAILABLE pc) then ("pending", [])
  else match sdk_find_one penv pid with
       | Answered st => (st, [])
       | Failed reason =>
           ("pending", [Noted ERROR (PaymentCheckFailed pid reason)])
       end.

(** ** Purchase and greeting handlers ([bot.py]) *)

Definition process_purchase (now : Z) (uid : Z) (package_key : string)
    : M (list Output) :=
  match PACKAGES pc !! package_key with
  | None => mret [Shown InvalidPackage]
  | Some pkg =>
      match create_payment uid package_key with
      | (Return data, notes) =>
          save_payment now (payment_id data) uid package_key
            (pd_amount data) (pd_recipes_count data);;
          mret (Shown CreatingLink :: notes ++ [Shown (PaymentOffer pkg data)])
      | (Raise e, notes) =>
          mret (Shown CreatingLink :: notes
                ++ [Shown (PurchaseFailed e); Noted ERROR (PurchaseError uid e)])
      end
  end.

(** [check_payment] as the callback runs it: the status it acts on is the
    answer of [pay.check_payment_status], and what that call logs is handed
    back. *)
Definition check_payment_button (uid : Z) (pid : string) : M (list Output) :=
  let '(st, notes) := check_payment_status pid in
  check_payment st uid pid;;
  mret notes.

End payment.

(** ** Button presses ([bot.py]) *)

(** [text.replace(pat, by_)] for a pattern that is not empty: the text is
    read from the left, every occurrence found is replaced and reading goes
    on behind it; [skip] counts the characters of an occurrence still to be
    passed over. *)
Fixpoint replace_from (skip : nat) (pat by_ : string) (text : string)
    : string :=
  match text with
  | EmptyString => EmptyString
  | String a rest =>
      match skip with
      | S k => replace_from k pat by_ rest
      | O =>
          if String.prefix pat text
          then by_ +:+ replace_from (String.length pat - 1) pat by_ rest
          else String a (replace_from 0 pat by_ rest)
      end
  end.

Definition str_replace (pat by_ text : string) : string :=
  replace_from 0 pat by_ text.

(** The screens of the menu buttons. *)
Inductive Menu :=
| NewRecipeHelp
| BalanceScreen (balance : Z)
| PackagesList
| HelpScreen
| MainMenu
| NoReplyText.

(** [handle_callback]: [data] is the callback data of the pressed button and
    [reply_text] the stripped text of the message the button hangs on, when
    there is one that is not empty.  The purchase, payment check and recipe
    branches hand back what those handlers produce, the menu branches the
    screen they show. *)
Definition handle_callback (cfg : Config) (pc : PayConfig) (penv : PayEnv)
    (env : Env) (now : Z) (uid : Z) (data : string)
    (reply_text : option string) : M (list Output + Menu) :=
  if bool_decide (data = "new_recipe") then mret (inr NewRecipeHelp)
  else if bool_decide (data = "balance") then
    user_data ← get_user uid;
    mret (inr (BalanceScreen
                 (match user_data with
                  | Some u => tokens_balance u
                  | None => 0
                  end)))
  else if bool_decide (data = "buy") then mret (inr PackagesList)
  else if bool_decide (data = "help") then mret (inr HelpScreen)
  else if bool_decide (data = "back_main") then mret (inr MainMenu)
  else if String.prefix "buy_" data then
    out ← process_purchase pc penv now uid (str_replace "buy_" EmptyString data);
    mret (inl out)
  else if bool_decide (data = "recipe_from_msg") then
    match reply_text with
    | Some user_input =>
        _generate_recipe_for_user cfg env uid user_input;; mret (inl [])
    | None => mret (inr NoReplyText)
    end
  else if String.prefix "check_payment_" data then
    out ← check_payment_button pc penv uid
            (str_replace "check_payment_" EmptyString data);
    mret (inl out)
  else mret (inl []).

(** [pat] occurs nowhere in [text]. *)
Definition free_of (pat text : string) : Prop :=
  ∀ pre post, text ≠ pre +:+ pat +:+ post.

(** The Telegram user of an update. *)
Record TgUser := mkTgUser {
  tg_id : Z;
  tg_username : option string;
  tg_first_name : string;
  tg_full_name : string
}.

Definition cmd_start (cfg : Config) (now : Z) (user : TgUser)
    : M (list Output) :=
  user_data ← get_or_create_user cfg now (tg_id user)
                 (default EmptyString (tg_username user)) (tg_full_name user);
  let balance := tokens_balance user_data in
  let is_new := bool_decide (total_recipes user_data = 0) in
  mret [Noted INFO (StartReceived (tg_id user));
        Shown (if is_new
               then Welcome (tg_first_name user) (FREE_RECIPES_ON_START cfg)
               else WelcomeBack (tg_first_name user) balance)].

(** ** Markdown escaping ([bot.py]) *)

(** [text.replace(c, by)] for a one-character [c]. *)
Fixpoint replace_char (c : Ascii.ascii) (by_ : string) (text : string) : string :=
  match text with
  | EmptyString => EmptyString
  | String a rest =>
      if Ascii.eqb a c then by_ +:+ replace_char c by_ rest
      else String a (replace_char c by_ rest)
  end.

Definition backslash : Ascii.ascii := "\"%char.

Definition markdown_specials : list Ascii.ascii :=
  ["_"%char; "*"%char; "`"%char; "["%char].

Definition _escape_md (text : string) : string :=
  foldl (λ t c, replace_char c (String backslash (String c EmptyString)) t)
        text markdown_specials.

(** ** Provider notifications ([api/main.py]) *)

(** [metadata.get("user_id")] and what [int] makes of it. *)
Inductive MetaUser :=
| NoUserId
| NotANumber
| UserId (uid : Z).

(** The fields of the notification body read by the webhook; [object_id] is
    [None] when the object carries no id. *)
Record Notification := mkNotification {
  event : string;
  object_id : option string;
  object_status : string;
  metadata_user_id : MetaUser
}.

(** [yookassa_webhook]: [body] is the JSON object of the request, [None]
    when the request is not JSON; [post_ok] tells whether the [sendMessage]
    request went through.  The answer to the provider is [{"ok": True}] on
    every path. *)
Definition yookassa_webhook (pc : PayConfig) (post_ok : bool)
    (body : option Notification) : M (list Output) :=
  match body with
  | None => mret [Noted WARNING WebhookInvalidJson]
  | Some n =>
      let seen := Noted INFO (WebhookEvent (event n) (object_id n)) in
      if bool_decide (event n = "payment.succeeded") then
        match object_id n with
        | Some pid =>
            if bool_decide (pid ≠ EmptyString ∧ object_status n = "succeeded") then
              update_payment_status pid "succeeded";;
              match metadata_user_id n with
              | UserId uid =>
                  if bool_decide (TELEGRAM_BOT_TOKEN pc ≠ EmptyString) then
                    balance ← get_balance uid;
                    mret (seen :: (if post_ok then [Posted uid balance]
                                   else [Noted WARNING NotifyFailed]))
                  else mret [seen]
              | NotANumber =>
                  mret (seen :: (if bool_decide (TELEGRAM_BOT_TOKEN pc ≠ EmptyString)
                                 then [Noted WARNING NotifyFailed] else []))
              | NoUserId => mret [seen]
              end
            else mret [seen]
        | None => mret [seen]
        end
      else mret [seen]
  end.

(** ** Sequences of calls *)

Inductive Call :=
| GetOrCreateUser (now uid : Z) (uname fname : string)
| DeductToken (uid : Z)
| AddTokens (uid count : Z)
| SaveRecipe (now uid : Z) (user_input recipe : string)
| SavePayment (now : Z) (pid : string) (uid : Z) (pkg : string) (amt count : Z)
| UpdatePaymentStatus (pid new_status : string)
| GenerateRecipe (env : Env) (uid : Z) (user_input : string)
| CheckPayment (provider_status : string) (uid : Z) (pid : string).

Definition call (cfg : Config) (c : Call) : M unit :=
  match c with
  | GetOrCreateUser now uid uname fname =>
      get_or_create_user cfg now uid uname fname;; mret tt
  | DeductToken uid => deduct_token uid;; mret tt
  | AddTokens uid count => add_tokens uid count
  | SaveRecipe now uid user_input recipe => save_recipe now uid user_input recipe
  | SavePayment now pid uid pkg amt count => save_payment now pid uid pkg amt count
  | UpdatePaymentStatus pid st => update_payment_status pid st
  | GenerateRecipe env uid user_input =>
      _generate_recipe_for_user cfg env uid user_input
  | CheckPayment st uid pid => check_payment st uid pid
  end.

Fixpoint calls (cfg : Config) (cs : list Call) : M unit :=
  match cs with
  | [] => mret tt
  | c :: cs' => call cfg c;; calls cfg cs'
  end.

(** Packages and top-ups never carry negative numbers. *)
Definition sane (c : Call) : Prop :=
  match c with
  | AddTokens _ count => 0 ≤ count
  | SavePayment _ _ _ _ amt count => 0 ≤ amt ∧ 0 ≤ count
  | _ => True
  end.


Definition balances_nonneg (w : World) : Prop :=
  ∀ uid u, users w !! uid = Some u → 0 ≤ tokens_balance u.

Definition payments_nonneg (w : World) : Prop :=
  ∀ pid p, payments w !! pid = Some p → 0 ≤ amount p ∧ 0 ≤ recipes_count p.


Definition usage_of (w : World) (uid : Z) : Z :=
  match users w !! uid with Some u => total_recipes u | None => 0 end.

(** One pass over the text that puts a backslash before every special
    character. *)
Fixpoint escape_each (text : string) : string :=
  match text with
  | EmptyString => EmptyString
  | String a rest =>
      if bool_decide (a ∈ markdown_specials)
      then String backslash (String a (escape_each rest))
      else String a (escape_each rest)
  end.

Fixpoint count_specials (text : string) : nat :=
  match text with
  | EmptyString => 0%nat
  | String a rest =>
      if bool_decide (a ∈ markdown_specials)
      then S (count_specials rest) else count_specials rest
  end.

(** Every account of [w] is still there in [w'], created at the same time,
    with counters that did not go down. *)
Definition accounts_kept (w w' : World) : Prop :=
  ∀ uid u, users w !! uid = Some u →
    ∃ u', users w' !! uid = Some u' ∧
          total_recipes u ≤ total_recipes u' ∧
          total_spent u ≤ total_spent u' ∧
          created_at u' = created_at u.


(** The condition under which [create_payment] makes a mock payment. *)
Definition mock_mode (pc : PayConfig) : Prop :=
  YOOKASSA_USE_MOCK pc = true ∨ YOOKASSA_AVAILABLE pc = false ∨
  YOOKASSA_SHOP_ID pc = "test_shop" ∨ YOOKASSA_SHOP_ID pc = EmptyString.

(** The notification is one the webhook acts on: a succeeded payment with an
    id. *)
Definition settles (n : Notification) (pid : string) : Prop :=
  event n = "payment.succeeded" ∧ object_id n = Some pid ∧ pid ≠ EmptyString ∧
  object_status n = "succeeded".

Definition posted (out : list Output) : list (Z * Z) :=
  omap (λ o, match o with Posted chat b => Some (chat, b) | _ => None end) out.

(** Concrete inputs of the examples. *)

Definition two_packages : gmap string Package :=
  {[ "pack10" := mkPackage "Ten recipes" 199 10;
     "pack30" := mkPackage "Thirty recipes" 499 30 ]}.

Definition shop_mock : PayConfig :=
  mkPayConfig two_packages true true "test_shop" "token".

Definition sdk_down : PayEnv :=
  mkPayEnv "0123456789abcdef0123456789abcdef"
           (λ _ _ _ _ _, Failed "503") (λ _, Failed "503").

Definition paid_notice : Notification :=
  mkNotification "payment.succeeded" (Some "pay-1") "succeeded" (UserId 7).

Definition anna : TgUser := mkTgUser 7 None "Anna" "Anna K".

(** A pending payment of user 8, who has no row: what [process_purchase]
    leaves behind for a user who pressed a [buy_] button without ever
    sending [/start] or a text. *)
Definition world_orphan : World :=
  mkWorld {[ 7 := guest ]} []
          {[ "pay-8" := mkPayment 8 "pack10" 199 10 "pending" 0 ]} ∅ [].

(** * Handlers with their failing calls

    The models above take every call to the chat transport and to the
    store as going through.  The ones below follow the same source functions
    with each awaited call able to raise, so that the [try] blocks and what
    escapes them are part of the model. *)

(** ** Python strings

    A Python [str] is held as its UTF-8 bytes: a character is one byte that
    is not a continuation byte, followed by its continuation bytes. *)

Definition is_continuation (a : ascii) : bool :=
  (128 <=? nat_of_ascii a)%nat && (nat_of_ascii a <? 192)%nat.

(** [len(s)]: the number of characters. *)
Fixpoint py_len (s : string) : Z :=
  match s with
  | EmptyString => 0
  | String a rest => (if is_continuation a then 0 else 1) + py_len rest
  end.

(** [s[:n]]: the first [n] characters. *)
Fixpoint py_take (n : nat) (s : string) : string :=
  match s with
  | EmptyString => EmptyString
  | String a rest =>
      if is_continuation a then String a (py_take n rest)
      else match n with
           | O => EmptyString
           | S k => String a (py_take k rest)
           end
  end.

(** [s.lower()] on the letters A to Z.  Python lowers other letters too, but
    none of them to a letter of the word looked for below. *)
Definition lower_ascii (a : ascii) : ascii :=
  if (65 <=? nat_of_ascii a)%nat && (nat_of_ascii a <=? 90)%nat
  then ascii_of_nat (nat_of_ascii a + 32) else a.

Fixpoint lower (s : string) : string :=
  match s with
  | EmptyString => EmptyString
  | String a rest => String (lower_ascii a) (lower rest)
  end.

(** The test of the [except BadRequest] branch. *)
Definition is_parse_error (text : string) : bool :=
  contains "Can't parse" text || contains "parse" (lower text).

(** ** Computations that may raise *)

Inductive Try (A : Type) :=
| Went (a : A)
| Threw (e : string).

Arguments Went {A} a.
Arguments Threw {A} e.

Definition F (A : Type) : Type := World → Try A * World.

#[global] Instance F_ret : MRet F := λ A (a : A) w, (Went a, w).

#[global] Instance F_bind : MBind F := λ A B (f : A → F B) (m : F A) w,
  match m w with
  | (Went a, w') => f a w'
  | (Threw e, w') => (Threw e, w')
  end.

Definition lift {A} (m : M A) : F A := λ w, let '(a, w') := m w in (Went a, w').

Definition throw {A} (e : string) : F A := λ w, (Threw e, w).

(** A call that raises [e] without effect when [fault] is [Some e]. *)
Definition may_fail {A} (fault : option string) (m : M A) : F A :=
  match fault with
  | Some e => throw e
  | None => lift m
  end.

Definition try_except {A} (body : F A) (handler : string → F A) : F A :=
  λ w, match body w with
       | (Went a, w') => (Went a, w')
       | (Threw e, w') => handler e w'
       end.

(** State and result after running such a computation. *)
Definition after {A} (m : F A) (w : World) : World := (m w).2.
Definition result {A} (m : F A) (w : World) : Try A := (m w).1.

(** What the first edit that carries the recipe does. *)
Inductive Sending :=
| Delivered
| BadRequest (text : string)
| OtherError (text : string).

(** The calls of one request that can raise, each with the text of its
    exception when it does; [image] tells whether the recipe picture
    exists. *)
Record Faults := mkFaults {
  on_reject : option string;
  on_read_balance : option string;
  on_typing : option string;
  on_thinking : option string;
  on_deduct : option string;
  on_ran_out : option string;
  on_save_recipe : option string;
  on_new_balance : option string;
  on_recipe : Sending;
  on_plain : option string;
  image : bool;
  on_photo : option string;
  on_warning : option string;
  on_error : option string
}.

Definition no_faults : Faults :=
  mkFaults None None None None None None None None Delivered None false None
           None None.

(** The calls of one purchase that can raise. *)
Record PurchaseFaults := mkPurchaseFaults {
  buy_invalid : option string;
  buy_creating : option string;
  buy_save : option string;
  buy_offer : option string;
  buy_failed : option string
}.

(** What [process_purchase] caught: the exception of [create_payment], or
    the text of one raised by the store or the transport. *)
Inductive Caught :=
| CreateError (e : Exn)
| Fault (text : string).

Inductive BuyEvent :=
| BuyInvalid
| BuyCreating
| BuyNote (o : Output)
| BuyOffer (pkg : Package) (data : PaymentData)
| BuyFailed (c : Caught)
| BuyErrorLogged (uid : Z) (c : Caught).

Module WithFaults.

Definition say (fault : option string) (m : Message) : F unit :=
  may_fail fault (send m).

(** The [except Exception] branch: the exception is logged and answered
    with the error text; sending that text may raise in turn, out of the
    function. *)
Definition on_exception (f : Faults) (uid : Z) (e : string) : F unit :=
  lift (logger ERROR (GenerationFailed uid e));;
  say (on_error f) (GenerationError (py_take 100 e)).

(** The edit that carries the recipe: a [BadRequest] about parsing is
    answered by a second edit without parse mode, any other exception goes
    on to the [except] branch. *)
Definition send_recipe (f : Faults) (recipe : string) (new_balance : Z)
    : F unit :=
  match on_recipe f with
  | Delivered => lift (send (RecipeReady recipe new_balance))
  | BadRequest text =>
      if is_parse_error text
      then say (on_plain f) (RecipeReady recipe new_balance)
      else throw text
  | OtherError text => throw text
  end.

(** The [try] block from the recipe edit on; the picture leaves no record of
    its own. *)
Definition deliver (f : Faults) (uid : Z) (recipe : string) (new_balance : Z)
    : F unit :=
  send_recipe f recipe new_balance;;
  (if image f then may_fail (on_photo f) (mret tt) else mret tt);;
  (if bool_decide (0 < new_balance ∧ new_balance ≤ 1)
   then say (on_warning f) LastRecipeWarning else mret tt);;
  lift (logger INFO (RecipeDone uid new_balance)).

(** The [try] block. *)
Definition try_block (env : Env) (f : Faults) (uid : Z) (user_input : string)
    : F unit :=
  lift (update_rate_limit (now_stamp env) uid);;
  outcome ← lift (call_backend env user_input);
  recipe ← match outcome with
           | Generated r => mret r
           | Raised e => throw e
           end;
  success ← may_fail (on_deduct f) (deduct_token uid);
  if negb success then
    say (on_ran_out f) TokensRanOut
  else
    may_fail (on_save_recipe f)
      (save_recipe (now_save env) uid user_input recipe);;
    new_balance ← may_fail (on_new_balance f) (get_balance uid);
    deliver f uid recipe new_balance.

(** [_generate_recipe_for_user] with its failing calls.  What the replies
    before the [try] block raise escapes the function; what is raised inside
    the block goes to the [except] branch. *)
Definition _generate_recipe_for_user (cfg : Config) (env : Env) (f : Faults)
    (uid : Z) (user_input : string) : F unit :=
  if bool_decide (MAX_PROMPT_LENGTH cfg < py_len user_input) then
    say (on_reject f) (TooLong (MAX_PROMPT_LENGTH cfg))
  else
    wait_seconds ← lift (check_rate_limit cfg (now_check env) uid);
    if bool_decide (0 < wait_seconds) then
      say (on_reject f) (MustWait wait_seconds)
    else
      balance ← may_fail (on_read_balance f) (get_balance uid);
      if bool_decide (balance ≤ 0) then
        say (on_reject f) NoRecipesLeft
      else
        may_fail (on_typing f) (mret tt);;
        say (on_thinking f) Thinking;;
        try_except (try_block env f uid user_input) (on_exception f uid).

(** [process_purchase] with its failing calls; the value carries what was
    shown, noted and logged, in order. *)
Definition process_purchase (pc : PayConfig) (penv : PayEnv)
    (f : PurchaseFaults) (now uid : Z) (package_key : string) (w : World)
    : (Try unit * list BuyEvent) * World :=
  match PACKAGES pc !! package_key with
  | None =>
      match buy_invalid f with
      | None => ((Went tt, [BuyInvalid]), w)
      | Some e => ((Threw e, []), w)
      end
  | Some pkg =>
      match buy_creating f with
      | Some e => ((Threw e, []), w)
      | None =>
          let '(created, notes) := create_payment pc penv uid package_key in
          let seen := BuyCreating :: (BuyNote <$> notes) in
          let handler (c : Caught) (w' : World) :=
            match buy_failed f with
            | None => ((Went tt, seen ++ [BuyFailed c; BuyErrorLogged uid c]), w')
            | Some e => ((Threw e, seen), w')
            end in
          match created with
          | Raise e => handler (CreateError e) w
          | Return data =>
              match buy_save f with
              | Some e => handler (Fault e) w
              | None =>
                  let w1 := exec (save_payment now (payment_id data) uid
                                    package_key (pd_amount data)
                                    (pd_recipes_count data)) w in
                  match buy_offer f with
                  | None => ((Went tt, seen ++ [BuyOffer pkg data]), w1)
                  | Some e => handler (Fault e) w1
                  end
              end
          end
      end
  end.

End WithFaults.

(** The messages a computation added. *)
Definition said {A} (m : F A) (w : World) : list Message :=
  drop (length (sent w)) (sent (after m w)).

(** A text of ASCII characters only. *)
Fixpoint ascii_only (s : string) : Prop :=
  match s with
  | EmptyString => True
  | String a rest => (nat_of_ascii a < 128)%nat ∧ ascii_only rest
  end.

(** The messages and the backend calls among some events. *)
Definition sent_of (es : list Event) : list Message :=
  omap (λ e, match e with Sent m => Some m | _ => None end) es.

Definition backend_of (es : list Event) : list string :=
  omap (λ e, match e with BackendCalled s => Some s | _ => None end) es.

(** The recipe cannot be shown: the edit raises something else than a parse
    error, or the edit without parse mode raises too. *)
Definition undeliverable (f : Faults) : Prop :=
  match on_recipe f with
  | Delivered => False
  | BadRequest text => is_parse_error text = false ∨ on_plain f ≠ None
  | OtherError _ => True
  end.

(** No recipe among the messages. *)
Definition no_recipe (ms : list Message) : Prop :=
  ∀ r nb, RecipeReady r nb ∉ ms.

(** [w'] is [w] with the events [es] added to its trace. *)
Definition only_trace (w w' : World) (es : list Event) : Prop :=
  users w' = users w ∧ recipes w' = recipes w ∧ payments w' = payments w ∧
  last_request_time w' = last_request_time w ∧ trace w' = trace w ++ es.


(** The two outcomes of a request from [w] to [w'] that sent [ms]: nothing
    is charged, nothing saved and no recipe shown; or the account of [uid]
    is charged one token for the recipe the backend produced.  In the second
    the history row is written unless [save_recipe] raises, every recipe
    shown is that recipe with the balance left and comes after the row was
    written and the balance read, and the recipe is shown when neither of
    these two calls raises and the edit can deliver it. *)
Definition not_charged (w w' : World) (ms : list Message) : Prop :=
  users w' = users w ∧ recipes w' = recipes w ∧ no_recipe ms.

Definition charged (env : Env) (f : Faults) (uid : Z) (user_input : string)
    (w w' : World) (ms : list Message) : Prop :=
  ∃ u recipe,
    users w !! uid = Some u ∧ 0 < tokens_balance u ∧
    generate_recipe env user_input = Generated recipe ∧
    on_deduct f = None ∧
    users w' = <[uid := debited 1 u]> (users w) ∧
    recipes w' = match on_save_recipe f with
                 | None => recipes w ++ [mkRecipe uid user_input recipe
                                           (now_save env)]
                 | Some _ => recipes w
                 end ∧
    (∀ r nb, RecipeReady r nb ∈ ms →
       r = recipe ∧ nb = tokens_balance u - 1 ∧
       on_save_recipe f = None ∧ on_new_balance f = None) ∧
    (on_save_recipe f = None → on_new_balance f = None →
     ¬ undeliverable f →
     RecipeReady recipe (tokens_balance u - 1) ∈ ms).

(** A request whose recipe edit times out, and a prompt of 300 Cyrillic
    letters (600 bytes). *)
Definition edit_times_out : Faults :=
  mkFaults None None None None None None None None (OtherError "Timed out")
           None false None None None.

Fixpoint copies (n : nat) (s : string) : string :=
  match n with
  | O => EmptyString
  | S k => s +:+ copies k s
  end.

Definition cyrillic_prompt : string := copies 300 "щ".

(** The offer of a purchase cannot be shown. *)
Definition offer_fails : PurchaseFaults :=
  mkPurchaseFaults None None None (Some "Timed out") None.
(** * Properties *)

(** Unfolds one layer of monadic plumbing. *)
Ltac monad_run :=
  unfold mbind, M_bind, mret, M_ret, logger, send, emit, modify, gets,
    set_users, set_recipes, set_payments, set_last_request_time, set_trace;
  cbn.

(** ** The SQL update on a table *)

Lemma sql_update_lookup `{Countable K} {V} (key : K) (cond : V → bool)
    (set : V → V) (t : gmap K V) (row : V) :
  t !! key = Some row →
  (sql_update key cond set t).1 !! key
    = Some (if cond row then set row else row).
Proof.
  intros Hrow. unfold sql_update. rewrite Hrow.
  destruct (cond row); simpl; [apply lookup_insert_eq | exact Hrow].
Qed.

Lemma sql_update_lookup_ne `{Countable K} {V} (key key' : K) (cond : V → bool)
    (set : V → V) (t : gmap K V) :
  key ≠ key' → (sql_update key cond set t).1 !! key' = t !! key'.
Proof.
  intros Hne. unfold sql_update.
  destruct (t !! key) as [row|]; [|done].
  destruct (cond row); simpl; [by apply lookup_insert_ne | done].
Qed.

Lemma sql_update_absent `{Countable K} {V} (key : K) (cond : V → bool)
    (set : V → V) (t : gmap K V) :
  t !! key = None → sql_update key cond set t = (t, 0).
Proof. intros Hnone. unfold sql_update. by rewrite Hnone. Qed.

Lemma sql_update_always `{Countable K} {V} (key : K) (set : V → V)
    (t : gmap K V) (row : V) :
  t !! key = Some row → sql_update key always set t = (<[key := set row]> t, 1).
Proof. intros Hrow. unfold sql_update. by rewrite Hrow. Qed.

(** ** Settlement, step by step *)

Lemma update_payment_status_found (w : World) (pid st : string) (p : Payment) :
  payments w !! pid = Some p →
  update_payment_status pid st w
    = (tt, mkWorld (settled_users st p (users w)) (recipes w)
                   (<[pid := set_status st p]> (payments w))
                   (last_request_time w)
                   (trace w ++ settled_trace st p)).
Proof.
  intros Hp. unfold update_payment_status, settled_users, settled_trace.
  monad_run. rewrite Hp.
  case_bool_decide; monad_run;
    rewrite (sql_update_always _ _ _ _ Hp); cbn; [done|].
  by rewrite app_nil_r.
Qed.

Lemma update_payment_status_missing (w : World) (pid st : string) :
  payments w !! pid = None →
  update_payment_status pid st w
    = (tt, set_trace (λ t, t ++ [Logged WARNING (PaymentNotFound pid)]) w).
Proof. intros Hp. unfold update_payment_status. monad_run. by rewrite Hp. Qed.

(** ** Payment ledger *)

(** Where the account of a [pending] payment has a row, two calls of
    [update_payment_status] with [succeeded] in a row credit the account
    once: after the first call the balance is larger by [recipes_count] and
    [total_spent] by [amount], the second call leaves the whole [users]
    table as it is, and no other account changes. *)
Lemma settle_succeeded_twice_credits_once
    (w : World) (pid : string) (p : Payment) (u : User) :
  payments w !! pid = Some p →
  status p = "pending" →
  users w !! user_id p = Some u →
  let settle := update_payment_status pid "succeeded" in
  let w1 := exec settle w in
  let w2 := exec settle w1 in
  (tokens_balance <$> users w1 !! user_id p)
    = Some (tokens_balance u + recipes_count p) ∧
  (total_spent <$> users w1 !! user_id p)
    = Some (total_spent u + amount p) ∧
  users w2 = users w1 ∧
  (tokens_balance <$> users w2 !! user_id p)
    = Some (tokens_balance u + recipes_count p) ∧
  (total_spent <$> users w2 !! user_id p)
    = Some (total_spent u + amount p) ∧
  balance_of w2 (user_id p) = balance_of w (user_id p) + recipes_count p ∧
  (∀ uid, uid ≠ user_id p → users w2 !! uid = users w !! uid).
Proof.
  intros Hp Hpending Hu settle w1 w2.
  set (u1 := credit (recipes_count p) (amount p) u).
  assert (Hw1 : w1 = mkWorld (<[user_id p := u1]> (users w)) (recipes w)
                        (<[pid := set_status "succeeded" p]> (payments w))
                        (last_request_time w)
                        (trace w ++ [Logged INFO (Credited (recipes_count p)
                                                           (user_id p))])).
  { unfold w1, settle, exec. rewrite (update_payment_status_found _ _ _ _ Hp).
    unfold settled_users, settled_trace. rewrite Hpending.
    rewrite bool_decide_eq_true_2 by done.
    by rewrite (sql_update_always _ _ _ _ Hu). }
  assert (Hw2 : users w2 = users w1).
  { unfold w2, settle, exec.
    rewrite (update_payment_status_found w1 pid "succeeded"
               (set_status "succeeded" p)).
    - cbn. unfold settled_users. cbn.
      by rewrite bool_decide_eq_false_2 by (intros [_ ?]; done).
    - rewrite Hw1. cbn. apply lookup_insert_eq. }
  assert (Hrow : users w1 !! user_id p = Some u1).
  { rewrite Hw1. cbn. apply lookup_insert_eq. }
  rewrite Hw2, Hrow. cbn.
  repeat split; try done.
  - unfold balance_of, eval, get_balance, get_user. monad_run.
    by rewrite Hw2, Hrow, Hu.
  - intros uid Hne. rewrite Hw1. cbn. by apply lookup_insert_ne.
Qed.

Lemma settle_succeeded_twice_credits_once_witness :
  let w2 := exec (update_payment_status "pay-1" "succeeded")
              (exec (update_payment_status "pay-1" "succeeded") world_pending) in
  (tokens_balance <$> users w2 !! 7) = Some 10 ∧
  (total_spent <$> users w2 !! 7) = Some 199.
Proof.
  pose proof (settle_succeeded_twice_credits_once world_pending "pay-1"
                pack10 guest eq_refl eq_refl eq_refl) as H.
  cbv zeta in H. destruct H as (_ & _ & _ & Hb & Hs & _).
  split; [exact Hb | exact Hs].
Defined.

(** C4: after [update_payment_status] with [canceled], a later call with
    [succeeded] for the same payment credits nobody: neither call changes
    the [users] table, so every balance and every [total_spent] stays as it
    was, while the status of a stored record is overwritten with
    [succeeded]. *)
Theorem late_success_after_cancel_does_not_credit (w : World) (pid : string) :
  let w1 := exec (update_payment_status pid "canceled") w in
  let w2 := exec (update_payment_status pid "succeeded") w1 in
  users w2 = users w1 ∧
  users w1 = users w ∧
  (∀ uid, balance_of w2 uid = balance_of w1 uid) ∧
  payments w2 !! pid = set_status "succeeded" <$> payments w !! pid.
Proof.
  intros w1 w2.
  destruct (payments w !! pid) as [p|] eqn:Hp.
  - assert (Hw1 : w1 = mkWorld (users w) (recipes w)
                         (<[pid := set_status "canceled" p]> (payments w))
                         (last_request_time w) (trace w ++ [])).
    { unfold w1, exec. rewrite (update_payment_status_found _ _ _ _ Hp).
      unfold settled_users, settled_trace.
      by rewrite bool_decide_eq_false_2 by (intros [? _]; done). }
    assert (Hp1 : payments w1 !! pid = Some (set_status "canceled" p)).
    { rewrite Hw1. cbn. apply lookup_insert_eq. }
    assert (Hw2 : w2 = mkWorld (users w1) (recipes w1)
                         (<[pid := set_status "succeeded"
                                     (set_status "canceled" p)]> (payments w1))
                         (last_request_time w1) (trace w1 ++ [])).
    { unfold w2, exec. rewrite (update_payment_status_found _ _ _ _ Hp1).
      unfold settled_users, settled_trace.
      by rewrite bool_decide_eq_false_2 by (intros [_ ?]; done). }
    assert (Husers : users w2 = users w1) by (by rewrite Hw2).
    repeat split.
    + exact Husers.
    + by rewrite Hw1.
    + intros uid. unfold balance_of, eval, get_balance, get_user. monad_run.
      by rewrite Husers.
    + rewrite Hw2. cbn. by rewrite lookup_insert_eq.
  - set (warn := λ t, t ++ [Logged WARNING (PaymentNotFound pid)]).
    assert (Hw1 : w1 = set_trace warn w).
    { unfold w1, exec. by rewrite (update_payment_status_missing _ _ _ Hp). }
    assert (Hp1 : payments w1 !! pid = None) by (by rewrite Hw1).
    assert (Hw2 : w2 = set_trace warn w1).
    { unfold w2, exec. by rewrite (update_payment_status_missing _ _ _ Hp1). }
    assert (Husers : users w2 = users w1) by (by rewrite Hw2).
    repeat split.
    + exact Husers.
    + by rewrite Hw1.
    + intros uid. unfold balance_of, eval, get_balance, get_user. monad_run.
      by rewrite Husers.
    + rewrite Hw2. cbn. exact Hp1.
Qed.

(** C8, as the specification words it, fails: for a payment id without a
    record the call hands back the same [None] as for a stored one, and
    [check_payment] goes on to announce a successful payment. *)
Lemma settle_unknown_payment_not_surfaced :
  payments world_pending !! "pay-404" = None ∧
  ¬ surfaces_not_found world_pending "pay-404" "succeeded" ∧
  sent (exec (check_payment "succeeded" 7 "pay-404") world_pending)
    = [CheckingPayment; PaymentSucceeded 0].
Proof.
  split; [reflexivity|]. split; [|reflexivity].
  intros (w' & pid' & _ & Hne). apply Hne.
  by destruct (eval _ _), (eval _ _).
Qed.

(** C8, amended: for a payment id without a record,
    [update_payment_status] changes no account, no payment record and no
    recipe; all it does is log a warning that names the payment, and it
    returns to its caller as it does for a stored record. *)
Theorem settle_unknown_payment_only_logs (w : World) (pid st : string) :
  payments w !! pid = None →
  let w' := exec (update_payment_status pid st) w in
  users w' = users w ∧
  payments w' = payments w ∧
  recipes w' = recipes w ∧
  last_request_time w' = last_request_time w ∧
  trace w' = trace w ++ [Logged WARNING (PaymentNotFound pid)] ∧
  eval (update_payment_status pid st) w = tt.
Proof.
  intros Hp w'. unfold w', exec, eval.
  by rewrite (update_payment_status_missing _ _ _ Hp).
Qed.

Lemma settle_unknown_payment_only_logs_witness :
  trace (exec (update_payment_status "pay-404" "succeeded") world_pending)
    = [Logged WARNING (PaymentNotFound "pay-404")] ∧
  users (exec (update_payment_status "pay-404" "succeeded") world_pending)
    = users world_pending.
Proof.
  pose proof (settle_unknown_payment_only_logs world_pending "pay-404"
                "succeeded" eq_refl) as H.
  cbv zeta in H. destruct H as (Hu & _ & _ & _ & Ht & _).
  split; [exact Ht | exact Hu].
Defined.

(** C10: [save_payment] replaces whatever record the payment id had with a
    [pending] one, also when that record was settled as [succeeded]; so
    settling, saving the payment again for the same account and settling
    again credits that account a second time. *)
Theorem save_payment_reopens_settled_payment
    (w : World) (now : Z) (pid pkg : string) (amt count : Z)
    (p : Payment) (u : User) :
  payments w !! pid = Some p →
  status p = "pending" →
  users w !! user_id p = Some u →
  let settle := update_payment_status pid "succeeded" in
  let w1 := exec settle w in
  let w2 := exec (save_payment now pid (user_id p) pkg amt count) w1 in
  let w3 := exec settle w2 in
  (status <$> payments w1 !! pid) = Some "succeeded" ∧
  payments w2 !! pid = Some (mkPayment (user_id p) pkg amt count "pending" now) ∧
  (∀ w0 uid, payments (exec (save_payment now pid uid pkg amt count) w0) !! pid
             = Some (mkPayment uid pkg amt count "pending" now)) ∧
  (tokens_balance <$> users w1 !! user_id p)
    = Some (tokens_balance u + recipes_count p) ∧
  (tokens_balance <$> users w3 !! user_id p)
    = Some (tokens_balance u + recipes_count p + count) ∧
  (total_spent <$> users w3 !! user_id p)
    = Some (total_spent u + amount p + amt).
Proof.
  intros Hp Hpending Hu settle w1 w2 w3.
  set (u1 := credit (recipes_count p) (amount p) u).
  set (p2 := mkPayment (user_id p) pkg amt count "pending" now).
  assert (Hw1 : w1 = mkWorld (<[user_id p := u1]> (users w)) (recipes w)
                        (<[pid := set_status "succeeded" p]> (payments w))
                        (last_request_time w)
                        (trace w ++ [Logged INFO (Credited (recipes_count p)
                                                           (user_id p))])).
  { unfold w1, settle, exec. rewrite (update_payment_status_found _ _ _ _ Hp).
    unfold settled_users, settled_trace. rewrite Hpending.
    rewrite bool_decide_eq_true_2 by done.
    by rewrite (sql_update_always _ _ _ _ Hu). }
  assert (Hsave : ∀ w0 uid,
            payments (exec (save_payment now pid uid pkg amt count) w0) !! pid
            = Some (mkPayment uid pkg amt count "pending" now)).
  { intros w0 uid. unfold exec, save_payment. monad_run.
    apply lookup_insert_eq. }
  assert (Hu1 : users w2 !! user_id p = Some u1).
  { unfold w2, exec, save_payment. monad_run. rewrite Hw1. cbn.
    apply lookup_insert_eq. }
  assert (Hw3 : users w3 = <[user_id p := credit count amt u1]> (users w2)).
  { unfold w3, settle, exec.
    rewrite (update_payment_status_found w2 pid "succeeded" p2 (Hsave w1 _)).
    cbn. unfold settled_users. cbn.
    rewrite bool_decide_eq_true_2 by done.
    by rewrite (sql_update_always _ _ _ _ Hu1). }
  repeat split.
  - rewrite Hw1. cbn. by rewrite lookup_insert_eq.
  - apply Hsave.
  - exact Hsave.
  - rewrite Hw1. cbn. by rewrite lookup_insert_eq.
  - rewrite Hw3. by rewrite lookup_insert_eq.
  - rewrite Hw3. by rewrite lookup_insert_eq.
Qed.

Lemma save_payment_reopens_settled_payment_witness :
  let settle := update_payment_status "pay-1" "succeeded" in
  let w3 := exec settle (exec (save_payment 5 "pay-1" 7 "pack10" 199 10)
                           (exec settle world_pending)) in
  (tokens_balance <$> users w3 !! 7) = Some 20 ∧
  (total_spent <$> users w3 !! 7) = Some 398.
Proof.
  pose proof (save_payment_reopens_settled_payment world_pending 5 "pay-1"
                "pack10" 199 10 pack10 guest eq_refl eq_refl eq_refl) as H.
  cbv zeta in H. destruct H as (_ & _ & _ & _ & Hb & Hs).
  split; [exact Hb | exact Hs].
Defined.

(** ** Balance store *)

(** C9: [get_or_create_user] gives an account seen for the first time a row
    whose balance is [FREE_RECIPES_ON_START] (nothing spent, nothing used);
    for an account that has a row it leaves balance, usage counter and
    spend accumulator as they are.  Other accounts are not touched. *)
Theorem get_or_create_user_grants_once
    (cfg : Config) (w : World) (now uid : Z) (uname fname : string) :
  let w' := exec (get_or_create_user cfg now uid uname fname) w in
  (users w !! uid = None →
     users w' !! uid
       = Some (mkUser uname fname (FREE_RECIPES_ON_START cfg) 0 0 now now) ∧
     balance_of w' uid = FREE_RECIPES_ON_START cfg) ∧
  (∀ u, users w !! uid = Some u →
     ∃ u', users w' !! uid = Some u' ∧
           tokens_balance u' = tokens_balance u ∧
           total_recipes u' = total_recipes u ∧
           total_spent u' = total_spent u) ∧
  (∀ uid', uid' ≠ uid → users w' !! uid' = users w !! uid').
Proof.
  intros w'. unfold w', exec, get_or_create_user. monad_run.
  destruct (users w !! uid) as [u|] eqn:Hu; monad_run.
  - rewrite (sql_update_always _ _ _ _ Hu). cbn.
    split; [done|]. split.
    + intros u0 [= <-]. eexists. rewrite lookup_insert_eq.
      split; [reflexivity|]. done.
    + intros uid' Hne. by apply lookup_insert_ne.
  - split; [|split].
    + intros _. rewrite lookup_insert_eq. split; [done|].
      unfold balance_of, eval, get_balance, get_user. monad_run.
      by rewrite lookup_insert_eq.
    + intros u0 [=].
    + intros uid' Hne. by apply lookup_insert_ne.
Qed.

Lemma get_or_create_user_grants_once_witness :
  balance_of (exec (get_or_create_user config3 100 8 "new" "New User")
                world_pending) 8 = 3 ∧
  balance_of (exec (get_or_create_user config3 100 7 "guest" "Guest")
                world_pending) 7 = 0.
Proof.
  pose proof (get_or_create_user_grants_once config3 world_pending 100 8
                "new" "New User") as H8.
  pose proof (get_or_create_user_grants_once config3 world_pending 100 7
                "guest" "Guest") as H7.
  cbv zeta in H8, H7.
  destruct H8 as ((_ & Hnew) & _). { reflexivity. }
  destruct H7 as (_ & Hold & _).
  destruct (Hold guest eq_refl) as (u' & Hu' & Hb & _).
  split; [exact Hnew|].
  unfold balance_of, eval, get_balance, get_user. monad_run.
  rewrite Hu'. exact Hb.
Defined.

(** C3, as the specification words it, fails: with three free recipes
    configured, the balance read for an account without a row is 0. *)
Lemma get_balance_unseen_is_not_default :
  ¬ unseen_reads_default config3 empty_world 42.
Proof.
  unfold unseen_reads_default. intros H.
  specialize (H eq_refl). discriminate H.
Qed.

(** C3, amended: for an account without a row, [get_balance] returns 0
    whatever starting balance is configured, and leaves the whole state, the
    [users] table included, as it was. *)
Theorem get_balance_unseen_is_zero (w : World) (uid : Z) :
  users w !! uid = None →
  get_balance uid w = (0, w) ∧
  users (exec (get_balance uid) w) !! uid = None.
Proof.
  intros Hu. unfold exec, get_balance, get_user. monad_run.
  by rewrite Hu.
Qed.

Lemma get_balance_unseen_is_zero_witness :
  get_balance 42 empty_world = (0, empty_world).
Proof.
  exact (proj1 (get_balance_unseen_is_zero empty_world 42 eq_refl)).
Defined.

Lemma deduct_token_positive (w : World) (uid : Z) (u : User) :
  users w !! uid = Some u →
  0 < tokens_balance u →
  deduct_token uid w = (true, set_users (insert uid (debited 1 u)) w).
Proof.
  intros Hu Hpos. unfold deduct_token, sql_update. monad_run.
  rewrite Hu. by rewrite bool_decide_eq_true_2 by done.
Qed.

Lemma deduct_token_empty (w : World) (uid : Z) (u : User) :
  users w !! uid = Some u →
  tokens_balance u ≤ 0 →
  deduct_token uid w = (false, w).
Proof.
  intros Hu Hle. unfold deduct_token, sql_update. monad_run.
  rewrite Hu. rewrite bool_decide_eq_false_2 by lia.
  by destruct w.
Qed.

Lemma deduct_token_unknown (w : World) (uid : Z) :
  users w !! uid = None → deduct_token uid w = (false, w).
Proof.
  intros Hu. unfold deduct_token, sql_update. monad_run.
  rewrite Hu. by destruct w.
Qed.

Lemma successes_empty (k : nat) (b : Z) : b ≤ 0 → successes k b = 0%nat.
Proof. unfold successes. lia. Qed.

Lemma successes_O (b : Z) : successes 0 b = 0%nat.
Proof. unfold successes. lia. Qed.

Lemma successes_S (k : nat) (b : Z) :
  0 < b → successes (S k) b = S (successes k (b - 1)).
Proof. unfold successes. lia. Qed.

Lemma deduct_tokens_run (k : nat) : ∀ (w : World) (uid : Z) (u : User),
  users w !! uid = Some u →
  0 ≤ tokens_balance u →
  let n := successes k (tokens_balance u) in
  eval (deduct_tokens k uid) w
    = replicate n true ++ replicate (k - n) false ∧
  ∃ u', users (exec (deduct_tokens k uid) w) !! uid = Some u' ∧
        tokens_balance u' = tokens_balance u - Z.of_nat n ∧
        total_recipes u' = total_recipes u + Z.of_nat n ∧
        total_spent u' = total_spent u.
Proof.
  induction k as [|k IH]; intros w uid u Hu Hnonneg n; subst n.
  - rewrite successes_O. cbn.
    split; [done|]. exists u. split; [done|]. lia.
  - unfold eval, exec. cbn [deduct_tokens]. unfold mbind at 1 3, M_bind.
    destruct (decide (0 < tokens_balance u)) as [Hpos|Hzero].
    + rewrite (deduct_token_positive _ _ _ Hu Hpos).
      set (w1 := set_users (insert uid (debited 1 u)) w).
      assert (Hu1 : users w1 !! uid = Some (debited 1 u))
        by apply lookup_insert_eq.
      destruct (IH w1 uid (debited 1 u) Hu1) as (Hrs & u' & Hu' & Hb & Hr & Hs).
      { cbn. lia. }
      unfold eval, exec in Hrs, Hu'. cbn in Hb, Hr, Hs.
      unfold mbind, M_bind, mret, M_ret.
      destruct (deduct_tokens k uid w1) as [rs w2]. cbn in Hrs, Hu'.
      rewrite (successes_S _ _ Hpos). cbn.
      split; [by rewrite Hrs|].
      exists u'. split; [done|]. lia.
    + rewrite (deduct_token_empty _ _ _ Hu) by lia.
      destruct (IH w uid u Hu Hnonneg) as (Hrs & u' & Hu' & Hb & Hr & Hs).
      unfold eval, exec in Hrs, Hu'.
      unfold mbind, M_bind, mret, M_ret.
      destruct (deduct_tokens k uid w) as [rs w2]. cbn in Hrs, Hu'.
      rewrite successes_empty in Hrs, Hb, Hr |- * by lia. cbn in *.
      split; [by rewrite Hrs, Nat.sub_0_r|].
      exists u'. split; [done|]. lia.
Qed.

Lemma succeeded_replicate (n m : nat) :
  succeeded (replicate n true ++ replicate m false) = n.
Proof.
  unfold succeeded. rewrite filter_app, length_app.
  assert (Ht : length (filter (λ r : bool, r = true) (replicate n true)) = n).
  { induction n as [|n IH]; [done|]. cbn [replicate].
    rewrite filter_cons_True by done. cbn. by rewrite IH. }
  assert (Hf : length (filter (λ r : bool, r = true) (replicate m false)) = 0%nat).
  { induction m as [|m IH]; [done|]. cbn [replicate].
    by rewrite filter_cons_False by done. }
  rewrite Ht, Hf. lia.
Qed.

(** C2: on an account whose balance is [b > 0], [k] calls of [deduct_token]
    succeed [min k b] times, the successes coming first: all [k] succeed and
    the balance ends at [b - k] when [k <= b]; exactly [b] succeed, the rest
    return [False] and the balance ends at 0 when [k > b].  The usage counter
    grows by the number of successes.  A single call that succeeds found a
    positive balance and leaves the balance one lower and the usage counter
    one higher; a call on a balance of 0 or less returns [False] and changes
    nothing. *)
Theorem deduct_token_debits_exactly
    (w : World) (uid : Z) (u : User) (k : nat) :
  users w !! uid = Some u →
  0 < tokens_balance u →
  let b := tokens_balance u in
  let rs := eval (deduct_tokens k uid) w in
  let w' := exec (deduct_tokens k uid) w in
  Z.of_nat (succeeded rs) = Z.min (Z.of_nat k) b ∧
  length rs = k ∧
  (Z.of_nat k ≤ b →
     rs = replicate k true ∧ balance_of w' uid = b - Z.of_nat k) ∧
  (b < Z.of_nat k →
     rs = replicate (Z.to_nat b) true ++ replicate (k - Z.to_nat b) false ∧
     balance_of w' uid = 0) ∧
  (total_recipes <$> users w' !! uid)
    = Some (total_recipes u + Z.min (Z.of_nat k) b) ∧
  (∀ w0 uid0,
     eval (deduct_token uid0) w0 = true →
     ∃ u0, users w0 !! uid0 = Some u0 ∧
           0 < tokens_balance u0 ∧
           users (exec (deduct_token uid0) w0) !! uid0
             = Some (debited 1 u0)) ∧
  (∀ w0 uid0, balance_of w0 uid0 ≤ 0 → deduct_token uid0 w0 = (false, w0)).
Proof.
  intros Hu Hpos b rs w'.
  destruct (deduct_tokens_run k w uid u Hu) as (Hrs & u' & Hu' & Hb & Hr & _);
    [lia|].
  fold rs in Hrs. fold w' in Hu'. fold b in Hb, Hr, Hrs.
  assert (Hbal : balance_of w' uid = b - Z.of_nat (successes k b)).
  { unfold balance_of, eval, get_balance, get_user. monad_run.
    by rewrite Hu'. }
  assert (Hn : Z.of_nat (successes k b) = Z.min (Z.of_nat k) b)
    by (unfold successes; lia).
  repeat split.
  - rewrite Hrs, succeeded_replicate. exact Hn.
  - rewrite Hrs, length_app, !length_replicate. unfold successes. lia.
  - rewrite Hrs. replace (successes k b) with k by lia.
    by rewrite Nat.sub_diag, app_nil_r.
  - rewrite Hbal. lia.
  - rewrite Hrs. by replace (successes k b) with (Z.to_nat b) by lia.
  - rewrite Hbal. lia.
  - rewrite Hu'. cbn. f_equal. lia.
  - intros w0 uid0 Htrue.
    destruct (users w0 !! uid0) as [u0|] eqn:Hu0.
    + destruct (decide (0 < tokens_balance u0)) as [Hpos0|Hle0].
      * exists u0. split; [done|]. split; [done|].
        unfold exec. rewrite (deduct_token_positive _ _ _ Hu0 Hpos0).
        apply lookup_insert_eq.
      * unfold eval in Htrue.
        rewrite (deduct_token_empty _ _ _ Hu0) in Htrue by lia. done.
    + unfold eval in Htrue.
      by rewrite (deduct_token_unknown _ _ Hu0) in Htrue.
  - intros w0 uid0. unfold balance_of, eval, get_balance, get_user.
    monad_run. intros Hle.
    destruct (users w0 !! uid0) as [u0|] eqn:Hu0.
    + by apply (deduct_token_empty _ _ u0).
    + by apply deduct_token_unknown.
Qed.

Lemma deduct_token_debits_exactly_witness :
  eval (deduct_tokens 5 7) world_three = [true; true; true; false; false] ∧
  balance_of (exec (deduct_tokens 5 7) world_three) 7 = 0.
Proof.
  pose proof (deduct_token_debits_exactly world_three 7
                (mkUser "guest" "Guest" 3 0 0 0 0) 5 eq_refl) as H.
  cbv zeta in H. destruct H as (_ & _ & _ & Hmore & _).
  { cbn. lia. }
  apply Hmore. cbn. lia.
Defined.

(** ** Rate limiter *)

Lemma bind_run {A B} (m : M A) (f : A → M B) (w : World) :
  (m ≫= f) w = f (eval m w) (exec m w).
Proof. unfold mbind, M_bind, eval, exec. by destruct (m w). Qed.

Lemma check_rate_limit_reads (cfg : Config) (now uid : Z) (w : World) :
  exec (check_rate_limit cfg now uid) w = w.
Proof. reflexivity. Qed.

Lemma get_balance_reads (uid : Z) (w : World) :
  exec (get_balance uid) w = w.
Proof. reflexivity. Qed.

Lemma check_rate_limit_no_stamp (cfg : Config) (now uid : Z) (w : World) :
  last_request_time w !! uid = None →
  eval (check_rate_limit cfg now uid) w = 0.
Proof.
  intros Hnone. unfold eval, check_rate_limit. monad_run. by rewrite Hnone.
Qed.

Lemma check_rate_limit_stamped (cfg : Config) (now uid last : Z) (w : World) :
  last_request_time w !! uid = Some last →
  eval (check_rate_limit cfg now uid) w
    = let wait := seconds (RATE_LIMIT_SECONDS cfg) - (now - last) in
      if bool_decide (0 < wait)
      then Z.quot wait microseconds_per_second + 1 else 0.
Proof.
  intros Hlast. unfold eval, check_rate_limit. monad_run. by rewrite Hlast.
Qed.



(** ** Request orchestrator, path by path *)

Lemma request_too_long
    (cfg : Config) (env : Env) (uid : Z) (user_input : string) (w : World) :
  MAX_PROMPT_LENGTH cfg < len user_input →
  _generate_recipe_for_user cfg env uid user_input w
  = (tt, set_trace (λ t, t ++ [Sent (TooLong (MAX_PROMPT_LENGTH cfg))]) w).
Proof.
  intros Hlen. unfold _generate_recipe_for_user.
  by rewrite bool_decide_eq_true_2 by lia.
Qed.

Lemma request_rate_limited
    (cfg : Config) (env : Env) (uid : Z) (user_input : string) (w : World) :
  len user_input ≤ MAX_PROMPT_LENGTH cfg →
  0 < eval (check_rate_limit cfg (now_check env) uid) w →
  _generate_recipe_for_user cfg env uid user_input w
  = (tt, set_trace (λ t, t ++ [Sent (MustWait
             (eval (check_rate_limit cfg (now_check env) uid) w))]) w).
Proof.
  intros Hlen Hrate. unfold _generate_recipe_for_user.
  rewrite bool_decide_eq_false_2 by lia.
  rewrite bind_run, check_rate_limit_reads.
  by rewrite bool_decide_eq_true_2 by lia.
Qed.

Lemma request_reaches_balance_check
    (cfg : Config) (env : Env) (uid : Z) (user_input : string) (w : World) :
  len user_input ≤ MAX_PROMPT_LENGTH cfg →
  eval (check_rate_limit cfg (now_check env) uid) w ≤ 0 →
  _generate_recipe_for_user cfg env uid user_input w
  = (if bool_decide (balance_of w uid ≤ 0) then send NoRecipesLeft
     else
       send Thinking;;
       update_rate_limit (now_stamp env) uid;;
       outcome ← call_backend env user_input;
       match outcome with
       | Raised e =>
           logger ERROR (GenerationFailed uid e);;
           send (GenerationError (String.substring 0 100 e))
       | Generated recipe =>
           success ← deduct_token uid;
           if negb success then send TokensRanOut
           else
             save_recipe (now_save env) uid user_input recipe;;
             new_balance ← get_balance uid;
             send (RecipeReady recipe new_balance);;
             (if bool_decide (0 < new_balance ∧ new_balance ≤ 1)
              then send LastRecipeWarning else mret tt);;
             logger INFO (RecipeDone uid new_balance)
       end) w.
Proof.
  intros Hlen Hrate. unfold _generate_recipe_for_user.
  rewrite bool_decide_eq_false_2 by lia.
  rewrite bind_run, check_rate_limit_reads.
  rewrite bool_decide_eq_false_2 by lia.
  by rewrite bind_run, get_balance_reads.
Qed.

Lemma request_no_balance
    (cfg : Config) (env : Env) (uid : Z) (user_input : string) (w : World) :
  len user_input ≤ MAX_PROMPT_LENGTH cfg →
  eval (check_rate_limit cfg (now_check env) uid) w ≤ 0 →
  balance_of w uid ≤ 0 →
  _generate_recipe_for_user cfg env uid user_input w
  = (tt, set_trace (λ t, t ++ [Sent NoRecipesLeft]) w).
Proof.
  intros Hlen Hrate Hbal.
  rewrite request_reaches_balance_check by done.
  by rewrite bool_decide_eq_true_2 by lia.
Qed.

Lemma request_backend_raises
    (cfg : Config) (env : Env) (uid : Z) (user_input reason : string)
    (w : World) :
  len user_input ≤ MAX_PROMPT_LENGTH cfg →
  eval (check_rate_limit cfg (now_check env) uid) w ≤ 0 →
  0 < balance_of w uid →
  generate_recipe env user_input = Raised reason →
  _generate_recipe_for_user cfg env uid user_input w
  = (tt, mkWorld (users w) (recipes w) (payments w)
           (<[uid := now_stamp env]> (last_request_time w))
           (trace w ++ [Sent Thinking; BackendCalled user_input;
                        Logged ERROR (GenerationFailed uid reason);
                        Sent (GenerationError (String.substring 0 100 reason))])).
Proof.
  intros Hlen Hrate Hbal Hgen.
  rewrite request_reaches_balance_check by done.
  rewrite bool_decide_eq_false_2 by lia.
  unfold call_backend, update_rate_limit. monad_run. rewrite Hgen.
  monad_run. by rewrite <- !app_assoc.
Qed.

Lemma balance_of_row (w : World) (uid : Z) (u : User) :
  users w !! uid = Some u → balance_of w uid = tokens_balance u.
Proof.
  intros Hu. unfold balance_of, eval, get_balance, get_user. monad_run.
  by rewrite Hu.
Qed.

Lemma request_fulfilled
    (cfg : Config) (env : Env) (uid : Z) (user_input recipe : string)
    (w : World) (u : User) :
  len user_input ≤ MAX_PROMPT_LENGTH cfg →
  eval (check_rate_limit cfg (now_check env) uid) w ≤ 0 →
  users w !! uid = Some u →
  0 < tokens_balance u →
  generate_recipe env user_input = Generated recipe →
  _generate_recipe_for_user cfg env uid user_input w
  = (tt, mkWorld (<[uid := debited 1 u]> (users w))
           (recipes w ++ [mkRecipe uid user_input recipe (now_save env)])
           (payments w)
           (<[uid := now_stamp env]> (last_request_time w))
           (trace w ++ [Sent Thinking; BackendCalled user_input;
                        Sent (RecipeReady recipe (tokens_balance u - 1))]
                    ++ last_recipe_warning (tokens_balance u - 1)
                    ++ [Logged INFO (RecipeDone uid (tokens_balance u - 1))])).
Proof.
  intros Hlen Hrate Hu Hpos Hgen.
  rewrite request_reaches_balance_check by done.
  rewrite (balance_of_row _ _ _ Hu).
  rewrite bool_decide_eq_false_2 by lia.
  unfold call_backend, update_rate_limit. monad_run. rewrite Hgen.
  rewrite (deduct_token_positive _ uid u) by done.
  unfold save_recipe, get_balance, get_user, last_recipe_warning.
  monad_run. rewrite lookup_insert_eq. cbn.
  case_bool_decide; monad_run; by rewrite <- !app_assoc.
Qed.

Lemma backend_calls_app (w : World) (f : gmap Z User) (r : list Recipe)
    (p : gmap string Payment) (l : gmap Z Z) (es : list Event) :
  backend_calls (mkWorld f r p l (trace w ++ es))
    = backend_calls w
      ++ omap (λ e, match e with BackendCalled s => Some s | _ => None end) es.
Proof. unfold backend_calls. cbn. apply omap_app. Qed.

Lemma sent_app (w : World) (f : gmap Z User) (r : list Recipe)
    (p : gmap string Payment) (l : gmap Z Z) (es : list Event) :
  sent (mkWorld f r p l (trace w ++ es))
    = sent w ++ omap (λ e, match e with Sent m => Some m | _ => None end) es.
Proof. unfold sent. cbn. apply omap_app. Qed.

(** C5: when a request has passed the length check, the rate-limit gate and
    the balance check and the generation backend raises, the [users] table
    is left as it was (so balance and usage counter are untouched), nothing
    is saved, and the rate-limit stamp of the account is the time read when
    the attempt started; the user is sent the error message. *)
Theorem failed_generation_charges_nothing
    (cfg : Config) (env : Env) (w : World) (uid : Z)
    (user_input reason : string) :
  len user_input ≤ MAX_PROMPT_LENGTH cfg →
  eval (check_rate_limit cfg (now_check env) uid) w ≤ 0 →
  0 < balance_of w uid →
  generate_recipe env user_input = Raised reason →
  let w' := exec (_generate_recipe_for_user cfg env uid user_input) w in
  users w' = users w ∧
  balance_of w' uid = balance_of w uid ∧
  (total_recipes <$> users w' !! uid) = (total_recipes <$> users w !! uid) ∧
  recipes w' = recipes w ∧
  payments w' = payments w ∧
  last_request_time w' !! uid = Some (now_stamp env) ∧
  backend_calls w' = backend_calls w ++ [user_input] ∧
  sent w' = sent w ++ [Thinking;
                       GenerationError (String.substring 0 100 reason)].
Proof.
  intros Hlen Hrate Hbal Hgen w'. unfold w', exec.
  rewrite (request_backend_raises _ _ _ _ _ _ Hlen Hrate Hbal Hgen).
  cbn [snd]. rewrite backend_calls_app, sent_app. cbn.
  repeat split. apply lookup_insert_eq.
Qed.

Lemma failed_generation_charges_nothing_witness :
  let w' := exec (_generate_recipe_for_user config3 (env_timeout (seconds 40))
                    7 "borscht") world_three in
  balance_of w' 7 = 3 ∧
  last_request_time w' !! 7 = Some (seconds 40) ∧
  sent w' = [Thinking; GenerationError "timeout"].
Proof.
  pose proof (failed_generation_charges_nothing config3
                (env_timeout (seconds 40)) world_three 7 "borscht" "timeout")
    as H.
  cbv zeta in H.
  destruct H as (_ & Hb & _ & _ & _ & Hs & _ & Hm).
  - by vm_compute.
  - by vm_compute.
  - by vm_compute.
  - reflexivity.
  - split; [exact Hb|]. split; [exact Hs | exact Hm].
Defined.

Lemma check_rate_limit_elapsed (cfg : Config) (now uid last : Z) (w : World) :
  last_request_time w !! uid = Some last →
  seconds (RATE_LIMIT_SECONDS cfg) ≤ now - last →
  eval (check_rate_limit cfg now uid) w = 0.
Proof.
  intros Hlast Hspaced. rewrite (check_rate_limit_stamped _ _ _ _ _ Hlast).
  cbv zeta. by rewrite bool_decide_eq_false_2 by lia.
Qed.

(** What a fulfilled request leaves behind. *)
Lemma request_fulfilled_state
    (cfg : Config) (env : Env) (uid : Z) (user_input recipe : string)
    (w : World) (u : User) :
  len user_input ≤ MAX_PROMPT_LENGTH cfg →
  eval (check_rate_limit cfg (now_check env) uid) w ≤ 0 →
  users w !! uid = Some u →
  0 < tokens_balance u →
  generate_recipe env user_input = Generated recipe →
  let w' := exec (_generate_recipe_for_user cfg env uid user_input) w in
  users w' !! uid = Some (debited 1 u) ∧
  last_request_time w' !! uid = Some (now_stamp env) ∧
  backend_calls w' = backend_calls w ++ [user_input].
Proof.
  intros Hlen Hrate Hu Hpos Hgen w'. unfold w', exec.
  rewrite (request_fulfilled _ _ _ _ _ _ _ Hlen Hrate Hu Hpos Hgen).
  cbn [snd]. rewrite backend_calls_app. cbn.
  split; [apply lookup_insert_eq|]. split; [apply lookup_insert_eq|].
  f_equal. unfold last_recipe_warning. by case_bool_decide.
Qed.

(** C6, as the specification words it, fails: the rate-limit gate stands
    before the balance check, so the fourth request of an account with an
    empty balance, made 10 seconds after the third, is told to wait and not
    that its recipes ran out. *)
Lemma empty_balance_request_told_to_wait :
  balance_of world_spent 7 = 0 ∧
  ¬ rejected_for_balance config3 (env_ok (seconds 70)) 7 "cake" world_spent ∧
  sent (exec (_generate_recipe_for_user config3 (env_ok (seconds 70)) 7 "cake")
          world_spent)
    = sent world_spent ++ [MustWait 21].
Proof.
  split; [by vm_compute|]. split; [|by vm_compute].
  intros [Hsent _]. vm_compute in Hsent. discriminate Hsent.
Qed.

Lemma get_or_create_user_new (cfg : Config) (now uid : Z)
    (uname fname : string) (w : World) :
  users w !! uid = None →
  let row := mkUser uname fname (FREE_RECIPES_ON_START cfg) 0 0 now now in
  get_or_create_user cfg now uid uname fname w
  = (row, mkWorld (<[uid := row]> (users w)) (recipes w) (payments w)
            (last_request_time w) (trace w ++ [Logged INFO (NewUser uid)])).
Proof.
  intros Hnew row. unfold get_or_create_user. monad_run. rewrite Hnew.
  monad_run. by rewrite lookup_insert_eq.
Qed.

Lemma serve_cons (cfg : Config) (uid : Z) (env : Env) (user_input : string)
    (reqs : list (Env * string)) (w : World) :
  exec (serve cfg uid ((env, user_input) :: reqs)) w
  = exec (serve cfg uid reqs)
      (exec (_generate_recipe_for_user cfg env uid user_input) w).
Proof. unfold exec at 1. cbn [serve]. by rewrite bind_run. Qed.

(** C6, amended.  A request from an account whose balance is 0 or less
    never reaches the generation backend and changes neither the [users]
    table nor the rate-limit stamps; when it has passed the length check and
    the rate-limit gate it is rejected with the message that the recipes ran
    out.  In particular a new account with three free recipes, after three
    fulfilled requests each made once the cooldown of the one before it was
    over, has a balance of 0, and its fourth request, made after the
    cooldown as well, is rejected that way with no fourth backend call. *)
Theorem empty_balance_request_rejected
    (cfg : Config) (env : Env) (uid : Z) (user_input : string) :
  (∀ w : World,
     balance_of w uid ≤ 0 →
     let w' := exec (_generate_recipe_for_user cfg env uid user_input) w in
     backend_calls w' = backend_calls w ∧
     users w' = users w ∧
     last_request_time w' = last_request_time w ∧
     (len user_input ≤ MAX_PROMPT_LENGTH cfg →
      eval (check_rate_limit cfg (now_check env) uid) w ≤ 0 →
      rejected_for_balance cfg env uid user_input w)) ∧
  (∀ (w0 : World) (now : Z) (uname fname : string) (e1 e2 e3 : Env)
     (i1 i2 i3 r1 r2 r3 : string),
     FREE_RECIPES_ON_START cfg = 3 →
     users w0 !! uid = None →
     last_request_time w0 !! uid = None →
     len i1 ≤ MAX_PROMPT_LENGTH cfg →
     len i2 ≤ MAX_PROMPT_LENGTH cfg →
     len i3 ≤ MAX_PROMPT_LENGTH cfg →
     len user_input ≤ MAX_PROMPT_LENGTH cfg →
     generate_recipe e1 i1 = Generated r1 →
     generate_recipe e2 i2 = Generated r2 →
     generate_recipe e3 i3 = Generated r3 →
     seconds (RATE_LIMIT_SECONDS cfg) ≤ now_check e2 - now_stamp e1 →
     seconds (RATE_LIMIT_SECONDS cfg) ≤ now_check e3 - now_stamp e2 →
     seconds (RATE_LIMIT_SECONDS cfg) ≤ now_check env - now_stamp e3 →
     let w1 := exec (get_or_create_user cfg now uid uname fname) w0 in
     let w4 := exec (serve cfg uid [(e1, i1); (e2, i2); (e3, i3)]) w1 in
     balance_of w1 uid = 3 ∧
     balance_of w4 uid = 0 ∧
     backend_calls w4 = backend_calls w0 ++ [i1; i2; i3] ∧
     rejected_for_balance cfg env uid user_input w4).
Proof.
  assert (Hempty : ∀ w : World,
            len user_input ≤ MAX_PROMPT_LENGTH cfg →
            eval (check_rate_limit cfg (now_check env) uid) w ≤ 0 →
            balance_of w uid ≤ 0 →
            rejected_for_balance cfg env uid user_input w).
  { intros w Hlen Hrate Hbal. unfold rejected_for_balance, exec.
    rewrite (request_no_balance _ _ _ _ _ Hlen Hrate Hbal).
    cbn [snd]. unfold set_trace.
    by rewrite backend_calls_app, sent_app, app_nil_r. }
  split.
  - intros w Hbal w'. unfold w', exec.
    destruct (decide (MAX_PROMPT_LENGTH cfg < len user_input)) as [Hlong|Hlen].
    { rewrite (request_too_long _ _ _ _ _ Hlong). cbn [snd]. unfold set_trace.
      rewrite backend_calls_app, app_nil_r. split_and!; try done.
      intros; lia. }
    destruct (decide (0 < eval (check_rate_limit cfg (now_check env) uid) w))
      as [Hwait|Hrate].
    { rewrite (request_rate_limited cfg env uid user_input w) by lia.
      cbn [snd]. unfold set_trace.
      rewrite backend_calls_app, app_nil_r. split_and!; try done.
      intros; lia. }
    rewrite (request_no_balance cfg env uid user_input w) by lia.
    cbn [snd]. unfold set_trace.
    rewrite backend_calls_app, app_nil_r. split_and!; try done.
    intros. apply Hempty; lia.
  - intros w0 now uname fname e1 e2 e3 i1 i2 i3 r1 r2 r3
      Hfree Hnew Hnostamp Hl1 Hl2 Hl3 Hl4 Hg1 Hg2 Hg3 Hs2 Hs3 Hs4 w1 w4.
    set (u0 := mkUser uname fname (FREE_RECIPES_ON_START cfg) 0 0 now now).
    assert (Hw1 : w1 = mkWorld (<[uid := u0]> (users w0)) (recipes w0)
                          (payments w0) (last_request_time w0)
                          (trace w0 ++ [Logged INFO (NewUser uid)])).
    { unfold w1, exec. by rewrite (get_or_create_user_new _ _ _ _ _ _ Hnew). }
    assert (Hu1 : users w1 !! uid = Some u0).
    { rewrite Hw1. apply lookup_insert_eq. }
    assert (Hc1 : backend_calls w1 = backend_calls w0).
    { rewrite Hw1, backend_calls_app. apply app_nil_r. }
    assert (Hr1 : eval (check_rate_limit cfg (now_check e1) uid) w1 ≤ 0).
    { rewrite check_rate_limit_no_stamp; [lia|]. by rewrite Hw1. }
    unfold w4. rewrite !serve_cons.
    set (w2 := exec (_generate_recipe_for_user cfg e1 uid i1) w1).
    destruct (request_fulfilled_state cfg e1 uid i1 r1 w1 u0 Hl1 Hr1 Hu1)
      as (Hu2 & Ht2 & Hc2); [cbn; lia | done |].
    fold w2 in Hu2, Ht2, Hc2.
    set (w3 := exec (_generate_recipe_for_user cfg e2 uid i2) w2).
    assert (Hr2 : eval (check_rate_limit cfg (now_check e2) uid) w2 ≤ 0)
      by (by rewrite (check_rate_limit_elapsed _ _ _ _ _ Ht2 Hs2)).
    destruct (request_fulfilled_state cfg e2 uid i2 r2 w2 _ Hl2 Hr2 Hu2)
      as (Hu3 & Ht3 & Hc3); [cbn; lia | done |].
    fold w3 in Hu3, Ht3, Hc3.
    set (w4' := exec (_generate_recipe_for_user cfg e3 uid i3) w3).
    assert (Hr3 : eval (check_rate_limit cfg (now_check e3) uid) w3 ≤ 0)
      by (by rewrite (check_rate_limit_elapsed _ _ _ _ _ Ht3 Hs3)).
    destruct (request_fulfilled_state cfg e3 uid i3 r3 w3 _ Hl3 Hr3 Hu3)
      as (Hu4 & Ht4 & Hc4); [cbn; lia | done |].
    fold w4' in Hu4, Ht4, Hc4.
    assert (Hb4 : balance_of w4' uid = 0).
    { rewrite (balance_of_row _ _ _ Hu4). cbn. lia. }
    change (exec (serve cfg uid []) w4') with w4'.
    split_and!.
    + rewrite (balance_of_row _ _ _ Hu1). exact Hfree.
    + exact Hb4.
    + rewrite Hc4, Hc3, Hc2, Hc1. by rewrite <- !app_assoc.
    + apply Hempty; [done| |lia].
      by rewrite (check_rate_limit_elapsed _ _ _ _ _ Ht4 Hs4).
Qed.

Lemma empty_balance_request_rejected_witness :
  rejected_for_balance config3 (env_ok (seconds 90)) 7 "cake" world_spent ∧
  backend_calls
    (exec (_generate_recipe_for_user config3 (env_ok (seconds 70)) 7 "cake")
       world_spent)
    = backend_calls world_spent.
Proof.
  pose proof (empty_balance_request_rejected config3 (env_ok (seconds 90)) 7
                "cake") as [_ Hscenario].
  pose proof (empty_balance_request_rejected config3 (env_ok (seconds 70)) 7
                "cake") as [Hempty _].
  split.
  - refine (proj2 (proj2 (proj2
      (Hscenario empty_world 0 "guest" "Guest" (env_ok (seconds 0))
         (env_ok (seconds 30)) (env_ok (seconds 60)) "soup" "salad" "pie"
         "Recipe: soup" "Recipe: salad" "Recipe: pie"
         eq_refl eq_refl eq_refl _ _ _ _ eq_refl eq_refl eq_refl _ _ _))));
      by vm_compute.
  - refine (proj1 (Hempty world_spent _)). by vm_compute.
Defined.

(** * Further properties of the code *)

(** ** What each store operation leaves behind *)

Lemma get_or_create_user_old (cfg : Config) (now uid : Z)
    (uname fname : string) (w : World) (u : User) :
  users w !! uid = Some u →
  get_or_create_user cfg now uid uname fname w
  = (u, mkWorld (<[uid := mkUser uname fname (tokens_balance u)
                              (total_spent u) (total_recipes u)
                              (created_at u) now]> (users w))
          (recipes w) (payments w) (last_request_time w) (trace w)).
Proof.
  intros Hu. unfold get_or_create_user. monad_run. rewrite Hu. monad_run.
  by rewrite (sql_update_always _ _ _ _ Hu).
Qed.

Lemma add_tokens_known (uid count : Z) (w : World) (u : User) :
  users w !! uid = Some u →
  add_tokens uid count w
  = (tt, mkWorld (<[uid := mkUser (username u) (full_name u)
                              (tokens_balance u + count) (total_spent u)
                              (total_recipes u) (created_at u)
                              (last_seen u)]> (users w))
           (recipes w) (payments w) (last_request_time w)
           (trace w ++ [Logged INFO (TokensAdded uid count)])).
Proof.
  intros Hu. unfold add_tokens. monad_run.
  by rewrite (sql_update_always _ _ _ _ Hu).
Qed.

Lemma add_tokens_unknown (uid count : Z) (w : World) :
  users w !! uid = None →
  add_tokens uid count w
  = (tt, set_trace (λ t, t ++ [Logged INFO (TokensAdded uid count)]) w).
Proof.
  intros Hu. unfold add_tokens. monad_run.
  by rewrite (sql_update_absent _ _ _ _ Hu).
Qed.

Lemma check_payment_exec (st : string) (uid : Z) (pid : string) (w : World) :
  let w0 := set_trace (λ t, t ++ [Sent CheckingPayment]) w in
  let w1 := if bool_decide (st = "succeeded")
            then exec (update_payment_status pid "succeeded") w0 else w0 in
  let reply := if bool_decide (st = "succeeded")
               then PaymentSucceeded (balance_of w1 uid)
               else if bool_decide (st = "canceled") then PaymentCanceled
                    else PaymentPending in
  exec (check_payment st uid pid) w
  = set_trace (λ t, t ++ [Sent reply]) w1.
Proof.
  unfold check_payment, exec, balance_of, eval, get_balance, get_user.
  monad_run. case_bool_decide as Hst.
  - destruct (update_payment_status pid "succeeded" _) as [[] w1].
    by monad_run.
  - by case_bool_decide; monad_run.
Qed.

(** The three ways a request can end, apart from its messages. *)
Lemma request_cases (cfg : Config) (env : Env) (uid : Z)
    (user_input : string) (w : World) :
  let w' := exec (_generate_recipe_for_user cfg env uid user_input) w in
  payments w' = payments w ∧
  ((∃ m, w' = set_trace (λ t, t ++ [Sent m]) w ∧
         (m = TooLong (MAX_PROMPT_LENGTH cfg) ∨
          (∃ n, m = MustWait n ∧ 0 < n) ∨
          m = NoRecipesLeft)) ∨
   (∃ reason,
      generate_recipe env user_input = Raised reason ∧
      0 < balance_of w uid ∧
      w' = mkWorld (users w) (recipes w) (payments w)
             (<[uid := now_stamp env]> (last_request_time w))
             (trace w ++ [Sent Thinking; BackendCalled user_input;
                          Logged ERROR (GenerationFailed uid reason);
                          Sent (GenerationError
                                  (String.substring 0 100 reason))])) ∨
   (∃ u recipe,
      generate_recipe env user_input = Generated recipe ∧
      users w !! uid = Some u ∧
      0 < tokens_balance u ∧
      w' = mkWorld (<[uid := debited 1 u]> (users w))
             (recipes w ++ [mkRecipe uid user_input recipe (now_save env)])
             (payments w)
             (<[uid := now_stamp env]> (last_request_time w))
             (trace w ++ [Sent Thinking; BackendCalled user_input;
                          Sent (RecipeReady recipe (tokens_balance u - 1))]
                      ++ last_recipe_warning (tokens_balance u - 1)
                      ++ [Logged INFO
                            (RecipeDone uid (tokens_balance u - 1))]))).
Proof.
  intros w'. unfold w', exec.
  destruct (decide (MAX_PROMPT_LENGTH cfg < len user_input)) as [Hlong|Hlen].
  { rewrite (request_too_long _ _ _ _ _ Hlong). cbn [snd].
    split; [done|]. left. eexists. split; [done|]. by left. }
  destruct (decide (0 < eval (check_rate_limit cfg (now_check env) uid) w))
    as [Hwait|Hrate].
  { rewrite (request_rate_limited cfg env uid user_input w) by lia.
    cbn [snd]. split; [done|]. left. eexists. split; [done|].
    right. left. by eexists. }
  destruct (decide (balance_of w uid ≤ 0)) as [Hzero|Hpos].
  { rewrite (request_no_balance cfg env uid user_input w) by lia.
    cbn [snd]. split; [done|]. left. eexists. split; [done|]. by right; right. }
  destruct (generate_recipe env user_input) as [recipe|reason] eqn:Hgen.
  - destruct (users w !! uid) as [u|] eqn:Hu.
    + rewrite (balance_of_row _ _ _ Hu) in Hpos.
      rewrite (request_fulfilled cfg env uid user_input recipe w u)
        by (done || lia).
      cbn [snd]. split; [done|]. right. right. exists u, recipe.
      split_and!; (done || lia).
    + exfalso. apply Hpos. unfold balance_of, eval, get_balance, get_user.
      monad_run. by rewrite Hu.
  - rewrite (request_backend_raises cfg env uid user_input reason w)
      by (done || lia).
    cbn [snd]. split; [done|]. right. left. exists reason.
    split_and!; (done || lia).
Qed.

Lemma exec_discard {A} (m : M A) (w : World) :
  exec (m ;; mret tt) w = exec m w.
Proof. unfold exec. rewrite bind_run. reflexivity. Qed.

Lemma settled_users_lookup (st : string) (p : Payment) (t : gmap Z User)
    (uid : Z) :
  settled_users st p t !! uid
  = if bool_decide (st = "succeeded" ∧ status p = "pending" ∧ uid = user_id p)
    then credit (recipes_count p) (amount p) <$> t !! uid
    else t !! uid.
Proof.
  unfold settled_users.
  case_bool_decide as Hs.
  - destruct (decide (uid = user_id p)) as [->|Hne].
    + rewrite bool_decide_eq_true_2 by (by destruct Hs).
      destruct (t !! user_id p) as [u|] eqn:Hu.
      * by rewrite (sql_update_lookup _ _ _ _ _ Hu).
      * by rewrite (sql_update_absent _ _ _ _ Hu).
    + rewrite bool_decide_eq_false_2 by (by intros (_ & _ & ?)).
      by apply sql_update_lookup_ne.
  - by rewrite bool_decide_eq_false_2 by (intros (? & ? & _); by apply Hs).
Qed.

(** The users table after any settlement. *)
Lemma update_payment_status_users (pid st : string) (w : World) :
  users (exec (update_payment_status pid st) w)
  = match payments w !! pid with
    | Some p => settled_users st p (users w)
    | None => users w
    end.
Proof.
  unfold exec. destruct (payments w !! pid) as [p|] eqn:Hp.
  - by rewrite (update_payment_status_found _ _ _ _ Hp).
  - by rewrite (update_payment_status_missing _ _ _ Hp).
Qed.

Lemma update_payment_status_payments (pid st : string) (w : World) :
  payments (exec (update_payment_status pid st) w)
  = match payments w !! pid with
    | Some p => <[pid := set_status st p]> (payments w)
    | None => payments w
    end.
Proof.
  unfold exec. destruct (payments w !! pid) as [p|] eqn:Hp.
  - by rewrite (update_payment_status_found _ _ _ _ Hp).
  - by rewrite (update_payment_status_missing _ _ _ Hp).
Qed.


(** ** Invariants of the store *)

Lemma settle_keeps_nonneg (pid st : string) (w : World) :
  balances_nonneg w → payments_nonneg w →
  balances_nonneg (exec (update_payment_status pid st) w) ∧
  payments_nonneg (exec (update_payment_status pid st) w).
Proof.
  intros Hb Hp. split.
  - intros uid u. rewrite update_payment_status_users.
    destruct (payments w !! pid) as [p|] eqn:Hpid; [|apply Hb].
    rewrite settled_users_lookup. case_bool_decide; [|apply Hb].
    destruct (users w !! uid) as [u0|] eqn:Hu0; [|done].
    intros [= <-]. cbn. specialize (Hb _ _ Hu0).
    destruct (Hp _ _ Hpid). lia.
  - intros pid' p'. rewrite update_payment_status_payments.
    destruct (payments w !! pid) as [p|] eqn:Hpid; [|apply Hp].
    destruct (decide (pid = pid')) as [<-|Hne].
    + rewrite lookup_insert_eq. intros [= <-]. cbn. by apply (Hp pid).
    + rewrite lookup_insert_ne by done. apply Hp.
Qed.

Lemma call_keeps_nonneg (cfg : Config) (c : Call) (w : World) :
  0 ≤ FREE_RECIPES_ON_START cfg →
  sane c →
  balances_nonneg w → payments_nonneg w →
  balances_nonneg (exec (call cfg c) w) ∧
  payments_nonneg (exec (call cfg c) w).
Proof.
  intros Hfree Hsane Hb Hp.
  assert (Hins : ∀ (w' : World) uid u',
            users w' = <[uid := u']> (users w) →
            0 ≤ tokens_balance u' → balances_nonneg w').
  { intros w' uid u' Hw' Hu' k v. rewrite Hw'.
    destruct (decide (uid = k)) as [<-|Hne].
    - rewrite lookup_insert_eq. by intros [= <-].
    - rewrite lookup_insert_ne by done. apply Hb. }
  destruct c as [now uid uname fname|uid|uid count|now uid ui r
                |now pid uid pkg amt count|pid st|env uid ui|st uid pid];
    cbn [call sane] in *.
  - rewrite exec_discard. unfold exec.
    destruct (users w !! uid) as [u|] eqn:Hu.
    + rewrite (get_or_create_user_old _ _ _ _ _ _ _ Hu). cbn [snd].
      split; [|done]. eapply Hins; [done|]. cbn. by apply (Hb uid).
    + rewrite (get_or_create_user_new _ _ _ _ _ _ Hu). cbn [snd].
      split; [|done]. by eapply Hins.
  - rewrite exec_discard. unfold exec.
    destruct (users w !! uid) as [u|] eqn:Hu.
    + destruct (decide (0 < tokens_balance u)) as [Hpos|Hle].
      * rewrite (deduct_token_positive _ _ _ Hu Hpos). cbn [snd].
        split; [|done]. eapply Hins; [done|]. cbn. lia.
      * by rewrite (deduct_token_empty _ _ _ Hu) by lia.
    + by rewrite (deduct_token_unknown _ _ Hu).
  - unfold exec. destruct (users w !! uid) as [u|] eqn:Hu.
    + rewrite (add_tokens_known _ _ _ _ Hu). cbn [snd].
      split; [|done]. eapply Hins; [done|]. cbn. specialize (Hb _ _ Hu). lia.
    + by rewrite (add_tokens_unknown _ _ _ Hu).
  - done.
  - split; [done|]. intros pid' p'. unfold exec, save_payment. monad_run.
    destruct (decide (pid = pid')) as [<-|Hne].
    + rewrite lookup_insert_eq. by intros [= <-].
    + rewrite lookup_insert_ne by done. apply Hp.
  - by apply settle_keeps_nonneg.
  - destruct (request_cases cfg env uid ui w) as [Hpay Hcases].
    split; [|unfold payments_nonneg; by rewrite Hpay].
    destruct Hcases as [(m & -> & _)|[(reason & _ & _ & ->)
                                     |(u & r & _ & Hu & Hpos & ->)]];
      [done|done|].
    eapply Hins; [done|]. cbn. lia.
  - rewrite check_payment_exec. cbn [set_trace users payments].
    case_bool_decide; [|done].
    by apply settle_keeps_nonneg.
Qed.

Lemma calls_cons (cfg : Config) (c : Call) (cs : list Call) (w : World) :
  exec (calls cfg (c :: cs)) w = exec (calls cfg cs) (exec (call cfg c) w).
Proof. unfold exec at 1. cbn [calls]. by rewrite bind_run. Qed.

(** X1: starting from a state in which no balance and no stored package is
    negative, no sequence of store operations and handler calls makes a
    balance negative, provided the free grant, the top-ups and the packages
    saved on the way are not negative. *)
Theorem balances_never_negative (cfg : Config) (cs : list Call) (w : World) :
  0 ≤ FREE_RECIPES_ON_START cfg →
  Forall sane cs →
  balances_nonneg w → payments_nonneg w →
  balances_nonneg (exec (calls cfg cs) w) ∧
  payments_nonneg (exec (calls cfg cs) w) ∧
  ∀ uid, 0 ≤ balance_of (exec (calls cfg cs) w) uid.
Proof.
  intros Hfree Hsane. revert w.
  assert (Hmain : ∀ w, balances_nonneg w → payments_nonneg w →
            balances_nonneg (exec (calls cfg cs) w) ∧
            payments_nonneg (exec (calls cfg cs) w)).
  { induction Hsane as [|c cs Hc Hcs IH]; intros w Hb Hp; [done|].
    rewrite calls_cons.
    destruct (call_keeps_nonneg cfg c w Hfree Hc Hb Hp) as [Hb' Hp'].
    by apply IH. }
  intros w Hb Hp. destruct (Hmain w Hb Hp) as [Hb' Hp'].
  split_and!; [done|done|].
  intros uid. unfold balance_of, eval, get_balance, get_user. monad_run.
  destruct (users _ !! uid) as [u|] eqn:Hu; [|done]. by apply (Hb' uid).
Qed.

Lemma balances_never_negative_witness :
  0 ≤ balance_of
        (exec (calls config3 [GetOrCreateUser 0 7 "guest" "Guest";
                              DeductToken 7; DeductToken 7; DeductToken 7;
                              DeductToken 7; AddTokens 7 2; DeductToken 7])
           empty_world) 7.
Proof.
  refine (proj2 (proj2 (balances_never_negative config3 _ empty_world
                          _ _ _ _)) 7).
  - by vm_compute.
  - repeat constructor. by vm_compute.
  - intros uid u Hu. change (users empty_world) with (∅ : gmap Z User) in Hu.
    by rewrite lookup_empty in Hu.
  - intros pid p Hp.
    change (payments empty_world) with (∅ : gmap string Payment) in Hp.
    by rewrite lookup_empty in Hp.
Defined.

Lemma accounts_kept_refl (w : World) : accounts_kept w w.
Proof. intros uid u Hu. exists u. split_and!; (done || lia). Qed.

Lemma accounts_kept_trans (w1 w2 w3 : World) :
  accounts_kept w1 w2 → accounts_kept w2 w3 → accounts_kept w1 w3.
Proof.
  intros H12 H23 uid u Hu.
  destruct (H12 _ _ Hu) as (u2 & Hu2 & ? & ? & ?).
  destruct (H23 _ _ Hu2) as (u3 & Hu3 & ? & ? & ?).
  exists u3. split_and!; (done || lia || congruence).
Qed.

Lemma accounts_kept_same (w w' : World) :
  users w' = users w → accounts_kept w w'.
Proof. intros Heq uid u Hu. exists u. rewrite Heq. split_and!; (done || lia). Qed.

Lemma accounts_kept_insert (w w' : World) (uid : Z) (u' : User) :
  users w' = <[uid := u']> (users w) →
  (∀ u, users w !! uid = Some u →
        total_recipes u ≤ total_recipes u' ∧
        total_spent u ≤ total_spent u' ∧
        created_at u' = created_at u) →
  accounts_kept w w'.
Proof.
  intros Heq Hrow k u Hu. rewrite Heq.
  destruct (decide (uid = k)) as [<-|Hne].
  - exists u'. rewrite lookup_insert_eq. split; [done|]. by apply Hrow.
  - exists u. rewrite lookup_insert_ne by done. split_and!; (done || lia).
Qed.

Lemma settle_keeps_accounts (pid st : string) (w : World) :
  payments_nonneg w →
  accounts_kept w (exec (update_payment_status pid st) w).
Proof.
  intros Hp uid u Hu. rewrite update_payment_status_users.
  destruct (payments w !! pid) as [p|] eqn:Hpid.
  - rewrite settled_users_lookup, Hu. case_bool_decide.
    + eexists. split; [done|]. cbn. destruct (Hp _ _ Hpid).
      split_and!; (done || lia).
    + exists u. split_and!; (done || lia).
  - exists u. split_and!; (done || lia).
Qed.

Lemma settle_keeps_payments_nonneg (pid st : string) (w : World) :
  payments_nonneg w →
  payments_nonneg (exec (update_payment_status pid st) w).
Proof.
  intros Hp pid' p'. rewrite update_payment_status_payments.
  destruct (payments w !! pid) as [p|] eqn:Hpid; [|apply Hp].
  destruct (decide (pid = pid')) as [<-|Hne].
  - rewrite lookup_insert_eq. intros [= <-]. cbn. by apply (Hp pid).
  - rewrite lookup_insert_ne by done. apply Hp.
Qed.

Lemma call_keeps_payments_nonneg (cfg : Config) (c : Call) (w : World) :
  sane c → payments_nonneg w → payments_nonneg (exec (call cfg c) w).
Proof.
  intros Hsane Hp.
  destruct c as [now uid uname fname|uid|uid count|now uid ui r
                |now pid uid pkg amt count|pid st|env uid ui|st uid pid];
    cbn [call sane] in *.
  - rewrite exec_discard. unfold exec.
    destruct (users w !! uid) as [u|] eqn:Hu.
    + by rewrite (get_or_create_user_old _ _ _ _ _ _ _ Hu).
    + by rewrite (get_or_create_user_new _ _ _ _ _ _ Hu).
  - rewrite exec_discard. unfold exec.
    destruct (users w !! uid) as [u|] eqn:Hu.
    + destruct (decide (0 < tokens_balance u)) as [Hpos|Hle].
      * by rewrite (deduct_token_positive _ _ _ Hu Hpos).
      * by rewrite (deduct_token_empty _ _ _ Hu) by lia.
    + by rewrite (deduct_token_unknown _ _ Hu).
  - unfold exec. destruct (users w !! uid) as [u|] eqn:Hu.
    + by rewrite (add_tokens_known _ _ _ _ Hu).
    + by rewrite (add_tokens_unknown _ _ _ Hu).
  - done.
  - intros pid' p'. unfold exec, save_payment. monad_run.
    destruct (decide (pid = pid')) as [<-|Hne].
    + rewrite lookup_insert_eq. by intros [= <-].
    + rewrite lookup_insert_ne by done. apply Hp.
  - by apply settle_keeps_payments_nonneg.
  - destruct (request_cases cfg env uid ui w) as [Hpay _].
    unfold payments_nonneg. by rewrite Hpay.
  - rewrite check_payment_exec. cbn zeta.
    case_bool_decide; [|done].
    by apply (settle_keeps_payments_nonneg pid "succeeded"
                (set_trace (λ t, t ++ [Sent CheckingPayment]) w)).
Qed.

Lemma call_keeps_accounts (cfg : Config) (c : Call) (w : World) :
  payments_nonneg w → accounts_kept w (exec (call cfg c) w).
Proof.
  intros Hp.
  destruct c as [now uid uname fname|uid|uid count|now uid ui r
                |now pid uid pkg amt count|pid st|env uid ui|st uid pid];
    cbn [call].
  - rewrite exec_discard. unfold exec.
    destruct (users w !! uid) as [u|] eqn:Hu.
    + rewrite (get_or_create_user_old _ _ _ _ _ _ _ Hu). cbn [snd].
      eapply accounts_kept_insert; [done|].
      intros u0. rewrite Hu. intros [= <-]. cbn. lia.
    + rewrite (get_or_create_user_new _ _ _ _ _ _ Hu). cbn [snd].
      eapply accounts_kept_insert; [done|]. intros u0. by rewrite Hu.
  - rewrite exec_discard. unfold exec.
    destruct (users w !! uid) as [u|] eqn:Hu.
    + destruct (decide (0 < tokens_balance u)) as [Hpos|Hle].
      * rewrite (deduct_token_positive _ _ _ Hu Hpos). cbn [snd].
        eapply accounts_kept_insert; [done|].
        intros u0. rewrite Hu. intros [= <-]. cbn. lia.
      * rewrite (deduct_token_empty _ _ _ Hu) by lia. apply accounts_kept_refl.
    + rewrite (deduct_token_unknown _ _ Hu). apply accounts_kept_refl.
  - unfold exec. destruct (users w !! uid) as [u|] eqn:Hu.
    + rewrite (add_tokens_known _ _ _ _ Hu). cbn [snd].
      eapply accounts_kept_insert; [done|].
      intros u0. rewrite Hu. intros [= <-]. cbn. lia.
    + rewrite (add_tokens_unknown _ _ _ Hu). by apply accounts_kept_same.
  - by apply accounts_kept_same.
  - by apply accounts_kept_same.
  - by apply settle_keeps_accounts.
  - destruct (request_cases cfg env uid ui w) as [_ Hcases].
    destruct Hcases as [(m & -> & _)|[(reason & _ & _ & ->)
                                     |(u & r & _ & Hu & Hpos & ->)]].
    + by apply accounts_kept_same.
    + by apply accounts_kept_same.
    + eapply accounts_kept_insert; [done|].
      intros u0. rewrite Hu. intros [= <-]. cbn. lia.
  - rewrite check_payment_exec. cbn zeta.
    case_bool_decide.
    + eapply accounts_kept_trans;
        [|apply accounts_kept_same; unfold set_trace; cbn; reflexivity].
      eapply accounts_kept_trans; [|by apply settle_keeps_accounts].
      by apply accounts_kept_same.
    + by apply accounts_kept_same.
Qed.

(** X2: accounts are never deleted and their counters never go down: after
    any sequence of store operations and handler calls (with no negative
    package saved on the way) every account that had a row still has one,
    created at the same time, with a usage counter and a spend accumulator
    at least as large as before. *)
Theorem accounts_never_lost (cfg : Config) (cs : list Call) (w : World) :
  Forall sane cs →
  payments_nonneg w →
  accounts_kept w (exec (calls cfg cs) w).
Proof.
  intros Hsane. revert w.
  induction Hsane as [|c cs Hc Hcs IH]; intros w Hp.
  - apply accounts_kept_refl.
  - rewrite calls_cons.
    eapply accounts_kept_trans; [by apply call_keeps_accounts|].
    apply IH. by apply call_keeps_payments_nonneg.
Qed.

Lemma accounts_never_lost_witness :
  ∃ u', users (exec (calls config3 [UpdatePaymentStatus "pay-1" "succeeded";
                                    DeductToken 7;
                                    SavePayment 9 "pay-1" 7 "pack10" 199 10])
                 world_pending) !! 7 = Some u' ∧
        0 ≤ total_recipes u' ∧ 0 ≤ total_spent u' ∧ created_at u' = 0.
Proof.
  refine (accounts_never_lost config3 _ world_pending _ _ 7 guest eq_refl).
  - repeat constructor; by vm_compute.
  - intros pid p Hp. destruct (decide (pid = "pay-1")) as [->|Hne].
    + vm_compute in Hp. injection Hp as <-. by vm_compute.
    + change (payments world_pending)
        with ({[ "pay-1" := pack10 ]} : gmap string Payment) in Hp.
      by rewrite lookup_singleton_ne in Hp.
Defined.

(** ** History and usage counter *)



Lemma usage_of_same (w w' : World) (uid : Z) :
  users w' = users w → usage_of w' uid = usage_of w uid.
Proof. unfold usage_of. by intros ->. Qed.






(** ** Rate limiter *)

(** X5: the wait answered by [check_rate_limit] is enough and bounded.  For
    an account with a recorded request the answer is never negative, it is 0
    exactly when the cooldown has elapsed, a check made that many seconds
    later (or any time after) answers 0, and for a cooldown that is not
    negative, while the clock has not gone back behind the recorded time,
    the answer is at most the cooldown plus one second. *)
Theorem advertised_wait_is_enough
    (cfg : Config) (now uid last : Z) (w : World) :
  last_request_time w !! uid = Some last →
  let n := eval (check_rate_limit cfg now uid) w in
  0 ≤ n ∧
  (n = 0 ↔ seconds (RATE_LIMIT_SECONDS cfg) ≤ now - last) ∧
  (∀ later, now + seconds n ≤ later →
            eval (check_rate_limit cfg later uid) w = 0) ∧
  (0 ≤ RATE_LIMIT_SECONDS cfg → last ≤ now →
   n ≤ RATE_LIMIT_SECONDS cfg + 1).
Proof.
  intros Hlast n. unfold n.
  assert (Hlater : ∀ later,
            eval (check_rate_limit cfg later uid) w
            = let wait := seconds (RATE_LIMIT_SECONDS cfg) - (later - last) in
              if bool_decide (0 < wait)
              then Z.quot wait microseconds_per_second + 1 else 0)
    by (intros; by apply check_rate_limit_stamped).
  rewrite (Hlater now). cbv zeta.
  unfold seconds, microseconds_per_second in *.
  case_bool_decide as Hwait.
  - rewrite Z.quot_div_nonneg by lia.
    set (wait := RATE_LIMIT_SECONDS cfg * 1000000 - (now - last)) in *.
    pose proof (Z.div_mod wait 1000000 ltac:(lia)) as Hdm.
    pose proof (Z.mod_pos_bound wait 1000000 ltac:(lia)) as Hmod.
    assert (Hq : 0 ≤ wait `div` 1000000) by (apply Z.div_pos; lia).
    split_and!.
    + lia.
    + split; intros; lia.
    + intros later Hle. rewrite Hlater. cbv zeta.
      rewrite bool_decide_eq_false_2; [done|]. lia.
    + intros Hcool Hclock.
      assert (wait `div` 1000000 ≤ RATE_LIMIT_SECONDS cfg); [|lia].
      apply Z.div_le_upper_bound; lia.
  - split_and!.
    + lia.
    + split; intros; lia.
    + intros later Hle. rewrite Hlater. cbv zeta.
      rewrite bool_decide_eq_false_2; [done|]. lia.
    + intros Hcool Hclock. lia.
Qed.

Lemma advertised_wait_is_enough_witness :
  eval (check_rate_limit config3 (seconds 65) 7) world_spent = 26 ∧
  eval (check_rate_limit config3 (seconds 65 + seconds 26) 7) world_spent = 0.
Proof.
  pose proof (advertised_wait_is_enough config3 (seconds 65) 7 (seconds 60)
                world_spent eq_refl) as H.
  cbv zeta in H. destruct H as (_ & _ & Hlater & _).
  split; [reflexivity|]. apply Hlater. by vm_compute.
Defined.

(** X6: an attempt starts the cooldown, for its account only.  After a
    request that reached the generation backend, whether it was fulfilled or
    the backend failed, a next request of the same account checked less than
    the cooldown after the stamp is told to wait and changes no account, no
    history row, no stamp, and does not reach the backend; the answers of
    the rate limiter for other accounts are what they were before the
    attempt. *)
Theorem attempt_starts_cooldown
    (cfg : Config) (env env2 : Env) (uid : Z) (user_input next_input : string)
    (w : World) :
  let w1 := exec (_generate_recipe_for_user cfg env uid user_input) w in
  let w2 := exec (_generate_recipe_for_user cfg env2 uid next_input) w1 in
  backend_calls w1 ≠ backend_calls w →
  len next_input ≤ MAX_PROMPT_LENGTH cfg →
  now_check env2 - now_stamp env < seconds (RATE_LIMIT_SECONDS cfg) →
  (∃ n, 0 < n ∧ sent w2 = sent w1 ++ [MustWait n]) ∧
  users w2 = users w1 ∧
  recipes w2 = recipes w1 ∧
  last_request_time w2 = last_request_time w1 ∧
  backend_calls w2 = backend_calls w1 ∧
  (∀ k now, k ≠ uid →
     eval (check_rate_limit cfg now k) w1
     = eval (check_rate_limit cfg now k) w).
Proof.
  intros w1 w2 Hcalled Hlen Hsoon.
  assert (Hstamp : last_request_time w1
                   = <[uid := now_stamp env]> (last_request_time w)).
  { destruct (request_cases cfg env uid user_input w) as [_ Hcases].
    fold w1 in Hcases.
    destruct Hcases as [(m & Hw1 & _)|[(reason & _ & _ & Hw1)
                                      |(u & r & _ & _ & _ & Hw1)]];
      rewrite Hw1 in *; [|done|done].
    exfalso. apply Hcalled. unfold set_trace.
    rewrite backend_calls_app. apply app_nil_r. }
  assert (Hwait : 0 < eval (check_rate_limit cfg (now_check env2) uid) w1).
  { erewrite check_rate_limit_stamped
      by (rewrite Hstamp; apply lookup_insert_eq).
    cbv zeta. rewrite bool_decide_eq_true_2 by lia.
    rewrite Z.quot_div_nonneg by (unfold microseconds_per_second; lia).
    assert (0 ≤ (seconds (RATE_LIMIT_SECONDS cfg)
                 - (now_check env2 - now_stamp env))
                `div` microseconds_per_second); [|lia].
    apply Z.div_pos; unfold microseconds_per_second; lia. }
  unfold w2, exec.
  rewrite (request_rate_limited cfg env2 uid next_input w1 Hlen Hwait).
  cbn [snd]. unfold set_trace. rewrite backend_calls_app, sent_app, app_nil_r.
  cbn. split_and!; try done.
  - eexists. split; [exact Hwait|done].
  - intros k now Hk. unfold eval, check_rate_limit. monad_run.
    rewrite Hstamp. by rewrite lookup_insert_ne.
Qed.

Lemma attempt_starts_cooldown_witness :
  let w1 := exec (_generate_recipe_for_user config3 (env_timeout (seconds 40))
                    7 "borscht") world_three in
  let w2 := exec (_generate_recipe_for_user config3 (env_ok (seconds 50))
                    7 "borscht") w1 in
  users w2 = users w1 ∧ backend_calls w2 = backend_calls w1.
Proof.
  pose proof (attempt_starts_cooldown config3 (env_timeout (seconds 40))
                (env_ok (seconds 50)) 7 "borscht" "borscht" world_three) as H.
  cbv zeta in H. destruct H as (_ & Hu & _ & _ & Hc & _).
  - by vm_compute.
  - by vm_compute.
  - by vm_compute.
  - split; [exact Hu | exact Hc].
Defined.

(** ** Payment ledger, further *)

(** X7: tokens are credited only on the step from [pending] to
    [succeeded].  When [update_payment_status] changes the [users] table at
    all, the new status is [succeeded], the stored record was [pending] and
    its account has a row, and then that row (and no other) is credited the
    record's recipes and amount.  Whatever the outcome, the status of a
    stored record becomes the new status and no other record changes. *)
Theorem credit_only_from_pending_to_succeeded
    (pid st : string) (w : World) :
  let w' := exec (update_payment_status pid st) w in
  (users w' ≠ users w →
     st = "succeeded" ∧
     ∃ p u, payments w !! pid = Some p ∧ status p = "pending" ∧
            users w !! user_id p = Some u ∧
            users w' = <[user_id p := credit (recipes_count p) (amount p) u]>
                         (users w)) ∧
  payments w' !! pid = set_status st <$> payments w !! pid ∧
  (∀ pid', pid' ≠ pid → payments w' !! pid' = payments w !! pid').
Proof.
  intros w'. unfold w'.
  rewrite update_payment_status_users, update_payment_status_payments.
  destruct (payments w !! pid) as [p|] eqn:Hp.
  - split_and!.
    + unfold settled_users. case_bool_decide as Hs; [|done].
      destruct Hs as [-> Hpending].
      destruct (users w !! user_id p) as [u|] eqn:Hu.
      * rewrite (sql_update_always _ _ _ _ Hu). cbn. intros _.
        split; [done|]. by exists p, u.
      * by rewrite (sql_update_absent _ _ _ _ Hu).
    + by rewrite lookup_insert_eq.
    + intros pid' Hne. by rewrite lookup_insert_ne.
  - by split_and!.
Qed.

Lemma credit_only_from_pending_to_succeeded_witness :
  ∃ p u, payments world_pending !! "pay-1" = Some p ∧
         status p = "pending" ∧
         users world_pending !! user_id p = Some u ∧
         users (exec (update_payment_status "pay-1" "succeeded") world_pending)
         = <[user_id p := credit (recipes_count p) (amount p) u]>
             (users world_pending).
Proof.
  refine (proj2 (proj1 (credit_only_from_pending_to_succeeded "pay-1"
                          "succeeded" world_pending) _)).
  intros Heq.
  apply (f_equal (λ t : gmap Z User, tokens_balance <$> t !! 7)) in Heq.
  vm_compute in Heq. discriminate Heq.
Defined.

(** X8: [add_tokens] raises the balance of an account that has a row by the
    count and leaves its counters, every other account and the ledger as
    they were; for an account without a row it changes no table at all, yet
    logs the top-up all the same. *)
Theorem add_tokens_tops_up_known_accounts (uid count : Z) (w : World) :
  let w' := exec (add_tokens uid count) w in
  (∀ u, users w !! uid = Some u →
        users w' !! uid
        = Some (mkUser (username u) (full_name u) (tokens_balance u + count)
                       (total_spent u) (total_recipes u) (created_at u)
                       (last_seen u)) ∧
        balance_of w' uid = balance_of w uid + count) ∧
  (users w !! uid = None → users w' = users w) ∧
  (∀ k, k ≠ uid → users w' !! k = users w !! k) ∧
  payments w' = payments w ∧
  recipes w' = recipes w ∧
  trace w' = trace w ++ [Logged INFO (TokensAdded uid count)].
Proof.
  intros w'. unfold w', exec.
  destruct (users w !! uid) as [u|] eqn:Hu.
  - rewrite (add_tokens_known _ _ _ _ Hu). cbn [snd users payments recipes trace].
    split_and!; try done.
    + intros u0 [= <-]. rewrite lookup_insert_eq. split; [done|].
      erewrite !balance_of_row; [|exact Hu|apply lookup_insert_eq]. done.
    + intros k Hk. by apply lookup_insert_ne.
  - rewrite (add_tokens_unknown _ _ _ Hu). by split_and!.
Qed.

Lemma add_tokens_tops_up_known_accounts_witness :
  balance_of (exec (add_tokens 7 5) world_three) 7 = 8 ∧
  users (exec (add_tokens 8 5) world_three) = users world_three.
Proof.
  pose proof (add_tokens_tops_up_known_accounts 7 5 world_three) as H7.
  pose proof (add_tokens_tops_up_known_accounts 8 5 world_three) as H8.
  cbv zeta in H7, H8.
  destruct H7 as (Hknown & _). destruct H8 as (_ & Hunknown & _).
  split.
  - exact (proj2 (Hknown _ eq_refl)).
  - apply Hunknown. reflexivity.
Defined.

Lemma sent_set_trace (w : World) (es : list Event) :
  sent (set_trace (λ t, t ++ es) w)
  = sent w ++ omap (λ e, match e with Sent m => Some m | _ => None end) es.
Proof. unfold sent, set_trace. cbn. apply omap_app. Qed.

(** X9: a payment check that does not find the payment succeeded writes
    nothing: for every provider answer other than [succeeded],
    [check_payment] leaves accounts, payment records (a canceled payment
    stays as stored), history and stamps untouched and only tells the user
    that the payment was canceled or is still pending. *)
Theorem unsettled_check_writes_nothing
    (st : string) (uid : Z) (pid : string) (w : World) :
  st ≠ "succeeded" →
  let w' := exec (check_payment st uid pid) w in
  users w' = users w ∧
  payments w' = payments w ∧
  recipes w' = recipes w ∧
  last_request_time w' = last_request_time w ∧
  sent w' = sent w ++ [CheckingPayment;
                       if bool_decide (st = "canceled")
                       then PaymentCanceled else PaymentPending].
Proof.
  intros Hst w'. unfold w'. rewrite check_payment_exec. cbv zeta.
  rewrite !bool_decide_eq_false_2 by done.
  rewrite !sent_set_trace. cbn. rewrite <- app_assoc. cbn.
  split_and!; by try case_bool_decide.
Qed.

Lemma unsettled_check_writes_nothing_witness :
  payments (exec (check_payment "canceled" 7 "pay-1") world_pending)
  = payments world_pending.
Proof.
  pose proof (unsettled_check_writes_nothing "canceled" 7 "pay-1"
                world_pending) as H.
  cbv zeta in H. destruct H as (_ & Hp & _); [done | exact Hp].
Defined.

Lemma update_payment_status_sent (pid st : string) (w : World) :
  sent (exec (update_payment_status pid st) w) = sent w.
Proof.
  unfold exec. destruct (payments w !! pid) as [p|] eqn:Hp.
  - rewrite (update_payment_status_found _ _ _ _ Hp). cbn [snd].
    rewrite sent_app. unfold settled_trace.
    case_bool_decide; cbn; by rewrite app_nil_r.
  - rewrite (update_payment_status_missing _ _ _ Hp). cbn [snd].
    rewrite sent_set_trace. cbn. by rewrite app_nil_r.
Qed.

Lemma balance_of_same (w w' : World) (uid : Z) :
  users w' = users w → balance_of w' uid = balance_of w uid.
Proof.
  intros Heq. unfold balance_of, eval, get_balance, get_user. monad_run.
  by rewrite Heq.
Qed.

(** X10: the "check payment" button credits the owner of the payment, once.
    When the provider reports [succeeded] for a pending payment whose account
    has a row, [check_payment] credits that account the package, whoever
    pressed the button, and answers with the balance of the user who pressed
    it (unchanged when that is somebody else); pressing the button again
    credits nothing and answers with the same balance. *)
Theorem check_payment_credits_owner_once
    (uid : Z) (pid : string) (p : Payment) (u : User) (w : World) :
  payments w !! pid = Some p →
  status p = "pending" →
  users w !! user_id p = Some u →
  let w1 := exec (check_payment "succeeded" uid pid) w in
  let w2 := exec (check_payment "succeeded" uid pid) w1 in
  balance_of w1 (user_id p) = tokens_balance u + recipes_count p ∧
  (total_spent <$> users w1 !! user_id p) = Some (total_spent u + amount p) ∧
  (uid ≠ user_id p → balance_of w1 uid = balance_of w uid) ∧
  sent w1 = sent w ++ [CheckingPayment; PaymentSucceeded (balance_of w1 uid)] ∧
  users w2 = users w1 ∧
  sent w2 = sent w1 ++ [CheckingPayment; PaymentSucceeded (balance_of w1 uid)].
Proof.
  intros Hp Hpending Hu w1 w2.
  set (w0 := set_trace (λ t, t ++ [Sent CheckingPayment]) w).
  set (ws := exec (update_payment_status pid "succeeded") w0).
  assert (Hw1 : w1 = set_trace
                       (λ t, t ++ [Sent (PaymentSucceeded (balance_of ws uid))])
                       ws).
  { unfold w1. rewrite check_payment_exec. cbv zeta.
    by rewrite !bool_decide_eq_true_2 by done. }
  assert (Husers : users ws = <[user_id p := credit (recipes_count p)
                                              (amount p) u]> (users w)).
  { unfold ws. rewrite update_payment_status_users. cbn [payments set_trace w0].
    rewrite Hp. unfold settled_users.
    rewrite bool_decide_eq_true_2 by done.
    by rewrite (sql_update_always _ _ _ _ Hu). }
  assert (Hpay : payments ws !! pid = Some (set_status "succeeded" p)).
  { unfold ws. rewrite update_payment_status_payments. cbn [payments set_trace w0].
    rewrite Hp. apply lookup_insert_eq. }
  assert (Hb1 : ∀ k, balance_of w1 k = balance_of ws k).
  { intros k. apply balance_of_same. by rewrite Hw1. }
  set (w0' := set_trace (λ t, t ++ [Sent CheckingPayment]) w1).
  set (ws' := exec (update_payment_status pid "succeeded") w0').
  assert (Hw2 : w2 = set_trace
                       (λ t, t ++ [Sent (PaymentSucceeded (balance_of ws' uid))])
                       ws').
  { unfold w2. rewrite check_payment_exec. cbv zeta.
    by rewrite !bool_decide_eq_true_2 by done. }
  assert (Husers' : users ws' = users w1).
  { assert (Hpay1 : payments w0' !! pid = Some (set_status "succeeded" p)).
    { unfold w0'. cbn [payments set_trace]. by rewrite Hw1. }
    unfold ws'. rewrite update_payment_status_users, Hpay1.
    unfold settled_users. cbn [status set_status].
    by rewrite bool_decide_eq_false_2 by (intros [_ ?]; done). }
  split_and!.
  - rewrite Hb1. erewrite balance_of_row
      by (rewrite Husers; apply lookup_insert_eq). done.
  - rewrite Hw1. cbn [users set_trace]. rewrite Husers.
    by rewrite lookup_insert_eq.
  - intros Hne. rewrite Hb1.
    unfold balance_of, eval, get_balance, get_user. monad_run.
    rewrite Husers. by rewrite lookup_insert_ne.
  - rewrite Hb1, Hw1, sent_set_trace. unfold ws at 1.
    rewrite update_payment_status_sent. unfold w0. rewrite sent_set_trace.
    cbn. by rewrite <- app_assoc.
  - rewrite Hw2. cbn [users set_trace]. exact Husers'.
  - rewrite Hw2, sent_set_trace, (balance_of_same w1 ws' uid Husers').
    unfold ws'. rewrite update_payment_status_sent. unfold w0'.
    rewrite sent_set_trace. cbn. by rewrite <- app_assoc.
Qed.

Lemma check_payment_credits_owner_once_witness :
  let w1 := exec (check_payment "succeeded" 8 "pay-1") world_pending in
  balance_of w1 7 = 10 ∧ balance_of w1 8 = 0 ∧
  users (exec (check_payment "succeeded" 8 "pay-1") w1) = users w1.
Proof.
  pose proof (check_payment_credits_owner_once 8 "pay-1" pack10 guest
                world_pending eq_refl eq_refl eq_refl) as H.
  cbv zeta in H. destruct H as (Hb & _ & Hother & _ & Hu & _).
  split; [exact Hb|]. split; [|exact Hu].
  rewrite Hother; [reflexivity | done].
Defined.

(** ** Payment provider and purchases *)

Lemma prefix_empty (s : string) : String.prefix EmptyString s = true.
Proof. by destruct s. Qed.

Lemma mock_id_prefix (s : string) : String.prefix "mock_" ("mock_" +:+ s) = true.
Proof. cbn. apply prefix_empty. Qed.

Lemma mock_mode_test (pc : PayConfig) :
  mock_mode pc ↔
  YOOKASSA_USE_MOCK pc || negb (YOOKASSA_AVAILABLE pc)
  || bool_decide (YOOKASSA_SHOP_ID pc = "test_shop" ∨ YOOKASSA_SHOP_ID pc = EmptyString)
  = true.
Proof.
  unfold mock_mode.
  destruct (YOOKASSA_USE_MOCK pc), (YOOKASSA_AVAILABLE pc); cbn;
    rewrite ?bool_decide_eq_true; intuition discriminate.
Qed.

(** X11: [create_payment] sells a package at its listed terms or not at
    all.  For a key that is not in [PACKAGES] it raises [ValueError] without
    logging or asking the provider; whenever it returns payment data, the
    key is a package and the data carry that package's price and number of
    recipes, in mock and in real mode; and the only other failure is the
    [RuntimeError] that wraps a failure of the provider, which is logged. *)
Theorem create_payment_keeps_package_terms
    (pc : PayConfig) (penv : PayEnv) (uid : Z) (package_key : string) :
  (PACKAGES pc !! package_key = None →
     create_payment pc penv uid package_key
     = (Raise (ValueError package_key), [])) ∧
  (∀ data notes,
     create_payment pc penv uid package_key = (Return data, notes) →
     ∃ pkg, PACKAGES pc !! package_key = Some pkg ∧
            pd_amount data = pkg_price pkg ∧
            pd_recipes_count data = pkg_recipes pkg) ∧
  (∀ e notes,
     create_payment pc penv uid package_key = (Raise e, notes) →
     (PACKAGES pc !! package_key = None ∧ e = ValueError package_key) ∨
     (∃ reason, e = RuntimeError reason ∧ ¬ mock_mode pc ∧
                Noted ERROR (PaymentCreateFailed reason) ∈ notes)).
Proof.
  unfold create_payment.
  destruct (PACKAGES pc !! package_key) as [pkg|] eqn:Hpkg.
  - split; [done|].
    destruct (YOOKASSA_USE_MOCK pc || negb (YOOKASSA_AVAILABLE pc)
              || bool_decide (YOOKASSA_SHOP_ID pc = "test_shop"
                              ∨ YOOKASSA_SHOP_ID pc = EmptyString)) eqn:Hmode.
    + unfold _create_mock_payment. split.
      * intros data notes [= <- _]. by exists pkg.
      * intros e notes [=].
    + unfold _create_real_payment.
      destruct (sdk_create penv _ _ _ _ _) as [[pid url]|reason]; split.
      * intros data notes [= <- _]. by exists pkg.
      * intros e notes [=].
      * intros data notes [=].
      * intros e notes [= <- <-]. right. exists reason.
        split_and!; [done| |apply list_elem_of_here].
        rewrite mock_mode_test. by rewrite Hmode.
  - split_and!; [done| |].
    + intros data notes [=].
    + intros e notes [= <- _]. by left.
Qed.

Lemma create_payment_keeps_package_terms_witness :
  ∃ pkg, two_packages !! "pack10" = Some pkg ∧
         199 = pkg_price pkg ∧ 10 = pkg_recipes pkg.
Proof.
  exact (proj1 (proj2 (create_payment_keeps_package_terms shop_mock sdk_down
                         7 "pack10")) _ _ eq_refl).
Defined.

(** X12: a mock payment always checks as paid.  In mock mode (mock flag set,
    SDK missing, or a test or empty shop id) [create_payment] for a listed
    package returns an id that begins with [mock_], and
    [check_payment_status] answers [succeeded] for such an id without asking
    the provider, whatever the provider would say and in whatever mode the
    check runs. *)
Theorem mock_payment_checks_as_succeeded
    (pc pc' : PayConfig) (penv penv' : PayEnv) (uid : Z)
    (package_key : string) (pkg : Package) :
  PACKAGES pc !! package_key = Some pkg →
  mock_mode pc →
  ∃ data notes,
    create_payment pc penv uid package_key = (Return data, notes) ∧
    payment_id data = "mock_" +:+ String.substring 0 16 (uuid_hex penv) ∧
    check_payment_status pc' penv' (payment_id data) = ("succeeded", []).
Proof.
  intros Hpkg Hmode. unfold create_payment. rewrite Hpkg.
  apply mock_mode_test in Hmode. rewrite Hmode.
  unfold _create_mock_payment. eexists _, _. split; [done|]. split; [done|].
  unfold check_payment_status. cbn [payment_id].
  by rewrite mock_id_prefix.
Qed.

Lemma mock_payment_checks_as_succeeded_witness :
  ∃ data notes,
    create_payment shop_mock sdk_down 7 "pack10" = (Return data, notes) ∧
    payment_id data = "mock_0123456789abcdef" ∧
    check_payment_status shop_mock sdk_down (payment_id data)
    = ("succeeded", []).
Proof.
  exact (mock_payment_checks_as_succeeded shop_mock shop_mock sdk_down
           sdk_down 7 "pack10" _ eq_refl (or_introl eq_refl)).
Defined.

Lemma check_payment_succeeded_store (uid : Z) (pid : string) (w : World) :
  users (exec (check_payment "succeeded" uid pid) w)
    = users (exec (update_payment_status pid "succeeded") w) ∧
  payments (exec (check_payment "succeeded" uid pid) w)
    = payments (exec (update_payment_status pid "succeeded") w).
Proof.
  rewrite check_payment_exec. cbv zeta.
  rewrite bool_decide_eq_true_2 by done. cbn [users payments set_trace].
  by rewrite !update_payment_status_users, !update_payment_status_payments.
Qed.

Lemma settle_pending_users (pid : string) (p : Payment) (u : User)
    (w : World) :
  payments w !! pid = Some p →
  status p = "pending" →
  users w !! user_id p = Some u →
  users (exec (update_payment_status pid "succeeded") w)
    = <[user_id p := credit (recipes_count p) (amount p) u]> (users w) ∧
  payments (exec (update_payment_status pid "succeeded") w) !! pid
    = Some (set_status "succeeded" p).
Proof.
  intros Hp Hpending Hu.
  rewrite update_payment_status_users, update_payment_status_payments, Hp.
  unfold settled_users. rewrite bool_decide_eq_true_2 by done.
  rewrite (sql_update_always _ _ _ _ Hu). by rewrite lookup_insert_eq.
Qed.

Lemma settle_settled_users (pid st : string) (p : Payment) (w : World) :
  payments w !! pid = Some p →
  status p ≠ "pending" →
  users (exec (update_payment_status pid st) w) = users w ∧
  payments (exec (update_payment_status pid st) w) !! pid
    = Some (set_status st p).
Proof.
  intros Hp Hsettled.
  rewrite update_payment_status_users, update_payment_status_payments, Hp.
  unfold settled_users.
  rewrite bool_decide_eq_false_2 by (by intros [_ ?]).
  by rewrite lookup_insert_eq.
Qed.

Lemma check_payment_button_exec (pc : PayConfig) (penv : PayEnv) (uid : Z)
    (pid : string) (w : World) :
  exec (check_payment_button pc penv uid pid) w
  = exec (check_payment (check_payment_status pc penv pid).1 uid pid) w.
Proof.
  unfold check_payment_button, exec.
  destruct (check_payment_status pc penv pid) as [st notes]. cbn [fst].
  rewrite bind_run. reflexivity.
Qed.

(** X14: a purchase in mock mode, end to end.  For a listed package and a
    user who has a row, [process_purchase] in mock mode followed by the
    "check payment" button on the new payment id raises the user's balance
    by the package's recipes and the spend accumulator by its price, whatever
    the provider would answer; pressing the button again changes no
    account. *)
Theorem mock_purchase_end_to_end
    (pc : PayConfig) (penv penv2 penv3 : PayEnv) (now uid : Z)
    (package_key : string) (pkg : Package) (u : User) (w : World) :
  PACKAGES pc !! package_key = Some pkg →
  mock_mode pc →
  users w !! uid = Some u →
  let pid := "mock_" +:+ String.substring 0 16 (uuid_hex penv) in
  let w1 := exec (process_purchase pc penv now uid package_key) w in
  let w2 := exec (check_payment_button pc penv2 uid pid) w1 in
  let w3 := exec (check_payment_button pc penv3 uid pid) w2 in
  payments w1 !! pid
    = Some (mkPayment uid package_key (pkg_price pkg) (pkg_recipes pkg)
              "pending" now) ∧
  balance_of w2 uid = tokens_balance u + pkg_recipes pkg ∧
  (total_spent <$> users w2 !! uid) = Some (total_spent u + pkg_price pkg) ∧
  (status <$> payments w2 !! pid) = Some "succeeded" ∧
  users w3 = users w2.
Proof.
  intros Hpkg Hmode Hu pid w1 w2 w3.
  set (p := mkPayment uid package_key (pkg_price pkg) (pkg_recipes pkg)
              "pending" now).
  assert (Hw1 : users w1 = users w ∧ payments w1 !! pid = Some p).
  { unfold w1, exec, process_purchase, create_payment. rewrite Hpkg.
    apply mock_mode_test in Hmode. rewrite Hmode.
    unfold _create_mock_payment, save_payment. monad_run.
    split; [done|]. apply lookup_insert_eq. }
  destruct Hw1 as [Hu1 Hp1].
  assert (Hstatus : ∀ e, (check_payment_status pc e pid).1 = "succeeded").
  { intros e. unfold check_payment_status, pid. by rewrite mock_id_prefix. }
  assert (Hrow : users w1 !! user_id p = Some u) by (by rewrite Hu1).
  destruct (settle_pending_users pid p u w1 Hp1 eq_refl Hrow) as [Hs2 Hp2'].
  destruct (check_payment_succeeded_store uid pid w1) as [Hcu Hcp].
  assert (Hu2 : users w2 = <[uid := credit (pkg_recipes pkg) (pkg_price pkg) u]>
                             (users w1)).
  { unfold w2. rewrite check_payment_button_exec, Hstatus, Hcu. exact Hs2. }
  assert (Hp2 : payments w2 !! pid = Some (set_status "succeeded" p)).
  { unfold w2. rewrite check_payment_button_exec, Hstatus, Hcp. exact Hp2'. }
  split_and!.
  - exact Hp1.
  - erewrite balance_of_row by (rewrite Hu2; apply lookup_insert_eq). done.
  - rewrite Hu2. by rewrite lookup_insert_eq.
  - by rewrite Hp2.
  - unfold w3. rewrite check_payment_button_exec, Hstatus.
    destruct (check_payment_succeeded_store uid pid w2) as [-> _].
    by apply (settle_settled_users pid "succeeded" _ w2 Hp2).
Qed.

Lemma mock_purchase_end_to_end_witness :
  let w1 := exec (process_purchase shop_mock sdk_down 5 7 "pack30")
              world_three in
  let w2 := exec (check_payment_button shop_mock sdk_down 7
                    "mock_0123456789abcdef") w1 in
  balance_of w2 7 = 33 ∧ (total_spent <$> users w2 !! 7) = Some 499.
Proof.
  pose proof (mock_purchase_end_to_end shop_mock sdk_down sdk_down sdk_down
                5 7 "pack30" _ _ world_three eq_refl (or_introl eq_refl)
                eq_refl) as H.
  cbv zeta in H. destruct H as (_ & Hb & Hs & _).
  split; [exact Hb | exact Hs].
Defined.

(** ** Provider notifications *)

Lemma yookassa_webhook_settles (pc : PayConfig) (post_ok : bool)
    (n : Notification) (pid : string) (w : World) :
  settles n pid →
  exec (yookassa_webhook pc post_ok (Some n)) w
    = exec (update_payment_status pid "succeeded") w ∧
  posted (eval (yookassa_webhook pc post_ok (Some n)) w)
    = match metadata_user_id n with
      | UserId uid =>
          if bool_decide (TELEGRAM_BOT_TOKEN pc ≠ EmptyString) && post_ok
          then [(uid, balance_of
                        (exec (update_payment_status pid "succeeded") w) uid)]
          else []
      | _ => []
      end.
Proof.
  intros (Hev & Hid & Hpid & Hst).
  unfold yookassa_webhook, exec, eval, balance_of, eval.
  rewrite Hid, !bool_decide_eq_true_2 by done.
  rewrite !bind_run. unfold exec, eval.
  destruct (update_payment_status pid "succeeded" w) as [[] w1]. cbn [fst snd].
  destruct (metadata_user_id n) as [| |uid].
  - done.
  - by case_bool_decide.
  - case_bool_decide; [|done].
    unfold get_balance, get_user. monad_run. by destruct post_ok.
Qed.

Lemma yookassa_webhook_ignores (pc : PayConfig) (post_ok : bool)
    (body : option Notification) (w : World) :
  (∀ n pid, body = Some n → ¬ settles n pid) →
  yookassa_webhook pc post_ok body w
  = (eval (yookassa_webhook pc post_ok body) w, w) ∧
  posted (eval (yookassa_webhook pc post_ok body) w) = [].
Proof.
  intros Hno. unfold yookassa_webhook, eval.
  destruct body as [n|]; [|done].
  case_bool_decide as Hev; [|done].
  destruct (object_id n) as [pid|] eqn:Hid; [|done].
  case_bool_decide as Hgate; [|done].
  exfalso. apply (Hno n pid eq_refl). by destruct Hgate.
Qed.

(** X15: the webhook settles on one kind of notification only.  A body that
    is not JSON, an event other than [payment.succeeded], a missing or empty
    payment id or a status other than [succeeded] leaves the whole state as
    it is and posts nothing to the user.  A notification that passes settles
    the payment exactly as [update_payment_status] with [succeeded] does, and
    a message is posted only when its metadata carry a numeric user id, the
    bot token is set and the post goes through; the balance posted is the
    user's balance after the settlement. *)
Theorem webhook_settles_succeeded_payments_only
    (pc : PayConfig) (post_ok : bool) (body : option Notification)
    (w : World) :
  let out := eval (yookassa_webhook pc post_ok body) w in
  let w' := exec (yookassa_webhook pc post_ok body) w in
  ((∀ n pid, body = Some n → ¬ settles n pid) → w' = w ∧ posted out = []) ∧
  (∀ n pid, body = Some n → settles n pid →
     w' = exec (update_payment_status pid "succeeded") w ∧
     (∀ chat b, (chat, b) ∈ posted out →
        metadata_user_id n = UserId chat ∧ TELEGRAM_BOT_TOKEN pc ≠ EmptyString ∧
        post_ok = true ∧ b = balance_of w' chat) ∧
     (∀ chat, metadata_user_id n = UserId chat →
        TELEGRAM_BOT_TOKEN pc ≠ EmptyString → post_ok = true →
        posted out = [(chat, balance_of w' chat)])).
Proof.
  intros out w'. split.
  - intros Hno. destruct (yookassa_webhook_ignores pc post_ok body w Hno)
      as [Hrun Hposted].
    split; [|done]. unfold w', exec. by rewrite Hrun.
  - intros n pid -> Hgate.
    destruct (yookassa_webhook_settles pc post_ok n pid w Hgate)
      as [Hrun Hposted].
    fold w' in Hrun. fold out in Hposted. rewrite <- Hrun in Hposted.
    split_and!; [done| |].
    + intros chat b. rewrite Hposted.
      destruct (metadata_user_id n) as [| |uid];
        [by intros ?%not_elem_of_nil|by intros ?%not_elem_of_nil|].
      case_bool_decide as Htok; cbn [andb]; [|by intros ?%not_elem_of_nil].
      destruct post_ok; [|by intros ?%not_elem_of_nil].
      intros [= -> ->]%list_elem_of_singleton. done.
    + intros chat Hmeta Htok ->. rewrite Hposted, Hmeta.
      by rewrite bool_decide_eq_true_2 by done.
Qed.

Lemma webhook_settles_succeeded_payments_only_witness :
  posted (eval (yookassa_webhook shop_mock true (Some paid_notice))
            world_pending) = [(7, 10)] ∧
  exec (yookassa_webhook shop_mock true None) world_pending = world_pending.
Proof.
  pose proof (webhook_settles_succeeded_payments_only shop_mock true
                (Some paid_notice) world_pending) as Hpaid.
  pose proof (webhook_settles_succeeded_payments_only shop_mock true None
                world_pending) as Hnone.
  cbv zeta in Hpaid, Hnone.
  destruct Hpaid as [_ Hpaid]. destruct Hnone as [Hnone _].
  split.
  - destruct (Hpaid paid_notice "pay-1" eq_refl) as (_ & _ & Hpost).
    { by repeat split. }
    rewrite (Hpost 7 eq_refl); [reflexivity|done|done].
  - apply Hnone. intros n pid [=].
Defined.

(** X16: push and poll together credit once.  For a pending payment whose
    account has a row, a succeeded notification to the webhook credits the
    account the package; the "check payment" button pressed afterwards, and
    the same notification delivered again after that, change no account. *)
Theorem webhook_and_button_credit_once
    (pc : PayConfig) (post_ok post_ok' : bool) (n : Notification) (uid : Z)
    (pid : string) (p : Payment) (u : User) (w : World) :
  settles n pid →
  payments w !! pid = Some p →
  status p = "pending" →
  users w !! user_id p = Some u →
  let w1 := exec (yookassa_webhook pc post_ok (Some n)) w in
  let w2 := exec (check_payment "succeeded" uid pid) w1 in
  let w3 := exec (yookassa_webhook pc post_ok' (Some n)) w2 in
  balance_of w1 (user_id p) = tokens_balance u + recipes_count p ∧
  (total_spent <$> users w1 !! user_id p) = Some (total_spent u + amount p) ∧
  users w2 = users w1 ∧
  users w3 = users w1.
Proof.
  intros Hgate Hp Hpending Hu w1 w2 w3.
  destruct (yookassa_webhook_settles pc post_ok n pid w Hgate) as [Hw1 _].
  fold w1 in Hw1.
  destruct (settle_pending_users pid p u w Hp Hpending Hu) as [Hu1 Hp1].
  rewrite <- Hw1 in Hu1, Hp1.
  assert (Hs1 : status (set_status "succeeded" p) ≠ "pending") by done.
  destruct (settle_settled_users pid "succeeded" _ w1 Hp1 Hs1) as [Hu2 Hp2].
  destruct (check_payment_succeeded_store uid pid w1) as [Hcu Hcp].
  fold w2 in Hcu, Hcp. rewrite <- Hcu in Hu2. rewrite <- Hcp in Hp2.
  destruct (yookassa_webhook_settles pc post_ok' n pid w2 Hgate) as [Hw3 _].
  fold w3 in Hw3.
  assert (Hs2 : status (set_status "succeeded" (set_status "succeeded" p))
                ≠ "pending") by done.
  destruct (settle_settled_users pid "succeeded" _ w2 Hp2 Hs2) as [Hu3 _].
  rewrite <- Hw3 in Hu3.
  split_and!.
  - erewrite balance_of_row by (rewrite Hu1; apply lookup_insert_eq). done.
  - rewrite Hu1. by rewrite lookup_insert_eq.
  - exact Hu2.
  - by rewrite Hu3.
Qed.

Lemma webhook_and_button_credit_once_witness :
  let w1 := exec (yookassa_webhook shop_mock true (Some paid_notice))
              world_pending in
  balance_of w1 7 = 10 ∧
  users (exec (check_payment "succeeded" 7 "pay-1") w1) = users w1.
Proof.
  pose proof (webhook_and_button_credit_once shop_mock true true paid_notice
                7 "pay-1" pack10 guest world_pending) as H.
  cbv zeta in H. destruct H as (Hb & _ & Hu & _); try reflexivity.
  - by repeat split.
  - split; [exact Hb | exact Hu].
Defined.

(** ** Greeting *)

(** X17: [/start] greets by the usage counter and never changes a balance.
    A user without a row gets one with the free recipes and the welcome that
    announces them.  A user with a row keeps the balance; the greeting is
    the same welcome as long as the usage counter is 0, whatever the
    balance, and the welcome back with the current balance once a recipe has
    been made. *)
Theorem cmd_start_greets_by_usage
    (cfg : Config) (now : Z) (user : TgUser) (w : World) :
  let out := eval (cmd_start cfg now user) w in
  let w' := exec (cmd_start cfg now user) w in
  let hello := Welcome (tg_first_name user) (FREE_RECIPES_ON_START cfg) in
  (users w !! tg_id user = None →
     balance_of w' (tg_id user) = FREE_RECIPES_ON_START cfg ∧
     out = [Noted INFO (StartReceived (tg_id user)); Shown hello]) ∧
  (∀ u, users w !! tg_id user = Some u →
     balance_of w' (tg_id user) = tokens_balance u ∧
     out = [Noted INFO (StartReceived (tg_id user));
            Shown (if bool_decide (total_recipes u = 0) then hello
                   else WelcomeBack (tg_first_name user) (tokens_balance u))]) ∧
  (∀ k, k ≠ tg_id user → users w' !! k = users w !! k).
Proof.
  intros out w' hello. unfold out, w', eval, exec, cmd_start.
  rewrite bind_run. unfold eval, exec.
  destruct (users w !! tg_id user) as [u|] eqn:Hu.
  - rewrite (get_or_create_user_old _ _ _ _ _ _ _ Hu). cbn [fst snd].
    monad_run. split_and!.
    + done.
    + intros u0 [= <-]. split; [|done].
      erewrite balance_of_row by apply lookup_insert_eq. done.
    + intros k Hk. by apply lookup_insert_ne.
  - rewrite (get_or_create_user_new _ _ _ _ _ _ Hu). cbn [fst snd].
    monad_run. split_and!.
    + intros _. split; [|done].
      erewrite balance_of_row by apply lookup_insert_eq. done.
    + done.
    + intros k Hk. by apply lookup_insert_ne.
Qed.

Lemma cmd_start_greets_by_usage_witness :
  eval (cmd_start config3 50 anna) empty_world
    = [Noted INFO (StartReceived 7); Shown (Welcome "Anna" 3)] ∧
  eval (cmd_start config3 50 anna) world_spent
    = [Noted INFO (StartReceived 7); Shown (WelcomeBack "Anna" 0)].
Proof.
  pose proof (cmd_start_greets_by_usage config3 50 anna empty_world) as Hnew.
  pose proof (cmd_start_greets_by_usage config3 50 anna world_spent) as Hold.
  cbv zeta in Hnew, Hold.
  destruct Hnew as (Hnew & _). destruct Hold as (_ & Hold & _).
  split.
  - apply Hnew. reflexivity.
  - refine (proj2 (Hold (mkUser "guest" "Guest" 0 0 3 0 0) _)).
    by vm_compute.
Defined.

(** ** Markdown escaping *)

Lemma special_cases (a : ascii) :
  a ∈ markdown_specials ↔
  a = "_"%char ∨ a = "*"%char ∨ a = "`"%char ∨ a = "["%char.
Proof.
  unfold markdown_specials. rewrite !elem_of_cons, elem_of_nil. tauto.
Qed.

Lemma _escape_md_step (a : ascii) (rest : string) :
  _escape_md (String a rest)
  = if bool_decide (a ∈ markdown_specials)
    then String backslash (String a (_escape_md rest))
    else String a (_escape_md rest).
Proof.
  unfold _escape_md, markdown_specials, backslash. cbn [foldl replace_char].
  destruct (Ascii.eqb_spec a "_") as [->|H1].
  { rewrite bool_decide_eq_true_2 by (apply special_cases; tauto). done. }
  cbn [replace_char].
  destruct (Ascii.eqb_spec a "*") as [->|H2].
  { rewrite bool_decide_eq_true_2 by (apply special_cases; tauto). done. }
  cbn [replace_char].
  destruct (Ascii.eqb_spec a "`") as [->|H3].
  { rewrite bool_decide_eq_true_2 by (apply special_cases; tauto). done. }
  cbn [replace_char].
  destruct (Ascii.eqb_spec a "[") as [->|H4].
  { rewrite bool_decide_eq_true_2 by (apply special_cases; tauto). done. }
  rewrite bool_decide_eq_false_2; [done|].
  rewrite special_cases. tauto.
Qed.

(** X18: [_escape_md] puts one backslash before every [_], [*], backquote
    and [[]: the four replacements made one after the other give the same
    text as a single pass that escapes each special character once, so they
    never escape a character twice; the result is longer than the text by
    the number of special characters in it, and a text with none of them is
    returned as it is. *)
Theorem escape_md_escapes_each_once (text : string) :
  _escape_md text = escape_each text ∧
  String.length (_escape_md text)
    = (String.length text + count_specials text)%nat ∧
  (count_specials text = 0%nat → _escape_md text = text).
Proof.
  assert (Hpass : ∀ t, _escape_md t = escape_each t).
  { induction t as [|a rest IH]; [done|].
    rewrite _escape_md_step. cbn [escape_each]. by rewrite IH. }
  rewrite Hpass. split; [done|].
  induction text as [|a rest [IHlen IHsame]]; [done|].
  cbn [escape_each count_specials String.length].
  case_bool_decide; cbn [String.length]; split.
  - rewrite IHlen. lia.
  - done.
  - by rewrite IHlen.
  - intros Hnone. by rewrite IHsame.
Qed.

Lemma escape_md_escapes_each_once_witness :
  _escape_md "snake_case *bold*" = "snake\_case \*bold\*" ∧
  _escape_md "plain text" = "plain text".
Proof.
  split; [reflexivity|].
  exact (proj2 (proj2 (escape_md_escapes_each_once "plain text")) eq_refl).
Defined.

(** ** Callback data *)

Lemma prefix_split (p : string) : ∀ s,
  String.prefix p s = true → ∃ post, s = p +:+ post.
Proof.
  induction p as [|a p IH]; intros s Hpre.
  - by exists s.
  - destruct s as [|b s]; [done|]. cbn in Hpre.
    destruct (ascii_dec a b) as [->|]; [|done].
    destruct (IH s Hpre) as [post ->]. by exists post.
Qed.

Lemma free_of_tail (pat : string) (a : ascii) (rest : string) :
  free_of pat (String a rest) → free_of pat rest.
Proof.
  intros Hfree pre post ->. by apply (Hfree (String a pre) post).
Qed.

Lemma replace_free (pat by_ text : string) :
  free_of pat text → replace_from 0 pat by_ text = text.
Proof.
  induction text as [|a rest IH]; intros Hfree; [done|].
  cbn [replace_from].
  destruct (String.prefix pat (String a rest)) eqn:Hpre.
  - destruct (prefix_split _ _ Hpre) as [post Hpost].
    by destruct (Hfree EmptyString post).
  - f_equal. apply IH. by eapply free_of_tail.
Qed.

Lemma prefix_app (p s : string) : String.prefix p (p +:+ s) = true.
Proof.
  induction p as [|a p IH]; [apply prefix_empty|].
  change (String a p +:+ s) with (String a (p +:+ s)). cbn [String.prefix].
  by destruct (ascii_dec a a).
Qed.

Lemma replace_skip (pat by_ p s : string) :
  replace_from (String.length p) pat by_ (p +:+ s) = replace_from 0 pat by_ s.
Proof.
  induction p as [|a p IH]; [done|].
  change (String a p +:+ s) with (String a (p +:+ s)). exact IH.
Qed.

(** An occurrence at the head of the text is replaced and reading goes on
    behind it. *)
Lemma replace_head (a : ascii) (p by_ s : string) :
  replace_from 0 (String a p) by_ (String a p +:+ s)
  = by_ +:+ replace_from 0 (String a p) by_ s.
Proof.
  pose proof (prefix_app (String a p) s) as Hpre.
  change (String a p +:+ s) with (String a (p +:+ s)) in *.
  cbn [replace_from]. rewrite Hpre. cbn [String.length].
  rewrite Nat.sub_1_r. cbn [Nat.pred]. by rewrite replace_skip.
Qed.

Lemma strip_buy (key : string) :
  free_of "buy_" key →
  str_replace "buy_" EmptyString ("buy_" +:+ key) = key ∧
  str_replace "buy_" EmptyString ("buy_" +:+ "buy_" +:+ key) = key.
Proof.
  intros Hfree. unfold str_replace.
  rewrite !(replace_head "b" "uy_"). by rewrite replace_free.
Qed.

Lemma strip_check_payment (pid : string) :
  free_of "check_payment_" pid →
  str_replace "check_payment_" EmptyString ("check_payment_" +:+ pid) = pid.
Proof.
  intros Hfree. unfold str_replace.
  rewrite (replace_head "c" "heck_payment_"). by rewrite replace_free.
Qed.

(** X20: callback data lead back to what they were made from, as long as
    the prefix does not occur again.  The button [buy_] + key of a package
    key in which [buy_] does not occur runs [process_purchase] for that key,
    and the button [check_payment_] + id of a payment id in which
    [check_payment_] does not occur runs the payment check for that id.
    Every occurrence of the prefix is removed, not only the leading one: the
    button of a package key [buy_] + key runs the purchase for key
    instead. *)
Theorem callback_data_lead_back
    (cfg : Config) (pc : PayConfig) (penv : PayEnv) (env : Env)
    (now uid : Z) (reply_text : option string) (w : World) :
  let press data := handle_callback cfg pc penv env now uid data reply_text w in
  (∀ key, free_of "buy_" key →
     press ("buy_" +:+ key)
       = (inl (eval (process_purchase pc penv now uid key) w),
          exec (process_purchase pc penv now uid key) w) ∧
     press ("buy_" +:+ "buy_" +:+ key) = press ("buy_" +:+ key)) ∧
  (∀ pid, free_of "check_payment_" pid →
     press ("check_payment_" +:+ pid)
       = (inl (eval (check_payment_button pc penv uid pid) w),
          exec (check_payment_button pc penv uid pid) w)).
Proof.
  intros press. unfold press, handle_callback. split.
  - intros key Hfree. destruct (strip_buy key Hfree) as [Hone Htwo].
    rewrite !bool_decide_eq_false_2 by discriminate.
    rewrite !prefix_app, Hone, Htwo. split; [|done].
    rewrite bind_run. reflexivity.
  - intros pid Hfree.
    rewrite !bool_decide_eq_false_2 by discriminate.
    replace (String.prefix "buy_" ("check_payment_" +:+ pid)) with false
      by reflexivity.
    rewrite prefix_app, (strip_check_payment pid Hfree).
    rewrite bind_run. reflexivity.
Qed.
Lemma callback_data_lead_back_witness :
  handle_callback config3 shop_mock sdk_down (env_ok 0) 5 7 "buy_pack10" None
    world_three
  = (inl (eval (process_purchase shop_mock sdk_down 5 7 "pack10") world_three),
     exec (process_purchase shop_mock sdk_down 5 7 "pack10") world_three).
Proof.
  refine (proj1 (proj1 (callback_data_lead_back config3 shop_mock sdk_down
                          (env_ok 0) 5 7 None world_three) "pack10" _)).
  intros pre post H.
  repeat (destruct pre as [|? pre]; [discriminate H|];
          injection H as _ H).
  destruct pre; discriminate H.
Defined.

(** * Settlement for an account without a row *)

(** C1, at the input where the code departs from it: for a [pending]
    payment whose user has no row in [users], [update_payment_status] with
    [succeeded] credits nobody (the [UPDATE] matches no row and the balance
    read for the user stays 0), yet it logs the credit and marks the payment
    [succeeded], so that a second call cannot credit it either. *)
Theorem settle_without_account_credits_nobody
    (w : World) (pid : string) (p : Payment) :
  payments w !! pid = Some p →
  status p = "pending" →
  users w !! user_id p = None →
  let settle := update_payment_status pid "succeeded" in
  let w1 := exec settle w in
  let w2 := exec settle w1 in
  users w1 = users w ∧
  balance_of w1 (user_id p) = 0 ∧
  (status <$> payments w1 !! pid) = Some "succeeded" ∧
  trace w1 = trace w ++ [Logged INFO (Credited (recipes_count p) (user_id p))] ∧
  users w2 = users w ∧
  balance_of w2 (user_id p) = 0.
Proof.
  intros Hp Hpending Hu settle w1 w2.
  assert (Hw1 : w1 = mkWorld (users w) (recipes w)
                        (<[pid := set_status "succeeded" p]> (payments w))
                        (last_request_time w)
                        (trace w ++ [Logged INFO (Credited (recipes_count p)
                                                           (user_id p))])).
  { unfold w1, settle, exec. rewrite (update_payment_status_found _ _ _ _ Hp).
    unfold settled_users, settled_trace. rewrite Hpending.
    rewrite bool_decide_eq_true_2 by done.
    by rewrite (sql_update_absent _ _ _ _ Hu). }
  assert (Hp1 : payments w1 !! pid = Some (set_status "succeeded" p)).
  { rewrite Hw1. apply lookup_insert_eq. }
  assert (Hw2 : users w2 = users w1).
  { unfold w2, settle, exec.
    rewrite (update_payment_status_found _ _ _ _ Hp1). cbn.
    unfold settled_users. cbn.
    by rewrite bool_decide_eq_false_2 by (intros [_ ?]; done). }
  assert (Hu1 : users w1 = users w) by (by rewrite Hw1).
  assert (Hzero : ∀ w', users w' = users w → balance_of w' (user_id p) = 0).
  { intros w' Heq. unfold balance_of, eval, get_balance, get_user. monad_run.
    by rewrite Heq, Hu. }
  split_and!.
  - exact Hu1.
  - by apply Hzero.
  - by rewrite Hp1.
  - by rewrite Hw1.
  - by rewrite Hw2.
  - apply Hzero. by rewrite Hw2.
Qed.

Lemma settle_without_account_credits_nobody_witness :
  let w1 := exec (update_payment_status "pay-8" "succeeded") world_orphan in
  balance_of w1 8 = 0 ∧
  (status <$> payments w1 !! "pay-8") = Some "succeeded" ∧
  users w1 = users world_orphan.
Proof.
  pose proof (settle_without_account_credits_nobody world_orphan "pay-8"
                (mkPayment 8 "pack10" 199 10 "pending" 0)
                eq_refl eq_refl eq_refl) as H.
  cbv zeta in H. destruct H as (Hu & Hb & Hs & _).
  split; [exact Hb|]. split; [exact Hs | exact Hu].
Defined.

(** The same through the handlers: a user without a row buys a package in
    mock mode and presses "check payment"; the payment is marked succeeded,
    the reply announces success with a balance of 0, and no row is
    credited. *)
Lemma purchase_before_start_credits_nobody :
  let w1 := exec (process_purchase shop_mock sdk_down 5 8 "pack10")
              empty_world in
  let w2 := exec (check_payment_button shop_mock sdk_down 8
                    "mock_0123456789abcdef") w1 in
  payments w1 !! "mock_0123456789abcdef"
    = Some (mkPayment 8 "pack10" 199 10 "pending" 5) ∧
  (status <$> payments w2 !! "mock_0123456789abcdef") = Some "succeeded" ∧
  users w2 = ∅ ∧
  sent w2 = [CheckingPayment; PaymentSucceeded 0].
Proof. by vm_compute. Qed.

(** * Handlers with their failing calls *)

Ltac frun :=
  unfold mbind, mret, F_bind, F_ret, M_bind, M_ret, lift, throw, may_fail,
    try_except, WithFaults.say, send, logger, emit, modify, set_trace; cbn.

Ltac trace_eq :=
  first [ exact (eq_sym (app_nil_r _))
        | rewrite <- ?app_assoc; reflexivity ].

(** From the recipe edit on, only messages and log lines are added: either
    the recipe is not shown at all, or it is shown first, with the balance
    read before. *)
Lemma deliver_spec (f : Faults) (uid : Z) (recipe : string) (nb : Z)
    (w : World) :
  ∃ r w' es,
    WithFaults.deliver f uid recipe nb w = (r, w') ∧
    only_trace w w' es ∧
    backend_of es = [] ∧
    ((sent_of es = [] ∧ undeliverable f ∧ ∃ e, r = Threw e) ∨
     (∃ ms, sent_of es = RecipeReady recipe nb :: ms ∧
            (ms = [] ∨ ms = [LastRecipeWarning]))).
Proof.
  unfold WithFaults.deliver, WithFaults.send_recipe, undeliverable, only_trace.
  destruct f as [rej rb ty th de ro sr nbf rcp pl img ph wa er]; cbn.
  destruct rcp as [|text|text]; [|destruct (is_parse_error text) eqn:Hparse|];
    destruct pl, img, ph, wa; try case_bool_decide;
    frun; eexists _, _, _; (split; [reflexivity|]); cbn;
    (split; [split_and!; try reflexivity; trace_eq|]);
    (split; [reflexivity|]); cbn;
    first [ left; split; [reflexivity|]; split; [|by eexists];
            first [done | by left | by right | by auto]
          | right; eexists; split; [reflexivity|]; first [by left | by right] ].
Qed.

(** The [except] branch adds a log line and at most the error message. *)
Lemma on_exception_spec (f : Faults) (uid : Z) (e : string) (w : World) :
  ∃ r w' es,
    WithFaults.on_exception f uid e w = (r, w') ∧
    only_trace w w' es ∧
    backend_of es = [] ∧
    (sent_of es = [] ∨ sent_of es = [GenerationError (py_take 100 e)]).
Proof.
  unfold WithFaults.on_exception, only_trace.
  destruct (on_error f); frun; eexists _, _, _;
    (split; [reflexivity|]); cbn;
    (split; [split_and!; try reflexivity; trace_eq|]);
    (split; [reflexivity|]); cbn; by auto.
Qed.

Lemma no_recipe_nil : no_recipe [].
Proof. intros r nb Hin. by apply not_elem_of_nil in Hin. Qed.

Lemma no_recipe_cons (m : Message) (ms : list Message) :
  (∀ r nb, m ≠ RecipeReady r nb) → no_recipe ms → no_recipe (m :: ms).
Proof.
  intros Hm Hms r nb Hin. apply elem_of_cons in Hin as [Heq|Hin].
  - by apply (Hm r nb).
  - by apply (Hms r nb).
Qed.

Lemma no_recipe_app (ms ms' : list Message) :
  no_recipe ms → no_recipe ms' → no_recipe (ms ++ ms').
Proof.
  intros Hms Hms' r nb Hin. apply elem_of_app in Hin as [Hin|Hin].
  - by apply (Hms r nb).
  - by apply (Hms' r nb).
Qed.

Lemma sent_of_app (es es' : list Event) :
  sent_of (es ++ es') = sent_of es ++ sent_of es'.
Proof. apply omap_app. Qed.

Lemma backend_of_app (es es' : list Event) :
  backend_of (es ++ es') = backend_of es ++ backend_of es'.
Proof. apply omap_app. Qed.

Lemma on_exception_no_recipe (e : string) (es : list Event) :
  sent_of es = [] ∨ sent_of es = [GenerationError (py_take 100 e)] →
  no_recipe (sent_of es).
Proof.
  intros [->| ->]; [apply no_recipe_nil|].
  apply no_recipe_cons; [done|apply no_recipe_nil].
Qed.

(** The [except] branch after the events [es0]. *)
Lemma on_exception_grows (f : Faults) (uid : Z) (e : string) (w W : World)
    (es0 : list Event) :
  trace W = trace w ++ es0 →
  ∃ r w' es1,
    WithFaults.on_exception f uid e W = (r, w') ∧
    users w' = users W ∧ recipes w' = recipes W ∧
    payments w' = payments W ∧
    last_request_time w' = last_request_time W ∧
    trace w' = trace w ++ es0 ++ es1 ∧
    backend_of es1 = [] ∧ no_recipe (sent_of es1).
Proof.
  intros HW.
  destruct (on_exception_spec f uid e W)
    as (r & w' & es & Hrun & (Hu & Hr & Hp & Hl & Ht) & Hb & Hs).
  exists r, w', es. rewrite Ht, HW, <- app_assoc.
  split_and!; try done. by eapply on_exception_no_recipe.
Qed.
Ltac caught f uid e w W es0 :=
  let r := fresh "r" in let w' := fresh "w'" in let es1 := fresh "es1" in
  let Hu := fresh "Hu" in let Hr := fresh "Hr" in let Hp := fresh "Hp" in
  let Hl := fresh "Hl" in let Ht := fresh "Ht" in let Hb := fresh "Hb" in
  let Hs := fresh "Hs" in
  destruct (on_exception_grows f uid e w W es0)
    as (r & w' & es1 & -> & Hu & Hr & Hp & Hl & Ht & Hb & Hs);
  [cbn; trace_eq|];
  cbn in Hu, Hr, Hp, Hl;
  exists r, w', (es0 ++ es1);
  rewrite backend_of_app, sent_of_app, Hb, Hu, Hr, Hp, Hl, Ht;
  (split; [reflexivity|]); cbn.

Lemma try_block_spec (env : Env) (f : Faults) (uid : Z) (user_input : string)
    (w : World) :
  ∃ r w' es,
    try_except (WithFaults.try_block env f uid user_input)
               (WithFaults.on_exception f uid) w = (r, w') ∧
    payments w' = payments w ∧
    last_request_time w' = <[uid := now_stamp env]> (last_request_time w) ∧
    trace w' = trace w ++ es ∧
    backend_of es = [user_input] ∧
    (not_charged w w' (sent_of es) ∨
     charged env f uid user_input w w' (sent_of es)).
Proof.
  unfold not_charged, charged, try_except, WithFaults.try_block.
  unfold update_rate_limit, call_backend. frun.
  set (W := mkWorld _ _ _ _ _).
  destruct (generate_recipe env user_input) as [recipe|reason] eqn:Hgen.
  2: { caught f uid reason w W [BackendCalled user_input].
       split_and!; try done. by left. }
  destruct (on_deduct f) as [e|] eqn:Hded; frun.
  { caught f uid e w W [BackendCalled user_input].
    split_and!; try done. by left. }
  destruct (users w !! uid) as [u|] eqn:Hu;
    [destruct (decide (0 < tokens_balance u)) as [Hpos|Hneg]|].
  2: { rewrite (deduct_token_empty W uid u) by (done || lia). cbn.
       destruct (on_ran_out f) as [e|]; frun.
       - caught f uid e w W [BackendCalled user_input].
         split_and!; try done. by left.
       - eexists _, _, [BackendCalled user_input; Sent TokensRanOut].
         split; [reflexivity|]. cbn. rewrite <- app_assoc.
         split_and!; try done. left. split_and!; try done.
         apply no_recipe_cons; [done|apply no_recipe_nil]. }
  2: { rewrite (deduct_token_unknown W uid) by done. cbn.
       destruct (on_ran_out f) as [e|]; frun.
       - caught f uid e w W [BackendCalled user_input].
         split_and!; try done. by left.
       - eexists _, _, [BackendCalled user_input; Sent TokensRanOut].
         split; [reflexivity|]. cbn. rewrite <- app_assoc.
         split_and!; try done. left. split_and!; try done.
         apply no_recipe_cons; [done|apply no_recipe_nil]. }
  rewrite (deduct_token_positive W uid u) by done. cbn.
  destruct (on_save_recipe f) as [e|] eqn:Hsave.
  { match goal with |- context [WithFaults.on_exception f uid e ?W1] =>
      set (W1' := W1) end.
    caught f uid e w W1' [BackendCalled user_input].
    split_and!; try done. right. exists u, recipe.
    split_and!; try done.
    intros r0 nb Hin. by apply Hs in Hin. }
  unfold save_recipe. frun.
  destruct (on_new_balance f) as [e|] eqn:Hnew.
  { match goal with |- context [WithFaults.on_exception f uid e ?W1] =>
      set (W1' := W1) end.
    caught f uid e w W1' [BackendCalled user_input].
    split_and!; try done. right. exists u, recipe.
    split_and!; try done.
    intros r0 nb Hin. by apply Hs in Hin. }
  unfold get_balance, get_user. monad_run. rewrite lookup_insert_eq. cbn.
  match goal with |- context [WithFaults.deliver _ _ _ _ ?W1] =>
    set (W1' := W1) end.
  destruct (deliver_spec f uid recipe (tokens_balance u - 1) W1')
    as (r & w1 & es & -> & (Hu1 & Hr1 & Hp1 & Hl1 & Ht1) & Hb1 & Hcase).
  cbn in Hu1, Hr1, Hp1, Hl1, Ht1.
  assert (Hmine : ∀ ms r0 nb,
            ms = [] ∨ ms = [LastRecipeWarning] →
            RecipeReady r0 nb ∈ RecipeReady recipe (tokens_balance u - 1) :: ms →
            r0 = recipe ∧ nb = tokens_balance u - 1).
  { intros ms r0 nb Hms Hin. apply elem_of_cons in Hin as [[= -> ->]|Hin]; [done|].
    destruct Hms as [->| ->]; [by apply not_elem_of_nil in Hin|].
    by apply list_elem_of_singleton in Hin. }
  destruct r as [[]|e].
  - exists (Went tt), w1, ([BackendCalled user_input] ++ es).
    rewrite Hu1, Hr1, Hp1, Hl1, Ht1, <- app_assoc.
    rewrite backend_of_app, sent_of_app, Hb1.
    change (sent_of [BackendCalled user_input]) with (@nil Message).
    change (backend_of [BackendCalled user_input]) with [user_input].
    rewrite app_nil_l.
    split_and!; try done. right. exists u, recipe.
    destruct Hcase as [(_ & _ & e & [=])|(ms & -> & Hms)].
    split_and!; try done.
    + intros r0 nb Hin. destruct (Hmine ms r0 nb Hms Hin). done.
    + intros _ _ _. apply list_elem_of_here.
  - destruct (on_exception_grows f uid e w w1
                ([BackendCalled user_input] ++ es))
      as (r & w' & es1 & -> & Hu2 & Hr2 & Hp2 & Hl2 & Ht2 & Hb2 & Hs2).
    { rewrite Ht1, <- app_assoc. done. }
    exists r, w', (([BackendCalled user_input] ++ es) ++ es1).
    rewrite Hu2, Hr2, Hp2, Hl2, Ht2, Hu1, Hr1, Hp1, Hl1.
    rewrite !backend_of_app, !sent_of_app, Hb2, Hb1.
    change (sent_of [BackendCalled user_input]) with (@nil Message).
    change (backend_of [BackendCalled user_input]) with [user_input].
    rewrite app_nil_l.
    split_and!; try done. right. exists u, recipe.
    destruct Hcase as [(-> & Hund & _)|(ms & -> & Hms)].
    + split_and!; try done. intros r0 nb Hin. by apply Hs2 in Hin.
    + split_and!; try done.
      * intros r0 nb Hin. apply elem_of_app in Hin as [Hin|Hin].
        -- destruct (Hmine ms r0 nb Hms Hin). done.
        -- by apply Hs2 in Hin.
      * intros _ _ _. apply elem_of_app. left. apply list_elem_of_here.
Qed.

Lemma lift_run {A} (m : M A) (w : World) :
  lift m w = (Went (eval m w), exec m w).
Proof. unfold lift, eval, exec. by destruct (m w). Qed.

Lemma fbind_run {A B} (m : F A) (k : A → F B) (w : World) :
  (m ≫= k) w = match m w with
               | (Went a, w') => k a w'
               | (Threw e, w') => (Threw e, w')
               end.
Proof. reflexivity. Qed.

Lemma say_run (fault : option string) (m : Message) (w : World) :
  WithFaults.say fault m w
  = match fault with
    | None => (Went tt, set_trace (λ t, t ++ [Sent m]) w)
    | Some e => (Threw e, w)
    end.
Proof. by destruct fault. Qed.

(** A reply that is not a recipe changes nothing but the trace. *)
Lemma say_spec (fault : option string) (m : Message) (w : World) :
  (∀ r nb, m ≠ RecipeReady r nb) →
  ∃ r w' es,
    WithFaults.say fault m w = (r, w') ∧ only_trace w w' es ∧
    backend_of es = [] ∧ no_recipe (sent_of es).
Proof.
  intros Hm. rewrite say_run. unfold only_trace. destruct fault as [e|].
  - exists (Threw e), w, []. rewrite app_nil_r. split_and!; try done.
    apply no_recipe_nil.
  - eexists _, _, [Sent m]. split_and!; try done.
    apply no_recipe_cons; [done|apply no_recipe_nil].
Qed.

Lemma said_trace {A} (m : F A) (w : World) (es : list Event) :
  trace (after m w) = trace w ++ es → said m w = sent_of es.
Proof.
  intros Ht. unfold said, sent. rewrite Ht, omap_app.
  apply drop_app_length.
Qed.

Lemma backend_calls_trace (w w' : World) (es : list Event) :
  trace w' = trace w ++ es →
  backend_calls w' = backend_calls w ++ backend_of es.
Proof. intros Ht. unfold backend_calls. rewrite Ht. apply omap_app. Qed.

(** One request, whatever raises: what it leaves in the state and what it
    adds to the trace. *)
Lemma request_spec (cfg : Config) (env : Env) (f : Faults) (uid : Z)
    (user_input : string) (w : World) :
  ∃ r w' es,
    WithFaults._generate_recipe_for_user cfg env f uid user_input w = (r, w') ∧
    payments w' = payments w ∧
    trace w' = trace w ++ es ∧
    (backend_of es = [] ∨ backend_of es = [user_input]) ∧
    (not_charged w w' (sent_of es) ∨
     charged env f uid user_input w w' (sent_of es)).
Proof.
  assert (Hreply : ∀ m, (∀ r nb, m ≠ RecipeReady r nb) →
    ∃ r w' es,
      WithFaults.say (on_reject f) m w = (r, w') ∧
      payments w' = payments w ∧ trace w' = trace w ++ es ∧
      (backend_of es = [] ∨ backend_of es = [user_input]) ∧
      (not_charged w w' (sent_of es) ∨
       charged env f uid user_input w w' (sent_of es))).
  { intros m Hm.
    destruct (say_spec (on_reject f) m w Hm)
      as (r & w' & es & Hrun & (Hu & Hr & Hp & Hl & Ht) & Hb & Hs).
    exists r, w', es. split_and!; try done; by left. }
  assert (Hthrew :
    payments w = payments w ∧ trace w = trace w ++ [] ∧
    (backend_of [] = [] ∨ backend_of [] = [user_input]) ∧
    (not_charged w w (sent_of []) ∨
     charged env f uid user_input w w (sent_of []))).
  { rewrite app_nil_r. split_and!; try done; [by left|].
    left. split_and!; try done. apply no_recipe_nil. }
  unfold WithFaults._generate_recipe_for_user.
  case_bool_decide; [by apply Hreply|].
  rewrite fbind_run, lift_run, check_rate_limit_reads.
  case_bool_decide; [by apply Hreply|].
  rewrite fbind_run.
  destruct (on_read_balance f) as [e|]; cbn [may_fail].
  { exists (Threw e), w, []. split; [done|]. exact Hthrew. }
  rewrite lift_run, get_balance_reads.
  case_bool_decide; [by apply Hreply|].
  rewrite fbind_run.
  destruct (on_typing f) as [e|]; cbn [may_fail].
  { exists (Threw e), w, []. split; [done|]. exact Hthrew. }
  rewrite lift_run. cbn [eval exec mret M_ret fst snd].
  rewrite fbind_run, say_run.
  destruct (on_thinking f) as [e|].
  { exists (Threw e), w, []. split; [done|]. exact Hthrew. }
  destruct (try_block_spec env f uid user_input
              (set_trace (λ t, t ++ [Sent Thinking]) w))
    as (r & w' & es & -> & Hp & Hl & Ht & Hb & Hcase).
  cbn in Hp, Hl, Ht.
  exists r, w', ([Sent Thinking] ++ es).
  rewrite backend_of_app, sent_of_app, Hb, Ht, <- app_assoc.
  change (backend_of [Sent Thinking]) with (@nil string).
  change (sent_of [Sent Thinking]) with [Thinking].
  split_and!; try done; [by right|].
  destruct Hcase as [(Hu & Hr & Hs)|(u & recipe & Hu & Hpos & Hgen & Hded
                                     & Hu' & Hr & Hshown & Hdeliv)].
  - left. split_and!; try done. by apply no_recipe_cons.
  - right. exists u, recipe. split_and!; try done.
    + intros r0 nb Hin. apply elem_of_cons in Hin as [[=]|Hin].
      by apply Hshown.
    + intros Hs Hn Hd. apply elem_of_cons. right. by apply Hdeliv.
Qed.

(** X4: what a request charges and what it delivers, whatever call raises.
    No payment record and no other account changes, and the backend is
    called at most once, with the prompt.  Either nothing is charged, the
    history is as it was and no recipe is among the messages sent; or the
    backend produced a recipe and the account is charged exactly one token
    (balance down by one, usage counter up by one).  In the second case the
    history row is written unless [save_recipe] raises; a recipe among the
    messages is that recipe, with the balance that is left, and is only sent
    after the row was written and the balance read; and it is sent whenever
    neither of these calls raises and the recipe edit can deliver it.  So a
    recipe shown is always paid for, while a token can be charged without a
    recipe shown: when a call after [deduct_token] raises. *)
Theorem request_charges_before_it_delivers
    (cfg : Config) (env : Env) (f : Faults) (uid : Z) (user_input : string)
    (w : World) :
  let run := WithFaults._generate_recipe_for_user cfg env f uid user_input in
  let w' := after run w in
  payments w' = payments w ∧
  (∀ k, k ≠ uid → users w' !! k = users w !! k) ∧
  (backend_calls w' = backend_calls w ∨
   backend_calls w' = backend_calls w ++ [user_input]) ∧
  (not_charged w w' (said run w) ∨
   charged env f uid user_input w w' (said run w)).
Proof.
  intros run w'.
  destruct (request_spec cfg env f uid user_input w)
    as (r & w1 & es & Hrun & Hp & Ht & Hb & Hcase).
  assert (Hw' : w' = w1) by (unfold w', after, run; by rewrite Hrun).
  assert (Hsaid : said run w = sent_of es).
  { apply said_trace. fold w'. by rewrite Hw'. }
  rewrite Hsaid, Hw'. split_and!; try done.
  - intros k Hk.
    destruct Hcase as [(-> & _)|(u & recipe & _ & _ & _ & _ & -> & _)];
      [done|by apply lookup_insert_ne].
  - rewrite (backend_calls_trace w w1 es Ht).
    destruct Hb as [-> | ->]; [left; by rewrite app_nil_r | by right].
Qed.

(** The recipe edit times out on the last but two recipes of user 7: the
    token is charged and the row saved, and the user is sent the error
    message in place of the recipe. *)
Lemma request_charges_before_it_delivers_witness :
  let run := WithFaults._generate_recipe_for_user config3 (env_ok (seconds 90))
               edit_times_out 7 "cake" in
  balance_of world_three 7 = 3 ∧
  balance_of (after run world_three) 7 = 2 ∧
  recipes (after run world_three)
  = [mkRecipe 7 "cake" "Recipe: cake" (seconds 90)] ∧
  said run world_three = [Thinking; GenerationError "Timed out"] ∧
  charged (env_ok (seconds 90)) edit_times_out 7 "cake" world_three
    (after run world_three) (said run world_three).
Proof.
  intros run. split_and!; try by vm_compute.
  destruct (request_charges_before_it_delivers config3 (env_ok (seconds 90))
              edit_times_out 7 "cake" world_three)
    as (_ & _ & _ & [(Hu & _)|Hcharged]); [|exact Hcharged].
  exfalso. apply (f_equal (λ t, tokens_balance <$> t !! 7)) in Hu.
  vm_compute in Hu. discriminate Hu.
Defined.

(** ** Guards of the orchestrator *)

(** With an [except] branch whose reply can be sent, nothing raised in the
    [try] block leaves it. *)
Lemma try_except_went (f : Faults) (uid : Z) (body : F unit) (w : World) :
  on_error f = None →
  (try_except body (WithFaults.on_exception f uid) w).1 = Went tt.
Proof.
  intros Herr. unfold try_except.
  destruct (body w) as [[[]|e] w1]; [done|].
  unfold WithFaults.on_exception. rewrite Herr. by frun.
Qed.

(** X19: the guards of a request are tried in a fixed order, on the number
    of characters of the prompt, and a rejected request costs nothing.  A
    prompt of more characters than the limit is answered with the limit,
    whatever the cooldown and the balance; otherwise a request inside the
    cooldown is answered with the seconds to wait, whatever the balance;
    otherwise an empty balance is answered with the offer to buy.  In these
    cases the state changes by that one message only, and by nothing when
    sending it raises; the same holds when reading the balance, the typing
    action or the first reply raises, and what is raised there leaves the
    function.  A request that gets past all of these is stamped and reaches
    the backend exactly once, with the prompt as given, and nothing raised
    later leaves the function unless the error reply itself cannot be
    sent. *)
Theorem request_guards_in_order_of_source
    (cfg : Config) (env : Env) (f : Faults) (uid : Z) (user_input : string)
    (w : World) :
  let run := WithFaults._generate_recipe_for_user cfg env f uid user_input in
  let wait := eval (check_rate_limit cfg (now_check env) uid) w in
  let answers m :=
    run w = match on_reject f with
            | None => (Went tt, set_trace (λ t, t ++ [Sent m]) w)
            | Some e => (Threw e, w)
            end in
  (MAX_PROMPT_LENGTH cfg < py_len user_input →
     answers (TooLong (MAX_PROMPT_LENGTH cfg))) ∧
  (py_len user_input ≤ MAX_PROMPT_LENGTH cfg → 0 < wait →
     answers (MustWait wait)) ∧
  (py_len user_input ≤ MAX_PROMPT_LENGTH cfg → wait ≤ 0 →
     ∀ e, on_read_balance f = Some e → run w = (Threw e, w)) ∧
  (py_len user_input ≤ MAX_PROMPT_LENGTH cfg → wait ≤ 0 →
     on_read_balance f = None → balance_of w uid ≤ 0 →
     answers NoRecipesLeft) ∧
  (py_len user_input ≤ MAX_PROMPT_LENGTH cfg → wait ≤ 0 →
     on_read_balance f = None → 0 < balance_of w uid →
     match on_typing f, on_thinking f with
     | Some e, _ | None, Some e => run w = (Threw e, w)
     | None, None =>
         last_request_time (after run w)
         = <[uid := now_stamp env]> (last_request_time w) ∧
         backend_calls (after run w) = backend_calls w ++ [user_input] ∧
         (on_error f = None → result run w = Went tt)
     end).
Proof.
  intros run wait answers.
  unfold answers, run, wait, WithFaults._generate_recipe_for_user.
  split_and!.
  - intros Hlong. rewrite bool_decide_eq_true_2 by done. apply say_run.
  - intros Hlen Hwait. rewrite bool_decide_eq_false_2 by lia.
    rewrite fbind_run, lift_run, check_rate_limit_reads.
    rewrite bool_decide_eq_true_2 by done. apply say_run.
  - intros Hlen Hwait e He. rewrite bool_decide_eq_false_2 by lia.
    rewrite fbind_run, lift_run, check_rate_limit_reads.
    rewrite bool_decide_eq_false_2 by lia.
    rewrite fbind_run, He. reflexivity.
  - intros Hlen Hwait Hread Hbal. rewrite bool_decide_eq_false_2 by lia.
    rewrite fbind_run, lift_run, check_rate_limit_reads.
    rewrite bool_decide_eq_false_2 by lia.
    rewrite fbind_run, Hread. cbn [may_fail].
    rewrite lift_run, get_balance_reads.
    rewrite bool_decide_eq_true_2 by done. apply say_run.
  - intros Hlen Hwait Hread Hbal.
    unfold after, result.
    rewrite bool_decide_eq_false_2 by lia.
    rewrite fbind_run, lift_run, check_rate_limit_reads.
    rewrite bool_decide_eq_false_2 by lia.
    rewrite fbind_run, Hread. cbn [may_fail].
    rewrite lift_run, get_balance_reads.
    rewrite bool_decide_eq_false_2 by (unfold balance_of in Hbal; lia).
    rewrite fbind_run.
    destruct (on_typing f) as [e|]; [reflexivity|]. cbn [may_fail].
    rewrite lift_run. cbn [eval exec mret M_ret fst snd].
    rewrite fbind_run, say_run.
    destruct (on_thinking f) as [e|]; [reflexivity|].
    destruct (try_block_spec env f uid user_input
                (set_trace (λ t, t ++ [Sent Thinking]) w))
      as (r & w' & es & Hrun & Hp & Hl & Ht & Hb & _).
    split_and!.
    + by rewrite Hrun.
    + rewrite Hrun. cbn [snd]. cbn in Ht.
      rewrite (backend_calls_trace w w' ([Sent Thinking] ++ es))
        by (by rewrite Ht, <- app_assoc).
      by rewrite backend_of_app, Hb.
    + apply try_except_went.
Qed.

(** A prompt of 300 Cyrillic letters is 600 bytes long and within the limit
    of 500 characters: the request is served. *)
Lemma request_guards_in_order_of_source_witness :
  let run := WithFaults._generate_recipe_for_user config3 (env_ok (seconds 90))
               no_faults 7 cyrillic_prompt in
  py_len cyrillic_prompt = 300 ∧ len cyrillic_prompt = 600 ∧
  backend_calls (after run world_three)
  = backend_calls world_three ++ [cyrillic_prompt] ∧
  result run world_three = Went tt.
Proof.
  intros run.
  destruct (request_guards_in_order_of_source config3 (env_ok (seconds 90))
              no_faults 7 cyrillic_prompt world_three)
    as (_ & _ & _ & _ & Hserved).
  split; [by vm_compute|]. split; [by vm_compute|].
  pose proof (Hserved ltac:(by vm_compute) ltac:(by vm_compute) eq_refl
                ltac:(by vm_compute)) as (_ & Hcalls & Hwent).
  split; [exact Hcalls|exact (Hwent eq_refl)].
Defined.

(** ** Purchase *)

(** A created payment carries the price and the number of recipes of its
    package. *)
Lemma create_payment_data (pc : PayConfig) (penv : PayEnv) (uid : Z)
    (package_key : string) (pkg : Package) (data : PaymentData)
    (notes : list Output) :
  PACKAGES pc !! package_key = Some pkg →
  create_payment pc penv uid package_key = (Return data, notes) →
  pd_amount data = pkg_price pkg ∧ pd_recipes_count data = pkg_recipes pkg.
Proof.
  intros Hpkg. unfold create_payment. rewrite Hpkg.
  destruct (YOOKASSA_USE_MOCK pc || negb (YOOKASSA_AVAILABLE pc)
            || bool_decide (YOOKASSA_SHOP_ID pc = "test_shop"
                            ∨ YOOKASSA_SHOP_ID pc = EmptyString)).
  - unfold _create_mock_payment. by intros [= <- _].
  - unfold _create_real_payment.
    destruct (sdk_create penv _ _ _ _ _) as [[pid url]|reason]; [|done].
    by intros [= <- _].
Qed.

Lemma no_offer_seen (notes : list Output) (tail : list BuyEvent) :
  (∀ pkg data, BuyOffer pkg data ∉ tail) →
  ∀ pkg data,
    BuyOffer pkg data ∉ BuyCreating :: (BuyNote <$> notes) ++ tail.
Proof.
  intros Htail pkg data Hin. apply elem_of_cons in Hin as [[=]|Hin].
  apply elem_of_app in Hin as [Hin|Hin].
  - apply list_elem_of_fmap in Hin as (o & [=] & _).
  - by apply (Htail pkg data).
Qed.

Lemma no_offer_failed (uid : Z) (c : Caught) :
  ∀ pkg data, BuyOffer pkg data ∉ [BuyFailed c; BuyErrorLogged uid c].
Proof.
  intros pkg data Hin. apply elem_of_cons in Hin as [[=]|Hin].
  by apply list_elem_of_singleton in Hin.
Qed.

(** X13: what [process_purchase] records and shows, whatever call raises.
    No account changes.  The payment record is written exactly when the
    package is listed, the first reply is sent, [create_payment] returns
    and [save_payment] does not raise: the record under the new payment id
    is then replaced by a [pending] one for this user with the listed price
    and number of recipes, and otherwise no payment record changes.  The
    offer is shown only with the record written; when showing it raises,
    the record stays written and the user is shown the failure text in its
    place.  What [create_payment], [save_payment] or the offer raise is
    answered with the failure text and logged; what the replies outside the
    [try] block or the failure text itself raise leaves the function. *)
Theorem process_purchase_records_saved_payment
    (pc : PayConfig) (penv : PayEnv) (f : PurchaseFaults) (now uid : Z)
    (package_key : string) (w : World) :
  let run := WithFaults.process_purchase pc penv f now uid package_key w in
  let res := run.1.1 in
  let out := run.1.2 in
  let w' := run.2 in
  let failed seen c :=
    match buy_failed f with
    | None => res = Went tt ∧
              out = seen ++ [BuyFailed c; BuyErrorLogged uid c]
    | Some e => res = Threw e ∧ out = seen
    end in
  users w' = users w ∧
  ((payments w' = payments w ∧ (∀ pkg data, BuyOffer pkg data ∉ out) ∧
    ((PACKAGES pc !! package_key = None ∧
      match buy_invalid f with
      | None => res = Went tt ∧ out = [BuyInvalid]
      | Some e => res = Threw e ∧ out = []
      end) ∨
     (∃ e, is_Some (PACKAGES pc !! package_key) ∧
           buy_creating f = Some e ∧ res = Threw e ∧ out = []) ∨
     (∃ e notes,
        buy_creating f = None ∧
        create_payment pc penv uid package_key = (Raise e, notes) ∧
        failed (BuyCreating :: (BuyNote <$> notes)) (CreateError e)) ∨
     (∃ e data notes,
        buy_creating f = None ∧
        create_payment pc penv uid package_key = (Return data, notes) ∧
        buy_save f = Some e ∧
        failed (BuyCreating :: (BuyNote <$> notes)) (Fault e)))) ∨
   (∃ pkg data notes,
      PACKAGES pc !! package_key = Some pkg ∧
      buy_creating f = None ∧
      create_payment pc penv uid package_key = (Return data, notes) ∧
      buy_save f = None ∧
      payments w' = <[payment_id data :=
                        mkPayment uid package_key (pkg_price pkg)
                          (pkg_recipes pkg) "pending" now]> (payments w) ∧
      match buy_offer f with
      | None => res = Went tt ∧
                out = BuyCreating :: (BuyNote <$> notes)
                      ++ [BuyOffer pkg data]
      | Some e => (∀ pkg' data', BuyOffer pkg' data' ∉ out) ∧
                  failed (BuyCreating :: (BuyNote <$> notes)) (Fault e)
      end)).
Proof.
  intros run res out w' failed.
  unfold failed, res, out, w', run, WithFaults.process_purchase.
  assert (Hnil : ∀ pkg data, BuyOffer pkg data ∉ @nil BuyEvent).
  { intros pkg data Hin. by apply not_elem_of_nil in Hin. }
  assert (Hseen : ∀ notes pkg data,
            BuyOffer pkg data ∉ BuyCreating :: (BuyNote <$> notes)).
  { intros notes pkg data Hin.
    apply (no_offer_seen notes [] Hnil pkg data). by rewrite app_nil_r. }
  destruct (PACKAGES pc !! package_key) as [pkg|] eqn:Hpkg.
  2: { destruct (buy_invalid f) as [e|]; cbn; (split; [done|]); left;
         (split; [done|]); (split; [|by left]); [done|].
       intros pkg data Hin. by apply list_elem_of_singleton in Hin. }
  destruct (buy_creating f) as [e|] eqn:Hcreating.
  { cbn. split; [done|]. left. split; [done|]. split; [done|].
    right. left. by exists e. }
  destruct (create_payment pc penv uid package_key) as [[data|e] notes]
    eqn:Hcreate.
  2: { destruct (buy_failed f) as [e'|]; cbn; (split; [done|]); left;
         (split; [done|]); (split; [|right; right; left; by exists e, notes]).
       - apply Hseen.
       - apply (no_offer_seen notes), no_offer_failed. }
  destruct (create_payment_data _ _ _ _ _ _ _ Hpkg Hcreate) as [Hamt Hcount].
  destruct (buy_save f) as [e|] eqn:Hsave.
  { destruct (buy_failed f) as [e'|]; cbn; (split; [done|]); left;
      (split; [done|]);
      (split; [|right; right; right; by exists e, data, notes]).
    - apply Hseen.
    - apply (no_offer_seen notes), no_offer_failed. }
  destruct (buy_offer f) as [e|] eqn:Hoffer.
  - destruct (buy_failed f) as [e'|]; cbn; (split; [done|]); right;
      exists pkg, data, notes; rewrite Hamt, Hcount;
      split_and!; try done;
      first [apply Hseen | apply (no_offer_seen notes), no_offer_failed].
  - cbn. split; [done|]. right. exists pkg, data, notes.
    rewrite Hamt, Hcount. split_and!; done.
Qed.

(** The offer cannot be shown: the payment stays recorded as [pending] and
    the user is shown the failure text. *)
Lemma process_purchase_records_saved_payment_witness :
  let run := WithFaults.process_purchase shop_mock sdk_down offer_fails 5 8
               "pack10" empty_world in
  (status <$> payments run.2 !! "mock_0123456789abcdef") = Some "pending" ∧
  (∀ pkg data, BuyOffer pkg data ∉ run.1.2) ∧
  BuyFailed (Fault "Timed out") ∈ run.1.2.
Proof.
  intros run.
  destruct (process_purchase_records_saved_payment shop_mock sdk_down
              offer_fails 5 8 "pack10" empty_world)
    as (_ & [(Hsame & _)|(pkg & data & notes & _ & _ & _ & _ & _ & Hshown)]).
  - exfalso. apply (f_equal (λ t, status <$> t !! "mock_0123456789abcdef"))
      in Hsame. vm_compute in Hsame. discriminate Hsame.
  - split; [by vm_compute|]. destruct Hshown as (Hnone & _).
    split; [exact Hnone|].
    unfold run. vm_compute. apply elem_of_cons. right.
    apply elem_of_cons. right. apply list_elem_of_here.
Defined.

(** ** The handlers when nothing raises *)

Lemma ascii_not_continuation (a : ascii) :
  (nat_of_ascii a < 128)%nat → is_continuation a = false.
Proof.
  intros Ha. unfold is_continuation.
  destruct (Nat.leb_spec 128 (nat_of_ascii a)); [lia|done].
Qed.

Lemma py_len_ascii (s : string) : ascii_only s → py_len s = len s.
Proof.
  unfold len. induction s as [|a s IH]; [done|]. intros [Ha Hs].
  cbn [py_len String.length]. rewrite (ascii_not_continuation a Ha), IH by done.
  lia.
Qed.

Lemma py_take_ascii (s : string) : ∀ n,
  ascii_only s → py_take n s = String.substring 0 n s.
Proof.
  induction s as [|a s IH]; intros n Hs; [by destruct n|].
  destruct Hs as [Ha Hs]. cbn [py_take].
  rewrite (ascii_not_continuation a Ha).
  destruct n as [|n]; [done|]. cbn [String.substring]. by rewrite IH.
Qed.

(** On prompts and exception texts of ASCII characters, and with no call
    raising, the request with its failing calls is the request of the
    model in which the transport and the store always answer. *)
Lemma request_without_faults (cfg : Config) (env : Env) (uid : Z)
    (user_input : string) (w : World) :
  ascii_only user_input →
  (∀ e, generate_recipe env user_input = Raised e → ascii_only e) →
  WithFaults._generate_recipe_for_user cfg env no_faults uid user_input w
  = (Went tt, exec (_generate_recipe_for_user cfg env uid user_input) w).
Proof.
  intros Hascii Hraised.
  unfold WithFaults._generate_recipe_for_user, _generate_recipe_for_user, exec.
  rewrite (py_len_ascii _ Hascii).
  case_bool_decide; [done|].
  rewrite fbind_run, lift_run, check_rate_limit_reads, bind_run,
    check_rate_limit_reads.
  case_bool_decide; [done|].
  rewrite fbind_run, bind_run. cbn [may_fail no_faults on_read_balance].
  rewrite lift_run, get_balance_reads.
  case_bool_decide; [done|].
  unfold WithFaults.try_block, WithFaults.on_exception, WithFaults.deliver,
    WithFaults.send_recipe, update_rate_limit, call_backend.
  cbn [no_faults on_typing on_thinking on_deduct on_ran_out on_save_recipe
       on_new_balance on_recipe on_plain image on_photo on_warning on_error].
  frun. monad_run. unfold save_recipe. monad_run.
  destruct (generate_recipe env user_input) as [recipe|e] eqn:Hgen.
  - unfold lift. destruct (deduct_token uid _) as [[] w1]; cbn; [|done].
    destruct (get_balance uid _) as [nb w2]. cbn.
    by case_bool_decide.
  - cbn. by rewrite (py_take_ascii e 100 (Hraised e eq_refl)).
Qed.

(** With no call raising, [process_purchase] with its failing calls returns
    and leaves the state of the model in which the transport and the store
    always answer. *)
Lemma purchase_without_faults (pc : PayConfig) (penv : PayEnv) (now uid : Z)
    (package_key : string) (w : World) :
  let run := WithFaults.process_purchase pc penv
               (mkPurchaseFaults None None None None None) now uid
               package_key w in
  run.1.1 = Went tt ∧
  run.2 = exec (process_purchase pc penv now uid package_key) w.
Proof.
  unfold WithFaults.process_purchase, process_purchase, exec. cbn.
  destruct (PACKAGES pc !! package_key) as [pkg|]; [|done].
  destruct (create_payment pc penv uid package_key) as [[data|e] notes];
    [|done].
  unfold save_payment. by monad_run.
Qed.
